(** * The RINEX printer of GNSS-SDR, embedded and verified

    A shallow embedding of [src/algorithms/PVT/libs/rinex_printer.cc]:
    the constructor and destructor of [Rinex_Printer], the record and
    header writers, the GPS-time-to-calendar conversion, the curve-fit
    interval selection and the signal-strength mapping.

    Conventions.
    - A C++ [int] is a [Z]; where the source can overflow, the 32-bit
      wrap-around is written out with [Cpp.wrap32].
    - A C++ [double] is a primitive binary64 [float].
    - A [std::string] is a [string]; its [size()] is [String.length].
    - A [std::map<int,T>] is a key-sorted association list, iterated in
      ascending key order as the source does with [begin()]..[end()].
    - A writer runs in a small output monad: it appends lines to the
      stream, appends diagnostics to the log, and may throw. *)

From Stdlib Require Import ZArith Lia List String Ascii Bool.
From Stdlib Require Import Floats.
Import ListNotations.

Local Open Scope string_scope.
Local Open Scope Z_scope.

(** ** C++ scalars *)

Module Cpp.

Definition INT_MIN : Z := -2147483648.
Definition INT_MAX : Z := 2147483647.

(** Two's complement reduction of a mathematical integer to [int]. *)
Definition wrap32 (z : Z) : Z := (z + 2147483648) mod 4294967296 - 2147483648.

(** The signed integer [(-1)^s * m]. *)
Definition signed (s : bool) (m : positive) : Z :=
  if s then Z.neg m else Z.pos m.

(** [floor(x)] as an exact integer.  A finite double is [±m * 2^e];
    [Z.shiftl] by a negative amount is the flooring shift to the
    right.  NaN and the infinities have no integer value. *)
Definition floor_double (x : float) : option Z :=
  match Prim2SF x with
  | S754_zero _ => Some 0
  | S754_finite s m e => Some (Z.shiftl (signed s m) e)
  | S754_infinity _ | S754_nan => None
  end.

(** [trunc(x)]: rounding toward zero. *)
Definition trunc_double (x : float) : option Z :=
  match Prim2SF x with
  | S754_zero _ => Some 0
  | S754_finite s m e =>
      let a := Z.shiftl (Z.pos m) e in Some (if s then - a else a)
  | S754_infinity _ | S754_nan => None
  end.

(** A floating-integral conversion is defined only when the value
    fits the destination type. *)
Definition int_cast (z : Z) : option Z :=
  if (INT_MIN <=? z) && (z <=? INT_MAX) then Some z else None.

Definition INT64_MIN : Z := - 2 ^ 63.
Definition INT64_MAX : Z := 2 ^ 63 - 1.

Definition int64_cast (z : Z) : option Z :=
  if (INT64_MIN <=? z) && (z <=? INT64_MAX) then Some z else None.

(** [(double)i] for an [int] [i]: exact, since |i| < 2^53. *)
Definition double_of_int (i : Z) : float :=
  if i <? 0 then (- PrimFloat.of_uint63 (Uint63.of_Z (- i)))%float
  else PrimFloat.of_uint63 (Uint63.of_Z i).

(** [a.compare(b)]: negative, zero or positive. *)
Definition compare (a b : string) : Z :=
  match String.compare a b with
  | Eq => 0
  | Lt => -1
  | Gt => 1
  end.

End Cpp.

(** ** Text *)

Module Text.

(** [std::string(n, c)] for a small constant [n]. *)
Fixpoint replicate (n : nat) (c : ascii) : string :=
  match n with
  | O => ""
  | S n' => String c (replicate n' c)
  end.

Definition spaces (n : nat) : string := replicate n " ".

Definition digit (d : Z) : ascii := ascii_of_nat (48 + Z.to_nat d).

(** The decimal digits of [n >= 0], most significant first, in front
    of [acc]. *)
Fixpoint dec_digits (fuel : nat) (n : Z) (acc : string) : string :=
  match fuel with
  | O => acc
  | S fuel' =>
      let acc' := String (digit (n mod 10)) acc in
      if n <? 10 then acc' else dec_digits fuel' (n / 10) acc'
  end.

Definition dec (n : Z) : string :=
  dec_digits (S (Z.to_nat (Z.log2 n))) n "".

(** [stream << i] and [boost::lexical_cast<std::string>(i)] for an
    integer [i]: its decimal numeral. *)
Definition string_of_int (i : Z) : string :=
  if i <? 0 then String "-" (dec (- i)) else dec i.

(** Two lowercase hexadecimal digits,
    [std::hex << std::setfill('0') << std::setw(2) << int(b)]
    for a byte [b]. *)
Definition hex_digit (d : Z) : ascii :=
  if d <? 10 then digit d else ascii_of_nat (87 + Z.to_nat d).

Definition hex2 (b : Z) : string :=
  String (hex_digit (b / 16)) (String (hex_digit (b mod 16)) "").

End Text.

(** ** Failures *)

(** How a call can end other than by returning. *)
Inductive failure : Type :=
| length_error   (* [std::length_error]: a string longer than [max_size()] *)
| out_of_range   (* [std::out_of_range]: a position past the end of a
                    string, a date outside the range of Boost *)
| undefined.     (* behaviour the language leaves undefined *)

Inductive result (A : Type) : Type :=
| Ok (a : A)
| Raise (f : failure).

Arguments Ok {A} a.
Arguments Raise {A} f.

(** ** Field formatter *)

(** Modelled from the spec: [leftJustify] is declared in
    [rinex_printer.h], which is not among the sources.  The spec has it
    pad with spaces on the right up to [width] and return the original
    text when that is longer than [width]. *)
Definition leftJustify (s : string) (width : nat) : string :=
  if (width <? String.length s)%nat then s
  else s ++ Text.spaces (width - String.length s).

(** Modelled from the spec: [rightJustify] with an explicit pad
    character, declared in the same missing header: pad on the left up
    to [width], the original text when it is longer. *)
Definition rightJustify_pad (s : string) (width : nat) (pad : ascii) : string :=
  if (width <? String.length s)%nat then s
  else Text.replicate (width - String.length s) pad ++ s.

Definition rightJustify (s : string) (width : nat) : string :=
  rightJustify_pad s width " ".

(** Modelled from the spec: [asFixWidthString] of the missing header,
    the fixed-width integer rendering with a configurable pad character:
    the numeral padded on the left, of which the last [width] characters
    are kept, so that the result always has [width] characters. *)
Definition asFixWidthString (x : Z) (width : nat) (fill_digit : ascii) : string :=
  let s := rightJustify_pad (Text.string_of_int x) width fill_digit in
  substring (String.length s - width) width s.

(** [std::string(s, pos, len)]: the characters from [pos], at most
    [len] of them; [pos] past the end throws. *)
Definition substr (s : string) (pos len : nat) : result string :=
  if (String.length s <? pos)%nat then Raise out_of_range
  else Ok (substring pos len s).

(** The largest string the library builds, [max_size()]; its exact
    value is the implementation's and is below [2^63] everywhere. *)
Definition max_size : Z := 2 ^ 62 - 1.

(** [a - b] on [size_t]: unsigned, modulo [2^64]. *)
Definition size_sub (a b : Z) : Z := (a - b) mod 2 ^ 64.

(** [std::string(n, c)] for a computed [size_t] [n]. *)
Definition string_fill (n : Z) (c : ascii) : result string :=
  if max_size <? n then Raise length_error
  else Ok (Text.replicate (Z.to_nat n) c).

(** *** Doubles in fixed notation *)

(** [num / den] rounded to the nearest integer, ties to even. *)
Definition round_half_even (num den : Z) : Z :=
  let q := num / den in
  let r := num mod den in
  if 2 * r <? den then q
  else if 2 * r =? den then (if Z.even q then q else q + 1)
  else q + 1.

(** [|x| * 10^precision] rounded to an integer, for [|x| = m * 2^e]. *)
Definition fixed_digits (m : positive) (e : Z) (precision : nat) : Z :=
  let scale := 10 ^ Z.of_nat precision in
  if 0 <=? e then Z.pos m * 2 ^ e * scale
  else round_half_even (Z.pos m * scale) (2 ^ (- e)).

Definition fixed_of_digits (neg : bool) (N : Z) (precision : nat) : string :=
  let scale := 10 ^ Z.of_nat precision in
  (if neg then "-" else "")
  ++ Text.dec (N / scale)
  ++ match precision with
     | O => ""
     | _ => "." ++ rightJustify_pad (Text.dec (N mod scale)) precision "0"
     end.

(** Modelled from the spec: [asString(x, precision)] of the missing
    header, which the spec describes only through its use for the
    fixed-point columns of a record (F14.3, F11.7): the value in fixed
    notation with [precision] decimals, correctly rounded, as
    [stream << std::fixed << std::setprecision(precision) << x]. *)
Definition asString_double (x : float) (precision : nat) : string :=
  match Prim2SF x with
  | S754_zero s => fixed_of_digits s 0 precision
  | S754_finite s m e => fixed_of_digits s (fixed_digits m e precision) precision
  | S754_infinity s => if s then "-inf" else "inf"
  | S754_nan => "nan"
  end.

(** *** Library functions on doubles *)

Definition of_signed (neg : bool) (n : Z) : float :=
  let f := PrimFloat.of_uint63 (Uint63.of_Z n) in
  if neg then (- f)%float else f.

(** [fmod(x, y)]: the exact remainder of the truncated division, with
    the sign of [x]. *)
Definition fmod (x y : float) : float :=
  match Prim2SF x, Prim2SF y with
  | S754_nan, _ | _, S754_nan | S754_infinity _, _ | _, S754_zero _ => nan
  | S754_zero _, _ => x
  | S754_finite _ _ _, S754_infinity _ => x
  | S754_finite sx mx ex, S754_finite _ my ey =>
      let e0 := Z.min ex ey in
      let X := Z.pos mx * 2 ^ (ex - e0) in
      let Y := Z.pos my * 2 ^ (ey - e0) in
      Z.ldexp (of_signed sx (X mod Y)) e0
  end.

(** [round(x)]: to the nearest integer, ties away from zero. *)
Definition round (x : float) : float :=
  match Prim2SF x with
  | S754_finite s m e =>
      if 0 <=? e then x
      else
        let den := 2 ^ (- e) in
        let q := Z.pos m / den in
        let r := Z.pos m mod den in
        of_signed s (if 2 * r <? den then q else q + 1)
  | _ => x
  end.

(** ** [std::map<int,T>] *)

Section StdMap.
Context {V : Type}.

Definition std_map := list (Z * V).

Fixpoint map_find (m : std_map) (k : Z) : option V :=
  match m with
  | [] => None
  | (k', v) :: m' => if k' =? k then Some v else map_find m' k
  end.

(** [m[k] = v]: keeps the keys in ascending order, one entry per key. *)
Fixpoint map_insert (k : Z) (v : V) (m : std_map) : std_map :=
  match m with
  | [] => [(k, v)]
  | (k', v') :: m' =>
      if k <? k' then (k, v) :: m
      else if k =? k' then (k, v) :: m'
      else (k', v') :: map_insert k v m'
  end.

(** Reading [m[k]]: the stored value, or a value-initialised one. *)
Definition map_at (dflt : V) (m : std_map) (k : Z) : V :=
  match map_find m k with
  | Some v => v
  | None => dflt
  end.

Definition map_keys (m : std_map) : list Z := List.map fst m.

End StdMap.

Arguments std_map : clear implicits.

(** ** Data handed over by the receiver *)

(** The members of [Gps_Ephemeris] that the printer reads. *)
Record Gps_Ephemeris := mkEph {
  i_satellite_PRN : Z;
  d_TOW : float;
  d_Crs : float;
  d_Delta_n : float;
  d_M_0 : float;
  d_Cuc : float;
  d_e_eccentricity : float;
  d_Cus : float;
  d_sqrt_A : float;
  d_Toe : float;
  d_Cic : float;
  d_OMEGA0 : float;
  d_Cis : float;
  d_i_0 : float;
  d_Crc : float;
  d_OMEGA : float;
  d_OMEGA_DOT : float;
  d_IDOT : float;
  i_code_on_L2 : Z;
  i_GPS_week : Z;
  i_SV_accuracy : Z;
  i_SV_health : Z;
  d_TGD : float;
  d_IODC : float;
  d_A_f0 : float;
  d_A_f1 : float;
  d_A_f2 : float;
  satelliteBlock : std_map string
}.

(** The members of [Gnss_Synchro] that the printer reads. *)
Record Gnss_Synchro := mkSynchro {
  Pseudorange_m : float;
  Carrier_phase_rads : float;
  Carrier_Doppler_hz : float;
  CN0_dB_hz : float
}.

(** ** Boost date-time

    The part of Boost.Date_Time that the printer calls: a time point at
    microsecond resolution, built from a date and a duration, and its
    ISO rendering. *)

Module Boost.

(** [gregorian_calendar::day_number] *)
Definition day_number (y m d : Z) : Z :=
  let a := (14 - m) / 12 in
  let y' := y + 4800 - a in
  let m' := m + 12 * a - 3 in
  d + (153 * m' + 2) / 5 + 365 * y' + y' / 4 - y' / 100 + y' / 400 - 32045.

(** [gregorian_calendar::from_day_number] *)
Definition from_day_number (dn : Z) : Z * Z * Z :=
  let a := dn + 32044 in
  let b := (4 * a + 3) / 146097 in
  let c := a - (146097 * b) / 4 in
  let d := (4 * c + 3) / 1461 in
  let e := c - (1461 * d) / 4 in
  let m := (5 * e + 2) / 153 in
  (100 * b + d - 4800 + m / 10, m + 3 - 12 * (m / 10), e - (153 * m + 2) / 5 + 1).

Definition ticks_per_day : Z := 86400000000.

(** A [ptime] is its count of microseconds since day number 0. *)
Definition ptime : Type := Z.

(** [millisec(ms)]: a duration in ticks, held in 64 bits. *)
Definition millisec (ms : Z) : result Z :=
  match Cpp.int64_cast (ms * 1000) with
  | Some ticks => Ok ticks
  | None => Raise undefined
  end.

(** [ptime(date(y, m, d), td)] *)
Definition make_ptime (y m d : Z) (td : Z) : result ptime :=
  match Cpp.int64_cast (day_number y m d * ticks_per_day + td) with
  | Some t => Ok t
  | None => Raise undefined
  end.

(** [stream << std::setw(w) << std::setfill('0') << n] *)
Definition zero_padded (w : nat) (n : Z) : string :=
  rightJustify_pad (Text.string_of_int n) w "0".

(** [to_iso_string(t)]: YYYYMMDDTHHMMSS, followed by a point and six
    digits when the fraction of the second is not zero.  The year,
    month and day are range-checked values (1400..9999, 1..12, 1..31)
    whose construction throws outside the range. *)
Definition to_iso_string (t : ptime) : result string :=
  let '(y, m, d) := from_day_number (t / ticks_per_day) in
  let tod := t mod ticks_per_day in
  if (1400 <=? y) && (y <=? 9999) && (1 <=? m) && (m <=? 12) && (1 <=? d) && (d <=? 31)
  then
    let hours := tod / 3600000000 in
    let minutes := (tod / 60000000) mod 60 in
    let seconds := (tod / 1000000) mod 60 in
    let frac := tod mod 1000000 in
    Ok (Text.string_of_int y ++ zero_padded 2 m ++ zero_padded 2 d ++ "T"
        ++ zero_padded 2 hours ++ zero_padded 2 minutes ++ zero_padded 2 seconds
        ++ (if frac =? 0 then "" else "." ++ zero_padded 6 frac))
  else Raise out_of_range.

End Boost.

(** [Rinex_Printer::compute_GPS_time(eph, obs_time)]: the time point
    [obs_time] seconds into the week [eph.i_GPS_week % 1024], counted
    from 22 August 1999.  The product is a [double], converted to the
    64-bit integer that [millisec] takes. *)
Definition compute_GPS_time (eph : Gps_Ephemeris) (obs_time : float)
  : result Boost.ptime :=
  let gps_t := obs_time in
  let week := Cpp.double_of_int (Z.rem (i_GPS_week eph) 1024) in
  match Cpp.trunc_double ((gps_t + 604800 * week) * 1000)%float with
  | None => Raise undefined
  | Some ms =>
      match Cpp.int64_cast ms with
      | None => Raise undefined
      | Some ms =>
          match Boost.millisec ms with
          | Raise f => Raise f
          | Ok t => Boost.make_ptime 1999 8 22 t
          end
      end
  end.

(** [to_iso_string(compute_GPS_time(eph, obs_time))] *)
Definition gps_timestring (eph : Gps_Ephemeris) (obs_time : float) : result string :=
  match compute_GPS_time eph obs_time with
  | Raise f => Raise f
  | Ok p_time => Boost.to_iso_string p_time
  end.

(** The shape of a time stamp. *)

(** YYYYMMDDTHHMMSS, alone or followed by a point and six digits. *)
Definition iso_shape (ts : string) : Prop :=
  exists y1 y2 y3 y4 m1 m2 d1 d2 h1 h2 n1 n2 s1 s2 frac,
    ts = String y1 (String y2 (String y3 (String y4 (String m1 (String m2
          (String d1 (String d2 (String "T" (String h1 (String h2 (String n1
          (String n2 (String s1 (String s2 frac))))))))))))))
    /\ (frac = ""
        \/ exists f1 f2 f3 f4 f5 f6,
             frac = String "." (String f1 (String f2 (String f3 (String f4
                      (String f5 (String f6 ""))))))).

(** ** Signal strength *)

(** [ss = int(std::min(std::max(int(floor(snr/6)), 1), 9))].  The only
    partial step is the conversion of [floor(snr/6)] to [int]. *)
Definition signalStrength (snr : float) : option Z :=
  match Cpp.floor_double (snr / 6)%float with
  | Some fl =>
      match Cpp.int_cast fl with
      | Some i => Some (Z.min (Z.max i 1) 9)
      | None => None
      end
  | None => None
  end.

(** ** Curve-fit interval *)

(** The block of the record's own satellite:
    [satelliteBlock[i_satellite_PRN]]. *)
Definition block_of (eph : Gps_Ephemeris) : string :=
  map_at "" (satelliteBlock eph) (i_satellite_PRN eph).

(** The statements of [log_rinex_nav] that compute [curve_fit_interval]
    for broadcast-orbit line 7.  Each [if] of the source overwrites the
    variable, so later matches win. *)
Definition curve_fit_interval (eph : Gps_Ephemeris) : float :=
  let block := block_of eph in
  let IODC := d_IODC eph in
  let cfi := 4%float in
  let cfi :=
    if negb (Cpp.compare block "IIA" =? 0) then
      let cfi := if (239 <? IODC)%float && (IODC <? 248)%float then 8%float else cfi in
      let cfi := if ((247 <? IODC)%float && (IODC <? 256)%float) || (IODC =? 496)%float
                 then 14%float else cfi in
      let cfi := if (496 <? IODC)%float && (IODC <? 504)%float then 26%float else cfi in
      let cfi := if (503 <? IODC)%float && (IODC <? 511)%float then 50%float else cfi in
      let cfi := if ((751 <? IODC)%float && (IODC <? 757)%float) || (IODC =? 511)%float
                 then 74%float else cfi in
      let cfi := if (IODC =? 757)%float then 98%float else cfi in
      cfi
    else cfi in
  let cfi :=
    if (Cpp.compare block "IIR" =? 0) || (Cpp.compare block "IIR-M" =? 0)
       || (Cpp.compare block "IIF" =? 0) || (Cpp.compare block "IIIA" =? 0) then
      let cfi := if (239 <? IODC)%float && (IODC <? 248)%float then 8%float else cfi in
      let cfi := if ((247 <? IODC)%float && (IODC <? 256)%float) || (IODC =? 496)%float
                 then 14%float else cfi in
      let cfi := if ((496 <? IODC)%float && (IODC <? 504)%float)
                    || ((1020 <? IODC)%float && (IODC <? 1024)%float)
                 then 26%float else cfi in
      cfi
    else cfi in
  cfi.

(** The IODC ranges that the two tables of the source list. *)
Definition iodc_documented (IODC : float) : bool :=
  ((239 <? IODC)%float && (IODC <? 248)%float)
  || ((247 <? IODC)%float && (IODC <? 256)%float) || (IODC =? 496)%float
  || ((496 <? IODC)%float && (IODC <? 504)%float)
  || ((503 <? IODC)%float && (IODC <? 511)%float)
  || ((751 <? IODC)%float && (IODC <? 757)%float) || (IODC =? 511)%float
  || (IODC =? 757)%float
  || ((1020 <? IODC)%float && (IODC <? 1024)%float).

(** An otherwise zero ephemeris for satellite [prn] of block [block]. *)
Definition eph_zero (prn : Z) (block : string) (IODC : float) : Gps_Ephemeris :=
  mkEph prn 0 0 0 0 0 0 0 0 0 0 0 0 0 0 0 0 0 0 0 0 0 0 IODC 0 0 0
        (map_insert prn block []).

(** ** GPS time to calendar date *)

Definition days_per_month : list Z := [31; 28; 31; 30; 31; 30; 31; 31; 30; 31; 30; 31].

Definition secs_per_day : Z := 24 * 60 * 60.
Definition secs_per_week : Z := 7 * secs_per_day.
Definition secs_per_normal_year : Z := 365 * secs_per_day.
Definition secs_per_leap_year : Z := secs_per_normal_year + secs_per_day.

(** [y%4 == 0 && (y%100 != 0 || y%400 == 0)] *)
Definition leap_test (y : Z) : bool :=
  (Z.rem y 4 =? 0) && (negb (Z.rem y 100 =? 0) || (Z.rem y 400 =? 0)).

(** The first loop of [to_date_time], [for (int y = 1980; true; y++)]:
    the year, its leap flag and the seconds left in it.  [fuel] bounds
    the number of iterations. *)
Fixpoint year_loop (fuel : nat) (y remaining_secs : Z) : option (Z * bool * Z) :=
  match fuel with
  | O => None
  | S fuel' =>
      let is_leap_year := leap_test y in
      let secs_in_year_y :=
        if is_leap_year then secs_per_leap_year else secs_per_normal_year in
      if secs_in_year_y <=? remaining_secs
      then year_loop fuel' (Cpp.wrap32 (y + 1))
                     (Cpp.wrap32 (remaining_secs - secs_in_year_y))
      else Some (y, is_leap_year, remaining_secs)
  end.

(** The second loop, [for (int m = 1; true; m++)].  Reading
    [days_per_month[m-1]] past the twelfth entry is outside the array:
    the model stops with [None] there. *)
Fixpoint month_loop (fuel : nat) (is_leap_year : bool) (m remaining_secs : Z)
  : option (Z * Z) :=
  match fuel with
  | O => None
  | S fuel' =>
      match nth_error days_per_month (Z.to_nat (m - 1)) with
      | None => None
      | Some dpm =>
          let secs_in_month_m := dpm * secs_per_day in
          let secs_in_month_m :=
            if is_leap_year && (m =? 2) then secs_in_month_m + secs_per_day
            else secs_in_month_m in
          if secs_in_month_m <=? remaining_secs
          then month_loop fuel' is_leap_year (m + 1)
                          (Cpp.wrap32 (remaining_secs - secs_in_month_m))
          else Some (m, remaining_secs)
      end
  end.

Record date_time := mkDateTime {
  dt_year : Z; dt_month : Z; dt_day : Z;
  dt_hour : Z; dt_minute : Z; dt_second : Z
}.

(** [to_date_time(gps_week, gps_tow, year, month, day, hour, minute,
    second)], the six reference parameters returned as a record.  All
    arithmetic is [int] arithmetic; [/] and [%] truncate. *)
Definition to_date_time (gps_week gps_tow : Z) : option date_time :=
  let secs_since_gps_epoch := Cpp.wrap32 (Cpp.wrap32 (gps_week * secs_per_week) + gps_tow) in
  let remaining_secs := Cpp.wrap32 (secs_since_gps_epoch + 5 * secs_per_day) in
  match year_loop 100 1980 remaining_secs with
  | None => None
  | Some (year, is_leap_year, remaining_secs) =>
      match month_loop 13 is_leap_year 1 remaining_secs with
      | None => None
      | Some (month, remaining_secs) =>
          let day := Cpp.wrap32 (Z.quot remaining_secs secs_per_day + 1) in
          let remaining_secs := Z.rem remaining_secs secs_per_day in
          let hour := Z.quot remaining_secs (60 * 60) in
          let remaining_secs := Z.rem remaining_secs (60 * 60) in
          let minute := Z.quot remaining_secs 60 in
          let second := Z.rem remaining_secs 60 in
          Some (mkDateTime year month day hour minute second)
      end
  end.

(** *** The reference calendar

    An independent description of the proleptic Gregorian calendar by
    the closed formula for the day number (Rata Die: day 1 is 1 January
    of year 1), against which the loops of [to_date_time] are compared. *)
Module Calendar.

Definition is_leap (y : Z) : bool :=
  (y mod 4 =? 0) && (negb (y mod 100 =? 0) || (y mod 400 =? 0)).

Definition days_before_year (y : Z) : Z :=
  365 * (y - 1) + (y - 1) / 4 - (y - 1) / 100 + (y - 1) / 400.

(** Days of the year before month [m], by the usual closed formula. *)
Definition month_offset (leap : bool) (m : Z) : Z :=
  (367 * m - 362) / 12
  + (if m <=? 2 then 0 else if leap then -1 else -2).

Definition month_length (leap : bool) (m : Z) : Z :=
  if m =? 2 then (if leap then 29 else 28)
  else if (m =? 4) || (m =? 6) || (m =? 9) || (m =? 11) then 30
  else 31.

Definition days_before_month (y m : Z) : Z := month_offset (is_leap y) m.

Definition days_in_month (y m : Z) : Z := month_length (is_leap y) m.

Definition rata_die (y m d : Z) : Z :=
  days_before_year y + days_before_month y m + d.

Definition days_in_year (y : Z) : Z := if is_leap y then 366 else 365.

Definition valid (dt : date_time) : Prop :=
  1 <= dt_month dt <= 12
  /\ 1 <= dt_day dt <= days_in_month (dt_year dt) (dt_month dt)
  /\ 0 <= dt_hour dt < 24
  /\ 0 <= dt_minute dt < 60
  /\ 0 <= dt_second dt < 60.

(** Seconds from the GPS epoch, 6 January 1980 00:00:00, to [dt],
    every day counting 86400 seconds. *)
Definition gps_seconds (dt : date_time) : Z :=
  (rata_die (dt_year dt) (dt_month dt) (dt_day dt) - rata_die 1980 1 6) * 86400
  + dt_hour dt * 3600 + dt_minute dt * 60 + dt_second dt.

End Calendar.

(** ** The output monad

    A writer appends lines to its stream ([out << line << std::endl]),
    may log diagnostics ([LOG(ERROR)]) and may stop with a failure.
    What was written and logged before a failure stays. *)

Record run (A : Type) : Type := mkRun {
  outcome : result A;
  written : list string;
  logged : list string
}.

Arguments mkRun {A} outcome written logged.
Arguments outcome {A} r.
Arguments written {A} r.
Arguments logged {A} r.

Definition ret {A : Type} (a : A) : run A := mkRun (Ok a) [] [].

Definition raise {A : Type} (f : failure) : run A := mkRun (Raise f) [] [].

Definition bind {A B : Type} (m : run A) (k : A -> run B) : run B :=
  match outcome m with
  | Ok a =>
      let r := k a in
      mkRun (outcome r) (written m ++ written r)%list (logged m ++ logged r)%list
  | Raise f => mkRun (Raise f) (written m) (logged m)
  end.

Definition lift {A : Type} (r : result A) : run A := mkRun r [] [].

(** [out << line << std::endl] *)
Definition put_line (line : string) : run unit := mkRun (Ok tt) [line] [].

(** [LOG(ERROR) << msg] *)
Definition log_error (msg : string) : run unit := mkRun (Ok tt) [] [msg].

Declare Scope run_scope.
Delimit Scope run_scope with run.

Notation "x <- m ;; k" := (bind m (fun x => k))
  (at level 61, m at next level, right associativity) : run_scope.
Notation "m ;; k" := (bind m (fun _ => k))
  (at level 61, right associativity) : run_scope.

Local Open Scope run_scope.

(** A loop over the entries of a [std::map], in key order. *)
Fixpoint for_each {V : Type} (m : std_map V) (body : Z -> V -> run unit) : run unit :=
  match m with
  | [] => ret tt
  | (k, v) :: m' => body k v ;; for_each m' body
  end.

Definition endl : string := String "010" "".

Definition ruler : string :=
  "----|---1|0---|---2|0---|---3|0---|---4|0---|---5|0---|---6|0---|---7|0---|---8|".

(** [Rinex_Printer::lengthCheck]: a diagnostic and nothing else. *)
Definition lengthCheck (line : string) : run unit :=
  if negb (String.length line =? 80)%nat then
    log_error ("Bad defined RINEX line: "
               ++ Text.string_of_int (Z.of_nat (String.length line))
               ++ " characters (must be 80)" ++ endl
               ++ line ++ endl ++ ruler ++ endl)
  else ret tt.

(** ** The printer object *)

(** [std::map<std::string,std::string>], read with [operator[]]. *)
Definition str_map : Type := list (string * string).

Fixpoint str_at (m : str_map) (k : string) : string :=
  match m with
  | [] => ""
  | (k', v) :: m' => if String.eqb k' k then v else str_at m' k
  end.

(** [m[k] = v] *)
Fixpoint str_set (m : str_map) (k v : string) : str_map :=
  match m with
  | [] => [(k, v)]
  | (k', v') :: m' =>
      if String.eqb k' k then (k, v) :: m' else (k', v') :: str_set m' k v
  end.

(** The files on disk: the bytes of each file that exists. *)
Definition file_system : Type := string -> option string.

Definition no_files : file_system := fun _ => None.

Definition fs_set (fs : file_system) (f : string) (c : option string) : file_system :=
  fun g => if String.eqb g f then c else fs g.

(** [remove(f)] *)
Definition remove (f : string) (fs : file_system) : file_system := fs_set fs f None.

(** An [std::ofstream]: the file it is open on and its put position. *)
Record ofstream := mkStream {
  os_path : string;
  tellp : Z
}.

(** [s.open(f, std::ios::out | std::ios::app)]: the file is created
    when absent and keeps its bytes otherwise; the put position stands
    at the end of the file, that is at its size, which is 0 for a file
    just created. *)
Definition open_append (f : string) (fs : file_system) : ofstream * file_system :=
  let c := match fs f with Some c => c | None => "" end in
  (mkStream f (Z.of_nat (String.length c)), fs_set fs f (Some c)).

(** [s << data] in append mode: the bytes go to the end of the file,
    where the put position then stands. *)
Definition stream_put (s : ofstream) (data : string) (fs : file_system)
  : ofstream * file_system :=
  match data with
  | "" => (s, fs)
  | _ =>
      let c := (match fs (os_path s) with Some c => c | None => "" end) ++ data in
      (mkStream (os_path s) (Z.of_nat (String.length c)), fs_set fs (os_path s) (Some c))
  end.

Record Rinex_Printer := mkPrinter {
  version : Z;
  stringVersion : string;
  numberTypesObservations : Z;
  satelliteSystem : str_map;
  observationCode : str_map;
  observationType : str_map;
  navfilename : string;
  obsfilename : string;
  sbsfilename : string;
  navFile : ofstream;
  obsFile : ofstream;
  sbsFile : ofstream
}.

(** The fields of [struct tm] that the printer reads. *)
Record tm := mkTm {
  tm_sec : Z;
  tm_min : Z;
  tm_hour : Z;
  tm_mday : Z;
  tm_mon : Z;
  tm_year : Z
}.

(** What the printer asks of its environment: the local day and time,
    the time in UTC, and the variable [USER]. *)
Record environment := mkEnv {
  local_day : Z * Z * Z;
  local_day_of_year : Z;
  local_tm : tm;
  utc_day : Z * Z * Z;
  utc_tm : tm;
  env_USER : option string
}.

(** [Rinex_Printer::createFilename(type)] *)
Definition createFilename (env : environment) (type : string) : string :=
  let stationName := "GSDR" in
  let dayOfTheYear := local_day_of_year env in
  let strm0 := "" in
  let strm0 := if dayOfTheYear <? 100 then strm0 ++ "0" else strm0 in
  let strm0 := if dayOfTheYear <? 10 then strm0 ++ "0" else strm0 in
  let strm0 := strm0 ++ Text.string_of_int dayOfTheYear in
  let dayOfTheYearTag := strm0 in
  let fileType : str_map :=
    [("RINEX_FILE_TYPE_OBS", "O"); ("RINEX_FILE_TYPE_GPS_NAV", "N");
     ("RINEX_FILE_TYPE_MET", "M"); ("RINEX_FILE_TYPE_GLO_NAV", "G");
     ("RINEX_FILE_TYPE_GAL_NAV", "L"); ("RINEX_FILE_TYPE_MIXED_NAV", "P");
     ("RINEX_FILE_TYPE_GEO_NAV", "H"); ("RINEX_FILE_TYPE_SBAS", "B");
     ("RINEX_FILE_TYPE_CLK", "C"); ("RINEX_FILE_TYPE_SUMMARY", "S")] in
  let local_hour := tm_hour (local_tm env) in
  let strm := Text.string_of_int local_hour in
  let Hmap : str_map :=
    [("0", "a"); ("1", "b"); ("2", "c"); ("3", "d"); ("4", "e"); ("5", "f");
     ("6", "g"); ("7", "h"); ("8", "i"); ("9", "j"); ("10", "k"); ("11", "l");
     ("12", "m"); ("13", "n"); ("14", "o"); ("15", "p"); ("16", "q"); ("17", "r");
     ("18", "s"); ("19", "t"); ("20", "u"); ("21", "v"); ("22", "w"); ("23", "x")] in
  let hourTag := str_at Hmap strm in
  let local_minute := tm_min (local_tm env) in
  let strm2 := if local_minute <? 10 then "0" else "" in
  let strm2 := strm2 ++ Text.string_of_int local_minute in
  let minTag := strm2 in
  let local_year := tm_year (local_tm env) - 100 in
  let yearTag := Text.string_of_int local_year in
  let typeOfFile := str_at fileType type in
  stationName ++ dayOfTheYearTag ++ hourTag ++ minTag ++ "." ++ yearTag ++ typeOfFile.

(** The RINEX v3.00 codes that the constructor stores. *)
Definition satelliteSystem_codes : str_map :=
  fold_left (fun m kv => str_set m (fst kv) (snd kv))
    [("GPS", "G"); ("GLONASS", "R"); ("SBAS payload", "S"); ("Galileo", "E");
     ("Compass", "C")] [].

Definition observationCode_codes : str_map :=
  fold_left (fun m kv => str_set m (fst kv) (snd kv))
    [("GPS_L1_CA", "1C"); ("GPS_L1_P", "1P"); ("GPS_L1_Z_TRACKING", "1W");
     ("GPS_L1_Y", "1Y"); ("GPS_L1_M ", "1M"); ("GPS_L1_CODELESS", "1N");
     ("GPS_L2_CA", "2C"); ("L2_SEMI_CODELESS", "2D"); ("GPS_L2_L2CM", "2S");
     ("GPS_L2_L2CL", "2L"); ("GPS_L2_L2CML", "2X"); ("GPS_L2_P", "2P");
     ("GPS_L2_Z_TRACKING", "2W"); ("GPS_L2_Y", "2Y"); ("GPS_L2_M", "2M");
     ("GPS_L2_codeless", "2N"); ("GPS_L5_I", "5I"); ("GPS_L5_Q", "5Q");
     ("GPS_L5_IQ", "5X"); ("GLONASS_G1_CA", "1C"); ("GLONASS_G1_P", "1P");
     ("GLONASS_G2_CA", "2C"); ("GLONASS_G2_P", "2P"); ("GALILEO_E1_A", "1A");
     ("GALILEO_E1_B", "1B"); ("GALILEO_E1_C", "1C"); ("GALILEO_E1_BC", "1X");
     ("GALILEO_E1_ABC", "1Z"); ("GALILEO_E5a_I", "5I"); ("GALILEO_E5a_Q", "5Q");
     ("GALILEO_E5aIQ", "5X"); ("GALILEO_E5b_I", "7I"); ("GALILEO_E5b_Q", "7Q");
     ("GALILEO_E5b_IQ", "7X"); ("GALILEO_E5_I", "8I"); ("GALILEO_E5_Q", "8Q");
     ("GALILEO_E5_IQ", "8X"); ("GALILEO_E56_A", "6A"); ("GALILEO_E56_B", "6B");
     ("GALILEO_E56_B", "6C"); ("GALILEO_E56_BC", "6X"); ("GALILEO_E56_ABC", "6Z");
     ("SBAS_L1_CA", "1C"); ("SBAS_L5_I", "5I"); ("SBAS_L5_Q", "5Q");
     ("SBAS_L5_IQ", "5X"); ("COMPASS_E2_I", "2I"); ("COMPASS_E2_Q", "2Q");
     ("COMPASS_E2_IQ", "2X"); ("COMPASS_E5b_I", "7I"); ("COMPASS_E5b_Q", "7Q");
     ("COMPASS_E5b_IQ", "7X"); ("COMPASS_E6_I", "6I"); ("COMPASS_E6_Q", "6Q");
     ("COMPASS_E6_IQ", "6X");
     (* RINEX v2.10 and v2.11 codes *)
     ("GPS_L1_CA_v2", "1")] [].

Definition observationType_codes : str_map :=
  fold_left (fun m kv => str_set m (fst kv) (snd kv))
    [("PSEUDORANGE", "C"); ("CARRIER_PHASE", "L"); ("DOPPLER", "D");
     ("SIGNAL_STRENGTH", "S");
     (* RINEX v2.10 and v2.11 codes *)
     ("PSEUDORANGE_CA_v2", "C"); ("PSEUDORANGE_P_v2", "P");
     ("CARRIER_PHASE_CA_v2", "L"); ("DOPPLER_v2", "D");
     ("SIGNAL_STRENGTH_v2", "S")] [].

(** ** Constructor and destructor *)

(** [Rinex_Printer::Rinex_Printer()].  The three files are opened
    first; the version flag is looked at last.  In the final [else]
    nothing is assigned: [stringVersion] stays the empty string it was
    constructed as and the [int] member [version] keeps the
    indeterminate value [uninitialised] it started with. *)
Definition Rinex_Printer_ctor (FLAGS_RINEX_version : string) (env : environment)
    (uninitialised : Z) (fs : file_system) : run Rinex_Printer * file_system :=
  let navfilename := createFilename env "RINEX_FILE_TYPE_GPS_NAV" in
  let obsfilename := createFilename env "RINEX_FILE_TYPE_OBS" in
  let sbsfilename := createFilename env "RINEX_FILE_TYPE_SBAS" in
  let '(navFile, fs) := open_append navfilename fs in
  let '(obsFile, fs) := open_append obsfilename fs in
  let '(sbsFile, fs) := open_append sbsfilename fs in
  let '(version, stringVersion, report) :=
    if Cpp.compare FLAGS_RINEX_version "3.01" =? 0 then (3, "3.01", ret tt)
    else if Cpp.compare FLAGS_RINEX_version "2.11" =? 0 then (2, "2.10", ret tt)
    else if Cpp.compare FLAGS_RINEX_version "2.10" =? 0 then (2, "2.10", ret tt)
    else (uninitialised, "",
          log_error ("Unknown RINEX version " ++ FLAGS_RINEX_version
                     ++ " (must be 2.11 or 3.01)" ++ endl)) in
  let numberTypesObservations := 2 in
  (report ;;
   ret (mkPrinter version stringVersion numberTypesObservations
          satelliteSystem_codes observationCode_codes observationType_codes
          navfilename obsfilename sbsfilename navFile obsFile sbsFile),
   fs).

(** The printer after [data] went to one of its streams. *)
Definition put_nav (data : string) (pf : Rinex_Printer * file_system)
  : Rinex_Printer * file_system :=
  let '(p, fs) := pf in
  let '(s, fs) := stream_put (navFile p) data fs in
  (mkPrinter (version p) (stringVersion p) (numberTypesObservations p)
     (satelliteSystem p) (observationCode p) (observationType p)
     (navfilename p) (obsfilename p) (sbsfilename p) s (obsFile p) (sbsFile p), fs).

Definition put_obs (data : string) (pf : Rinex_Printer * file_system)
  : Rinex_Printer * file_system :=
  let '(p, fs) := pf in
  let '(s, fs) := stream_put (obsFile p) data fs in
  (mkPrinter (version p) (stringVersion p) (numberTypesObservations p)
     (satelliteSystem p) (observationCode p) (observationType p)
     (navfilename p) (obsfilename p) (sbsfilename p) (navFile p) s (sbsFile p), fs).

Definition put_sbs (data : string) (pf : Rinex_Printer * file_system)
  : Rinex_Printer * file_system :=
  let '(p, fs) := pf in
  let '(s, fs) := stream_put (sbsFile p) data fs in
  (mkPrinter (version p) (stringVersion p) (numberTypesObservations p)
     (satelliteSystem p) (observationCode p) (observationType p)
     (navfilename p) (obsfilename p) (sbsfilename p) (navFile p) (obsFile p) s, fs).

(** [Rinex_Printer::~Rinex_Printer()].  The third position is read
    from [obsFile], as in the source.  Closing a stream leaves its file
    as it is. *)
Definition Rinex_Printer_dtor (pf : Rinex_Printer * file_system) : file_system :=
  let '(p, fs) := pf in
  let posn := tellp (navFile p) in
  let poso := tellp (obsFile p) in
  let poss := tellp (obsFile p) in
  let fs := if posn =? 0 then remove (navfilename p) fs else fs in
  let fs := if poso =? 0 then remove (obsfilename p) fs else fs in
  let fs := if poss =? 0 then remove (sbsfilename p) fs else fs in
  fs.

(** A printer constructed on an empty disk, with the object and disk it
    leaves; the constructor always returns. *)
Definition constructed (FLAGS_RINEX_version : string) (env : environment)
    (uninitialised : Z) (fs : file_system) : option (Rinex_Printer * file_system) :=
  match outcome (fst (Rinex_Printer_ctor FLAGS_RINEX_version env uninitialised fs)) with
  | Ok p => Some (p, snd (Rinex_Printer_ctor FLAGS_RINEX_version env uninitialised fs))
  | Raise _ => None
  end.

(** 5 September 2013, 12:00 local time and UTC, user "gnss". *)
Definition env_2013 : environment :=
  mkEnv (2013, 9, 5) 248 (mkTm 0 0 12 5 8 113)
        (2013, 9, 5) (mkTm 0 0 12 5 8 113) (Some "gnss").

(** ** The record writers *)

Section Writers.

(** [Rinex_Printer::doub2for(d, length, expLen)], the Fortran-style
    rendering of a double, is declared in [rinex_printer.h], which is
    not among the sources: the writers are parametric in it. *)
Variable doub2for : float -> nat -> nat -> string.

(** [boost::lexical_cast<std::string>(d)] for a double [d]. *)
Variable lexical_cast_double : float -> string.

(** One broadcast-orbit line: the padding of the version, four fields
    separated by one space, and the closing space of version 2. *)
Definition orbit_line (p : Rinex_Printer) (f1 f2 f3 f4 : string) : string :=
  let line := "" in
  let line := if version p =? 2 then line ++ Text.spaces 4 else line in
  let line := if version p =? 3 then line ++ Text.spaces 5 else line in
  let line := line ++ f1 ++ " " ++ f2 ++ " " ++ f3 ++ " " ++ f4 in
  let line := if version p =? 2 then line ++ " " else line in
  line.

(** The four fields of each of the broadcast-orbit lines 1 to 7. *)
Definition orbit_fields (eph : Gps_Ephemeris) : list (string * string * string * string) :=
  let d_IODE_SF2 := 0%float in
  let GPS_week_continuous_number :=
    Cpp.double_of_int (Cpp.wrap32 (i_GPS_week eph + 1024)) in
  [ (doub2for d_IODE_SF2 18 2, doub2for (d_Crs eph) 18 2,
     doub2for (d_Delta_n eph) 18 2, doub2for (d_M_0 eph) 18 2);
    (doub2for (d_Cuc eph) 18 2, doub2for (d_e_eccentricity eph) 18 2,
     doub2for (d_Cus eph) 18 2, doub2for (d_sqrt_A eph) 18 2);
    (doub2for (d_Toe eph) 18 2, doub2for (d_Cic eph) 18 2,
     doub2for (d_OMEGA0 eph) 18 2, doub2for (d_Cis eph) 18 2);
    (doub2for (d_i_0 eph) 18 2, doub2for (d_Crc eph) 18 2,
     doub2for (d_OMEGA eph) 18 2, doub2for (d_OMEGA_DOT eph) 18 2);
    (doub2for (d_IDOT eph) 18 2, doub2for (Cpp.double_of_int (i_code_on_L2 eph)) 18 2,
     doub2for GPS_week_continuous_number 18 2,
     doub2for (Cpp.double_of_int (i_code_on_L2 eph)) 18 2);
    (doub2for (Cpp.double_of_int (i_SV_accuracy eph)) 18 2,
     doub2for (Cpp.double_of_int (i_SV_health eph)) 18 2,
     doub2for (d_TGD eph) 18 2, doub2for (d_IODC eph) 18 2);
    (doub2for (d_TOW eph) 18 2, doub2for (curve_fit_interval eph) 18 2,
     Text.spaces 18, Text.spaces 18) ].

(** [lengthCheck(line); out << line << std::endl;] *)
Definition check_and_put (line : string) : run unit :=
  lengthCheck line ;; put_line line.

Fixpoint put_orbit_lines (p : Rinex_Printer)
    (fields : list (string * string * string * string)) : run unit :=
  match fields with
  | [] => ret tt
  | (f1, f2, f3, f4) :: rest =>
      check_and_put (orbit_line p f1 f2 f3 f4) ;; put_orbit_lines p rest
  end.

(** The SV / EPOCH / SV CLK line of one ephemeris.  In version 2 the
    tenth of a second is the variable [decimal], which is "0"; the
    declaration inside the [if] names a new variable that ends with its
    block. *)
Definition clock_line (p : Rinex_Printer) (eph : Gps_Ephemeris) : run string :=
  timestring <- lift (gps_timestring eph (d_TOW eph)) ;;
  month <- lift (substr timestring 4 2) ;;
  day <- lift (substr timestring 6 2) ;;
  hour <- lift (substr timestring 9 2) ;;
  minutes <- lift (substr timestring 11 2) ;;
  seconds <- lift (substr timestring 13 2) ;;
  let line := "" in
  line <- (if version p =? 2 then
             year <- lift (substr timestring 2 2) ;;
             let decimal := "0" in
             (if (16 <? String.length timestring)%nat
              then (decimal <- lift (substr timestring 16 1) ;; ret tt)
              else ret tt) ;;
             ret (line
                  ++ rightJustify (Text.string_of_int (i_satellite_PRN eph)) 2
                  ++ " " ++ year ++ " " ++ month ++ " " ++ day ++ " " ++ hour
                  ++ " " ++ minutes ++ " " ++ seconds ++ "." ++ decimal ++ " "
                  ++ doub2for (d_A_f0 eph) 18 2 ++ " "
                  ++ doub2for (d_A_f1 eph) 18 2 ++ " "
                  ++ doub2for (d_A_f2 eph) 18 2 ++ " ")
           else ret line) ;;
  line <- (if version p =? 3 then
             year <- lift (substr timestring 0 4) ;;
             ret (line
                  ++ str_at (satelliteSystem p) "GPS"
                  ++ (if i_satellite_PRN eph <? 10 then "0" else "")
                  ++ Text.string_of_int (i_satellite_PRN eph)
                  ++ " " ++ year ++ " " ++ month ++ " " ++ day ++ " " ++ hour
                  ++ " " ++ minutes ++ " " ++ seconds ++ " "
                  ++ doub2for (d_A_f0 eph) 18 2 ++ " "
                  ++ doub2for (d_A_f1 eph) 18 2 ++ " "
                  ++ doub2for (d_A_f2 eph) 18 2)
           else ret line) ;;
  ret line.

(** The body of the loop of [log_rinex_nav]. *)
Definition nav_record (p : Rinex_Printer) (eph : Gps_Ephemeris) : run unit :=
  line <- clock_line p eph ;;
  check_and_put line ;;
  put_orbit_lines p (orbit_fields eph).

(** [Rinex_Printer::log_rinex_nav(out, eph_map)] *)
Definition log_rinex_nav (p : Rinex_Printer) (eph_map : std_map Gps_Ephemeris)
  : run unit :=
  for_each eph_map (fun _ eph => nav_record p eph).

End Writers.

(** Modelled from the spec: [GPS_TWO_PI] is defined in [GPS_L1_CA.h],
    which is not among the sources; the spec has the carrier phase
    divided by 2 pi.  This is the double nearest to 6.283185307179586. *)
Definition GPS_TWO_PI : float := 0x1.921fb54442d18p+2%float.

(** The satellite id of an observation: the system letter and the PRN
    on two digits. *)
Definition sat_id (p : Rinex_Printer) (prn : Z) : string :=
  str_at (satelliteSystem p) "GPS"
  ++ (if prn <? 10 then "0" else "")
  ++ Text.string_of_int prn.

Fixpoint sat_ids (p : Rinex_Printer) (keys : list Z) : string :=
  match keys with
  | [] => ""
  | k :: keys' => sat_id p k ++ sat_ids p keys'
  end.

(** A month or day of the version 2 epoch line: a leading zero becomes
    a space. *)
Definition blank_leading_zero (field : string) : run string :=
  if Cpp.compare (substring 0 1 field) "0" =? 0
  then (rest <- lift (substr field 1 1) ;; ret (" " ++ rest))
  else ret field.

(** The four observables of one satellite in version 2.  The line is
    filled up to 80 columns when it is shorter and written without a
    length check. *)
Definition obs_line_v2 (obs : Gnss_Synchro) : run unit :=
  let lineObs := "" in
  let lineObs := lineObs ++ rightJustify (asString_double (Pseudorange_m obs) 3) 14 in
  let lli := 0 in
  let lineObs :=
    if lli =? 0 then lineObs ++ Text.spaces 1
    else lineObs ++ rightJustify (Text.string_of_int lli) 1 in
  let lineObs :=
    lineObs ++ rightJustify
      (asString_double (Carrier_phase_rads obs / GPS_TWO_PI)%float 3) 14 in
  let lineObs := lineObs ++ rightJustify (asString_double (Carrier_Doppler_hz obs) 3) 14 in
  let lineObs := lineObs ++ rightJustify (asString_double (CN0_dB_hz obs) 3) 14 in
  lineObs <- (if (String.length lineObs <? 80)%nat
              then (fill <- lift (string_fill
                                    (size_sub 80 (Z.of_nat (String.length lineObs))) " ") ;;
                    ret (lineObs ++ fill))
              else ret lineObs) ;;
  put_line lineObs.

(** The observables of one satellite in version 3. *)
Definition obs_line_v3 (p : Rinex_Printer) (prn : Z) (obs : Gnss_Synchro) : run unit :=
  let lineObs := "" in
  let lineObs := lineObs ++ sat_id p prn in
  let lineObs := lineObs ++ rightJustify (asString_double (Pseudorange_m obs) 3) 14 in
  let lli := 0 in
  let lineObs :=
    if lli =? 0 then lineObs ++ Text.spaces 1
    else lineObs ++ rightJustify (Text.string_of_int lli) 1 in
  ssi <- (match signalStrength 54%float with
          | Some ssi => ret ssi
          | None => raise undefined
          end) ;;
  let lineObs :=
    if ssi =? 0 then lineObs ++ Text.spaces 1
    else lineObs ++ rightJustify (Text.string_of_int ssi) 1 in
  lineObs <- (if (String.length lineObs <? 80)%nat
              then (fill <- lift (string_fill
                                    (size_sub 80 (Z.of_nat (String.length lineObs))) " ") ;;
                    ret (lineObs ++ fill))
              else ret lineObs) ;;
  put_line lineObs.

(** [Rinex_Printer::log_rinex_obs(out, eph, obs_time, pseudoranges)].
    The epoch line is filled with [std::string(80 - line.size(), ' ')],
    a subtraction in [size_t]. *)
Definition log_rinex_obs (p : Rinex_Printer) (eph : Gps_Ephemeris) (obs_time : float)
    (pseudoranges : std_map Gnss_Synchro) : run unit :=
  timestring <- lift (gps_timestring eph obs_time) ;;
  let gps_t := obs_time in
  month <- lift (substr timestring 4 2) ;;
  day <- lift (substr timestring 6 2) ;;
  hour <- lift (substr timestring 9 2) ;;
  minutes <- lift (substr timestring 11 2) ;;
  (if version p =? 2 then
     year <- lift (substr timestring 2 2) ;;
     month' <- blank_leading_zero month ;;
     day' <- blank_leading_zero day ;;
     let numSatellitesObserved := Z.of_nat (List.length pseudoranges) in
     let line :=
       " " ++ year ++ " " ++ month' ++ " " ++ day' ++ " " ++ hour ++ " " ++ minutes
       ++ " " ++ asString_double (fmod gps_t 60) 7 ++ Text.spaces 2 ++ "0"
       ++ rightJustify (Text.string_of_int numSatellitesObserved) 3
       ++ sat_ids p (map_keys pseudoranges) in
     fill <- lift (string_fill (size_sub 80 (Z.of_nat (String.length line))) " ") ;;
     let line := line ++ fill in
     check_and_put line ;;
     for_each pseudoranges (fun _ obs => obs_line_v2 obs)
   else ret tt) ;;
  (if version p =? 3 then
     year <- lift (substr timestring 0 4) ;;
     let seconds := fmod gps_t 60 in
     let numSatellitesObserved := Z.of_nat (List.length pseudoranges) in
     let line :=
       ">" ++ " " ++ year ++ " " ++ month ++ " " ++ day ++ " " ++ hour ++ " " ++ minutes
       ++ " " ++ (if (seconds <? 10)%float then "0" else "")
       ++ asString_double seconds 7 ++ Text.spaces 2 ++ "0"
       ++ rightJustify (Text.string_of_int numSatellitesObserved) 3 in
     fill <- lift (string_fill (size_sub 80 (Z.of_nat (String.length line))) " ") ;;
     let line := line ++ fill in
     check_and_put line ;;
     for_each pseudoranges (fun prn obs => obs_line_v3 p prn obs)
   else ret tt).

(** What the printer reads of an [Sbas_Raw_Msg]: the PRN, the GPS time
    of reception when it is known, the message type and the bytes. *)
Record Sbas_Raw_Msg := mkSbas {
  sbs_prn : Z;
  sbs_gps_time : option (Z * float);
  sbs_msg_type : Z;
  sbs_msg : list Z
}.

Fixpoint hex_bytes (bytes : list Z) : string :=
  match bytes with
  | [] => ""
  | b :: bytes' => Text.hex2 b ++ " " ++ hex_bytes bytes'
  end.

(** The reception time of an SBAS message on line 1, 19 columns.
    [int gps_tow = trunc(...)] converts a double to [int]. *)
Definition sbs_epoch (gps_week : Z) (gps_sec : float) : result string :=
  let gps_sec_one_digit_precicion := (round (gps_sec * 10) / 10)%float in
  match Cpp.trunc_double gps_sec_one_digit_precicion with
  | None => Raise undefined
  | Some t =>
      match Cpp.int_cast t with
      | None => Raise undefined
      | Some gps_tow =>
          let sub_sec :=
            (gps_sec_one_digit_precicion - Cpp.double_of_int gps_tow)%float in
          match to_date_time gps_week gps_tow with
          | None => Raise undefined
          | Some dt =>
              Ok (asFixWidthString (dt_year dt) 2 "0" ++ " "
                  ++ asFixWidthString (dt_month dt) 2 "0" ++ " "
                  ++ asFixWidthString (dt_day dt) 2 "0" ++ " "
                  ++ asFixWidthString (dt_hour dt) 2 "0" ++ " "
                  ++ asFixWidthString (dt_minute dt) 2 "0" ++ " "
                  ++ rightJustify_pad
                       (asString_double
                          (Cpp.double_of_int (dt_second dt) + sub_sec)%float 1) 4 " ")
          end
      end
  end.

(** [Rinex_Printer::log_rinex_sbs(out, sbs_message)] *)
Definition log_rinex_sbs (sbs_message : Sbas_Raw_Msg) : run unit :=
  (* line 1: PRN / EPOCH / RCVR *)
  epoch <- lift (match sbs_gps_time sbs_message with
                 | Some (gps_week, gps_sec) => sbs_epoch gps_week gps_sec
                 | None => Ok (Text.spaces 19)
                 end) ;;
  let msg := sbs_msg sbs_message in
  let line1 :=
    Text.string_of_int (sbs_prn sbs_message) ++ " " ++ epoch ++ "  " ++ "L1" ++ "   "
    ++ asFixWidthString (Z.of_nat (List.length msg)) 3 " " ++ "   " ++ "  0" ++ "   "
    ++ "SBA" ++ Text.spaces 35 in
  check_and_put line1 ;;
  (* DATA RECORD - 1 *)
  let line2 :=
    " " ++ (if sbs_msg_type sbs_message <? 10 then " " else "")
    ++ Text.string_of_int (sbs_msg_type sbs_message) ++ Text.spaces 4
    ++ hex_bytes (firstn 18 msg) ++ Text.spaces 19 in
  check_and_put line2 ;;
  (* DATA RECORD - 2 *)
  let line3 :=
    Text.spaces 7 ++ hex_bytes (firstn 18 (skipn 18 msg)) ++ Text.spaces 31 in
  check_and_put line3.

(** ** The header writers *)

(** The members of [Gps_Iono] and [Gps_Utc_Model] that the navigation
    header prints. *)
Record Gps_Iono := mkIono {
  d_alpha0 : float; d_alpha1 : float; d_alpha2 : float; d_alpha3 : float;
  d_beta0 : float; d_beta1 : float; d_beta2 : float; d_beta3 : float
}.

Record Gps_Utc_Model := mkUtc {
  d_A0 : float;
  d_A1 : float;
  d_t_OT : float;
  i_WN_T : Z;
  d_DeltaT_LS : float;
  d_DeltaT_LSF : float;
  i_WN_LSF : Z;
  i_DN : Z
}.

(** [if (n < 10) strm << "0"; strm << n;] *)
Definition two_digits (n : Z) : string :=
  (if n <? 10 then "0" else "") ++ Text.string_of_int n.

Definition months : std_map string :=
  [(0, "JAN"); (1, "FEB"); (2, "MAR"); (3, "APR"); (4, "MAY"); (5, "JUN");
   (6, "JUL"); (7, "AUG"); (8, "SEP"); (9, "OCT"); (10, "NOV"); (11, "DEC")].

(** [boost::gregorian::to_iso_string(date)] *)
Definition date_iso_string (date : Z * Z * Z) : string :=
  let '(y, m, d) := date in
  Text.string_of_int y ++ Boost.zero_padded 2 m ++ Boost.zero_padded 2 d.

(** [Rinex_Printer::getLocalTime()]: the first 60 columns of the
    PGM / RUN BY / DATE line. *)
Definition getLocalTime (p : Rinex_Printer) (env : environment) : string :=
  let line := "" in
  let line := line ++ "GNSS-SDR" in
  let line := line ++ Text.spaces 12 in
  let line := line ++ leftJustify "CTTC" 20 in
  let today := local_day env in
  let pt_tm := utc_tm env in
  let strmHour := two_digits (tm_hour pt_tm) in
  let strmMin := two_digits (tm_min pt_tm) in
  let line :=
    if version p =? 2 then
      let day := tm_mday pt_tm in
      line ++ rightJustify (Text.string_of_int day) 2 ++ "-"
      ++ map_at "" months (tm_mon pt_tm) ++ "-"
      ++ Text.string_of_int (tm_year pt_tm - 100)
      ++ Text.spaces 1 ++ strmHour ++ ":" ++ strmMin ++ Text.spaces 5
    else line in
  let line :=
    if version p =? 3 then
      line ++ Text.spaces 1 ++ date_iso_string today ++ strmHour ++ strmMin
      ++ two_digits (tm_sec pt_tm) ++ Text.spaces 1 ++ "UTC" ++ Text.spaces 1
    else line in
  line.

(** [Rinex_Printer::rinex_sbs_header(out)] *)
Definition rinex_sbs_header (env : environment) : run unit :=
  (* Line 1 *)
  check_and_put (Text.spaces 5 ++ "2.10" ++ Text.spaces 11
                 ++ leftJustify "B SBAS DATA" 20 ++ Text.spaces 20
                 ++ "RINEX VERSION / TYPE") ;;
  (* Line 2 *)
  let '(year, month, day) := utc_day env in
  let utc_year := year - 2000 in
  let strYear := Text.string_of_int utc_year in
  let strMonth := two_digits month in
  let strmDay := two_digits day in
  let strmHour := two_digits (tm_hour (utc_tm env)) in
  let strmMin := two_digits (tm_min (utc_tm env)) in
  let time_str :=
    strmDay ++ "-" ++ strMonth ++ "-" ++ strYear ++ " " ++ strmHour ++ strmMin in
  check_and_put (leftJustify "GNSS-SDR" 20 ++ leftJustify "CTTC" 20
                 ++ leftJustify time_str 20
                 ++ leftJustify "PGM / RUN BY / DATE" 20) ;;
  (* Line 3 *)
  check_and_put (Text.spaces 60 ++ leftJustify "REC INDEX/TYPE/VERS" 20) ;;
  (* Line COMMENT 1 *)
  check_and_put (leftJustify "BROADCAST DATA FILE FOR GEO SV, GENERATED BY GNSS-SDR" 60
                 ++ leftJustify "COMMENT" 20) ;;
  (* Line COMMENT 2 *)
  check_and_put (leftJustify "See http://gnss-sdr.org" 60 ++ leftJustify "COMMENT" 20) ;;
  (* End of Header *)
  check_and_put (Text.spaces 60 ++ leftJustify "END OF HEADER" 20).

(** [line += std::string(60 - line.size(), ' ')] *)
Definition fill_to_60 (line : string) : run string :=
  fill <- lift (string_fill (size_sub 60 (Z.of_nat (String.length line))) " ") ;;
  ret (line ++ fill).

(** [Rinex_Printer::rinex_obs_header(out, eph, d_TOW_first_observation)].
    [getenv("USER")] of an unset variable is a null pointer, from which
    no string can be made. *)
Definition rinex_obs_header (p : Rinex_Printer) (env : environment)
    (eph : Gps_Ephemeris) (d_TOW_first_observation : float) : run unit :=
  (* Line 1 *)
  check_and_put (Text.spaces 5 ++ stringVersion p ++ Text.spaces 11
                 ++ leftJustify "OBSERVATION DATA" 20
                 ++ str_at (satelliteSystem p) "GPS" ++ Text.spaces 19
                 ++ "RINEX VERSION / TYPE") ;;
  (* Line 2 *)
  let line := "" in
  let line :=
    if version p =? 2
    then line ++ leftJustify "BLANK OR G = GPS,  R = GLONASS,  E = GALILEO,  M = MIXED" 60
    else line in
  let line :=
    if version p =? 3
    then line ++ leftJustify "G = GPS  R = GLONASS  E = GALILEO  S = GEO  M = MIXED" 60
    else line in
  check_and_put (line ++ leftJustify "COMMENT" 20) ;;
  (* Line 3 *)
  check_and_put (getLocalTime p env ++ "PGM / RUN BY / DATE" ++ Text.spaces 1) ;;
  (* Line COMMENT *)
  check_and_put (leftJustify "GPS OBSERVATION DATA FILE GENERATED BY GNSS-SDR" 60
                 ++ leftJustify "COMMENT" 20) ;;
  (* Line COMMENT *)
  check_and_put (leftJustify "See http://gnss-sdr.org" 60 ++ leftJustify "COMMENT" 20) ;;
  (* Line MARKER NAME *)
  check_and_put (leftJustify "DEFAULT MARKER NAME" 60 ++ leftJustify "MARKER NAME" 20) ;;
  (* Line OBSERVER / AGENCY *)
  username <- (match env_USER env with
               | Some u => ret u
               | None => raise undefined
               end) ;;
  check_and_put (leftJustify username 20 ++ leftJustify "CTTC" 40
                 ++ leftJustify "OBSERVER / AGENCY" 20) ;;
  (* Line REC / TYPE VERS *)
  check_and_put (leftJustify "GNSS-SDR" 20 ++ leftJustify "Software Receiver" 20
                 ++ leftJustify "0.1" 20 ++ leftJustify "REC # / TYPE / VERS" 20) ;;
  (* ANTENNA TYPE *)
  check_and_put (leftJustify "Antenna number" 20 ++ leftJustify "Antenna type" 20
                 ++ Text.spaces 20 ++ leftJustify "ANT # / TYPE" 20) ;;
  (* APPROX POSITION *)
  let antena_x := 0%float in
  let antena_y := 0%float in
  let antena_z := 0%float in
  check_and_put (rightJustify (asString_double antena_x 4) 14
                 ++ rightJustify (asString_double antena_y 4) 14
                 ++ rightJustify (asString_double antena_z 4) 14
                 ++ Text.spaces 18 ++ leftJustify "APPROX POSITION XYZ" 20) ;;
  (* ANTENNA: DELTA H/E/N *)
  let antena_h := 0%float in
  let antena_e := 0%float in
  let antena_n := 0%float in
  check_and_put (rightJustify (asString_double antena_h 4) 14
                 ++ rightJustify (asString_double antena_e 4) 14
                 ++ rightJustify (asString_double antena_n 4) 14
                 ++ Text.spaces 18 ++ leftJustify "ANTENNA: DELTA H/E/N" 20) ;;
  (if version p =? 2 then
     (* WAVELENGHT FACTOR *)
     check_and_put (rightJustify "1" 6 ++ rightJustify "1" 6 ++ Text.spaces 48
                    ++ leftJustify "WAVELENGTH FACT L1/2" 20)
   else ret tt) ;;
  (if version p =? 3 then
     (* SYS / OBS TYPES *)
     line <- fill_to_60
               (str_at (satelliteSystem p) "GPS" ++ Text.spaces 2
                ++ rightJustify (Text.string_of_int (numberTypesObservations p)) 3
                ++ Text.spaces 1
                ++ str_at (observationType p) "PSEUDORANGE"
                ++ str_at (observationCode p) "GPS_L1_CA"
                ++ Text.spaces 1
                ++ str_at (observationType p) "SIGNAL_STRENGTH"
                ++ str_at (observationCode p) "GPS_L1_CA") ;;
     check_and_put (line ++ leftJustify "SYS / # / OBS TYPES" 20)
   else ret tt) ;;
  (if version p =? 2 then
     (* SYS / OBS TYPES *)
     line <- fill_to_60
               (rightJustify (Text.string_of_int (numberTypesObservations p)) 6
                ++ rightJustify (str_at (observationType p) "PSEUDORANGE_CA_v2") 5
                ++ str_at (observationCode p) "GPS_L1_CA_v2"
                ++ rightJustify (str_at (observationType p) "CARRIER_PHASE_CA_v2") 5
                ++ str_at (observationCode p) "GPS_L1_CA_v2"
                ++ rightJustify (str_at (observationType p) "DOPPLER_v2") 5
                ++ str_at (observationCode p) "GPS_L1_CA_v2"
                ++ rightJustify (str_at (observationType p) "SIGNAL_STRENGTH_v2") 5
                ++ str_at (observationCode p) "GPS_L1_CA_v2") ;;
     check_and_put (line ++ leftJustify "# / TYPES OF OBSERV" 20)
   else ret tt) ;;
  (if version p =? 3 then
     (* Signal Strength units *)
     check_and_put (leftJustify "DBHZ" 20 ++ Text.spaces 40
                    ++ leftJustify "SIGNAL STRENGTH UNIT" 20)
   else ret tt) ;;
  (* TIME OF FIRST OBS *)
  timestring <- lift (gps_timestring eph d_TOW_first_observation) ;;
  year <- lift (substr timestring 0 4) ;;
  month <- lift (substr timestring 4 2) ;;
  day <- lift (substr timestring 6 2) ;;
  hour <- lift (substr timestring 9 2) ;;
  minutes <- lift (substr timestring 11 2) ;;
  let gps_t := d_TOW_first_observation in
  let seconds := fmod gps_t 60 in
  check_and_put (rightJustify year 6 ++ rightJustify month 6 ++ rightJustify day 6
                 ++ rightJustify hour 6 ++ rightJustify minutes 6
                 ++ rightJustify (asString_double seconds 7) 13
                 ++ rightJustify "GPS" 8 ++ Text.spaces 9
                 ++ leftJustify "TIME OF FIRST OBS" 20) ;;
  (* end of header *)
  check_and_put (Text.spaces 60 ++ leftJustify "END OF HEADER" 20).

Section HeaderWriters.

Variable doub2for : float -> nat -> nat -> string.
Variable lexical_cast_double : float -> string.

(** [Rinex_Printer::rinex_nav_header(out, iono, utc_model)] *)
Definition rinex_nav_header (p : Rinex_Printer) (env : environment)
    (iono : Gps_Iono) (utc_model : Gps_Utc_Model) : run unit :=
  (* Line 1 *)
  let line := Text.spaces 5 in
  let line := line ++ stringVersion p in
  let line := line ++ Text.spaces 11 in
  let line := if version p =? 2
              then line ++ "N: GPS NAV DATA" ++ Text.spaces 25 else line in
  let line := if version p =? 3
              then line ++ "N: GNSS NAV DATA" ++ Text.spaces 4 ++ "G: GPS"
                   ++ Text.spaces 14
              else line in
  let line := line ++ "RINEX VERSION / TYPE" in
  check_and_put line ;;
  (* Line 2 *)
  check_and_put (getLocalTime p env ++ "PGM / RUN BY / DATE" ++ Text.spaces 1) ;;
  (* Line 3 *)
  check_and_put (leftJustify "GPS NAVIGATION MESSAGE FILE GENERATED BY GNSS-SDR" 60
                 ++ leftJustify "COMMENT" 20) ;;
  (* Line COMMENT *)
  check_and_put (leftJustify "See http://gnss-sdr.org" 60 ++ leftJustify "COMMENT" 20) ;;
  (* Line ionospheric info 1 *)
  let line := "" in
  let line :=
    if version p =? 2 then
      line ++ Text.spaces 2
      ++ rightJustify (doub2for (d_alpha0 iono) 10 2) 12
      ++ rightJustify (doub2for (d_alpha1 iono) 10 2) 12
      ++ rightJustify (doub2for (d_alpha2 iono) 10 2) 12
      ++ rightJustify (doub2for (d_alpha3 iono) 10 2) 12
      ++ Text.spaces 10 ++ leftJustify "ION ALPHA" 20
    else line in
  let line :=
    if version p =? 3 then
      line ++ "GPSA" ++ Text.spaces 1
      ++ rightJustify (doub2for (d_alpha0 iono) 10 2) 12
      ++ rightJustify (doub2for (d_alpha1 iono) 10 2) 12
      ++ rightJustify (doub2for (d_alpha2 iono) 10 2) 12
      ++ rightJustify (doub2for (d_alpha3 iono) 10 2) 12
      ++ Text.spaces 7 ++ leftJustify "IONOSPHERIC CORR" 20
    else line in
  check_and_put line ;;
  (* Line ionospheric info 2 *)
  let line := "" in
  let line :=
    if version p =? 2 then
      line ++ Text.spaces 2
      ++ rightJustify (doub2for (d_beta0 iono) 10 2) 12
      ++ rightJustify (doub2for (d_beta1 iono) 10 2) 12
      ++ rightJustify (doub2for (d_beta2 iono) 10 2) 12
      ++ rightJustify (doub2for (d_beta3 iono) 10 2) 12
      ++ Text.spaces 10 ++ leftJustify "ION BETA" 20
    else line in
  let line :=
    if version p =? 3 then
      line ++ "GPSB" ++ Text.spaces 1
      ++ rightJustify (doub2for (d_beta0 iono) 10 2) 12
      ++ rightJustify (doub2for (d_beta1 iono) 10 2) 12
      ++ rightJustify (doub2for (d_beta2 iono) 10 2) 12
      ++ rightJustify (doub2for (d_beta3 iono) 10 2) 12
      ++ Text.spaces 7 ++ leftJustify "IONOSPHERIC CORR" 20
    else line in
  check_and_put line ;;
  (* Line 5 system time correction *)
  let line := "" in
  let line :=
    if version p =? 2 then
      line ++ Text.spaces 3
      ++ rightJustify (doub2for (d_A0 utc_model) 18 2) 19
      ++ rightJustify (doub2for (d_A1 utc_model) 18 2) 19
      ++ rightJustify (lexical_cast_double (d_t_OT utc_model)) 9
      ++ rightJustify (Text.string_of_int (Cpp.wrap32 (i_WN_T utc_model + 1024))) 9
      ++ Text.spaces 1 ++ leftJustify "DELTA-UTC: A0,A1,T,W" 20
    else line in
  let line :=
    if version p =? 3 then
      line ++ "GPUT"
      ++ rightJustify (doub2for (d_A0 utc_model) 16 2) 18
      ++ rightJustify (doub2for (d_A1 utc_model) 15 2) 16
      ++ rightJustify (lexical_cast_double (d_t_OT utc_model)) 7
      ++ rightJustify (Text.string_of_int (Cpp.wrap32 (i_WN_T utc_model + 1024))) 5
      ++ Text.spaces 10 ++ leftJustify "TIME SYSTEM CORR" 20
    else line in
  check_and_put line ;;
  (* Line 6 leap seconds *)
  let line := "" in
  let line := line ++ rightJustify (lexical_cast_double (d_DeltaT_LS utc_model)) 6 in
  let line := if version p =? 2 then line ++ Text.spaces 54 else line in
  let line :=
    if version p =? 3 then
      line ++ rightJustify (lexical_cast_double (d_DeltaT_LSF utc_model)) 6
      ++ rightJustify (Text.string_of_int (i_WN_LSF utc_model)) 6
      ++ rightJustify (Text.string_of_int (i_DN utc_model)) 6
      ++ Text.spaces 36
    else line in
  let line := line ++ leftJustify "LEAP SECONDS" 20 in
  check_and_put line ;;
  (* End of Header *)
  check_and_put (Text.spaces 60 ++ leftJustify "END OF HEADER" 20).

End HeaderWriters.

(** ** An instance of the Fortran formatter *)

(** The least [j] with [num * 10^j >= den / 10], for [0 < num < den]. *)
Fixpoint scale_up (fuel : nat) (num den j : Z) : Z :=
  match fuel with
  | O => j
  | S fuel' => if den <=? num * 10 then j else scale_up fuel' (num * 10) den (j + 1)
  end.

(** The decimal exponent [k] of [num / den > 0]:
    [10^(k-1) <= num / den < 10^k]. *)
Definition decimal_exponent (num den : Z) : Z :=
  if den <=? num then Z.of_nat (String.length (Text.dec (num / den)))
  else - scale_up 400 num den 0.

(** Modelled from the spec: [doub2for] is declared in [rinex_printer.h],
    which is not among the sources.  The spec has it render a value as
    sign, leading zero, decimal digits and a signed exponent of
    [expLen] digits after a D, in a field of [length] columns.  This
    instance serves the examples; the theorems hold for any formatter
    that fills its field. *)
Definition doub2for_ref (d : float) (length expLen : nat) : string :=
  let n := (length - expLen - 5)%nat in
  let render (neg : bool) (N k : Z) : string :=
    (if neg then "-" else " ") ++ "0."
    ++ rightJustify_pad (Text.dec N) n "0" ++ "D"
    ++ (if k <? 0 then "-" else "+")
    ++ rightJustify_pad (Text.dec (Z.abs k)) expLen "0" in
  match Prim2SF d with
  | S754_zero s => render s 0 0
  | S754_finite s m e =>
      let num := if 0 <=? e then Z.pos m * 2 ^ e else Z.pos m in
      let den := if 0 <=? e then 1 else 2 ^ (- e) in
      let k := decimal_exponent num den in
      let shift := Z.of_nat n - k in
      let N := if 0 <=? shift then round_half_even (num * 10 ^ shift) den
               else round_half_even num (den * 10 ^ (- shift)) in
      if N =? 10 ^ Z.of_nat n then render s (10 ^ (Z.of_nat n - 1)) (k + 1)
      else render s N k
  | S754_infinity s => rightJustify (if s then "-inf" else "inf") length
  | S754_nan => rightJustify "nan" length
  end.

(** A printer of version [v] with the codes the constructor stores. *)
Definition printer_of_version (v : Z) : Rinex_Printer :=
  mkPrinter v (if v =? 3 then "3.01" else "2.10") 2
    satelliteSystem_codes observationCode_codes observationType_codes
    "nav" "obs" "sbs" (mkStream "nav" 0) (mkStream "obs" 0) (mkStream "sbs" 0).

(** ** The layout of a navigation record, as the spec words it *)

(** A broadcast-orbit line: 4 leading spaces in version 2 and 5 in
    version 3, four fields separated by single spaces, and one more
    space at the end in version 2 only. *)
Definition orbit_layout (v : Z) (f : string * string * string * string) : string :=
  let '(f1, f2, f3, f4) := f in
  Text.spaces (if v =? 2 then 4 else 5)
  ++ f1 ++ " " ++ f2 ++ " " ++ f3 ++ " " ++ f4
  ++ (if v =? 2 then " " else "").

(** The call returned. *)
Definition is_ok {A : Type} (r : result A) : bool :=
  match r with
  | Ok _ => true
  | Raise _ => false
  end.

(** ** The layout of a version 2 observation record *)

(** The four values of an observation line: pseudorange, carrier phase
    in cycles, Doppler and carrier-to-noise density. *)
Definition obs_values (obs : Gnss_Synchro) : list float :=
  [Pseudorange_m obs; (Carrier_phase_rads obs / GPS_TWO_PI)%float;
   Carrier_Doppler_hz obs; CN0_dB_hz obs].

(** Every value fits its F14.3 column. *)
Definition fits_F14_3 (obs : Gnss_Synchro) : bool :=
  forallb (fun x => (String.length (asString_double x 3) <=? 14)%nat) (obs_values obs).

(** An observation line of version 2: four F14.3 columns, a blank for
    the loss-of-lock indicator after the first, and blanks up to
    column 80. *)
Definition obs_layout_v2 (obs : Gnss_Synchro) : string :=
  rightJustify (asString_double (Pseudorange_m obs) 3) 14 ++ " "
  ++ rightJustify (asString_double (Carrier_phase_rads obs / GPS_TWO_PI)%float 3) 14
  ++ rightJustify (asString_double (Carrier_Doppler_hz obs) 3) 14
  ++ rightJustify (asString_double (CN0_dB_hz obs) 3) 14
  ++ Text.spaces 23.

(** The spec's navigation scenario: PRN 5, GPS week 100, all else zero. *)
Definition eph_prn5 : Gps_Ephemeris :=
  mkEph 5 0 0 0 0 0 0 0 0 0 0 0 0 0 0 0 0 0 0 100 0 0 0 0 0 0 0 [].

(** The same with a time of week of half a second. *)
Definition eph_half_second : Gps_Ephemeris :=
  mkEph 5 0.5 0 0 0 0 0 0 0 0 0 0 0 0 0 0 0 0 0 100 0 0 0 0 0 0 0 [].

(** A sample that fits its columns. *)
Definition sample_obs : Gnss_Synchro := mkSynchro 20000000.5 1000 (-1500.25) 45.

(** Seventeen satellites, PRN 1 to 17, with the same sample. *)
Definition seventeen_satellites : std_map Gnss_Synchro :=
  List.map (fun k => (k, sample_obs))
    [1; 2; 3; 4; 5; 6; 7; 8; 9; 10; 11; 12; 13; 14; 15; 16; 17].

(** Sixteen satellites, PRN 1 to 16. *)
Definition sixteen_satellites : std_map Gnss_Synchro :=
  List.map (fun k => (k, sample_obs))
    [1; 2; 3; 4; 5; 6; 7; 8; 9; 10; 11; 12; 13; 14; 15; 16].

(** ** When every field fits its column *)


(** Every string of the list fills its column exactly. *)
Definition all_fill (fields : list (string * nat)) : bool :=
  forallb (fun f => (String.length (fst f) =? snd f)%nat) fields.

Definition in_range (lo x hi : Z) : bool := (lo <=? x) && (x <=? hi).




(** A printer as the constructor leaves it for a known version. *)
Definition printer_ready (p : Rinex_Printer) : bool :=
  ((version p =? 2) || (version p =? 3))
  && (String.length (stringVersion p) =? 4)%nat
  && in_range 0 (numberTypesObservations p) 999
  && (String.length (str_at (satelliteSystem p) "GPS") =? 1)%nat
  && all_fill
       [(str_at (observationType p) "PSEUDORANGE", 1%nat);
        (str_at (observationType p) "SIGNAL_STRENGTH", 1%nat);
        (str_at (observationCode p) "GPS_L1_CA", 2%nat);
        (str_at (observationType p) "PSEUDORANGE_CA_v2", 1%nat);
        (str_at (observationType p) "CARRIER_PHASE_CA_v2", 1%nat);
        (str_at (observationType p) "DOPPLER_v2", 1%nat);
        (str_at (observationType p) "SIGNAL_STRENGTH_v2", 1%nat);
        (str_at (observationCode p) "GPS_L1_CA_v2", 1%nat)].


(** A message of 36 bytes, the most that the record renders. *)
Definition sbas_36_bytes : Sbas_Raw_Msg :=
  mkSbas 120 None 63 (List.map Z.of_nat (seq 220 36)).

(** A message of 32 bytes received at a known time. *)
Definition sbas_32_bytes : Sbas_Raw_Msg :=
  mkSbas 120 (Some (1756, 388859.9375%float)) 9 (List.map Z.of_nat (seq 0 32)).











(** ** File names, diagnostics and messages *)

(** The table [fileType] of [createFilename]: the letter that ends the
    name of a file of each type. *)
Definition fileType : str_map :=
  [("RINEX_FILE_TYPE_OBS", "O"); ("RINEX_FILE_TYPE_GPS_NAV", "N");
   ("RINEX_FILE_TYPE_MET", "M"); ("RINEX_FILE_TYPE_GLO_NAV", "G");
   ("RINEX_FILE_TYPE_GAL_NAV", "L"); ("RINEX_FILE_TYPE_MIXED_NAV", "P");
   ("RINEX_FILE_TYPE_GEO_NAV", "H"); ("RINEX_FILE_TYPE_SBAS", "B");
   ("RINEX_FILE_TYPE_CLK", "C"); ("RINEX_FILE_TYPE_SUMMARY", "S")].

(** The keys of a [std::map<std::string,std::string>]. *)
Definition str_keys (m : str_map) : list string := List.map fst m.

(** The local clock reads a day of the year, an hour and a minute, in
    a year from 2010 to 2099. *)
Definition local_clock_in_range (env : environment) : bool :=
  in_range 1 (local_day_of_year env) 366
  && in_range 0 (tm_hour (local_tm env)) 23
  && in_range 0 (tm_min (local_tm env)) 59
  && in_range 110 (tm_year (local_tm env)) 199.

(** The size of a file on disk, 0 for a file that does not exist. *)
Definition file_size (fs : file_system) (f : string) : Z :=
  Z.of_nat (String.length match fs f with Some c => c | None => "" end).

(** The three names that the constructor asks [createFilename] for. *)
Definition output_names (env : environment) : list string :=
  [createFilename env "RINEX_FILE_TYPE_GPS_NAV";
   createFilename env "RINEX_FILE_TYPE_OBS";
   createFilename env "RINEX_FILE_TYPE_SBAS"].

(** The text that [lengthCheck] logs for a line. *)
Definition diagnostic (line : string) : string :=
  "Bad defined RINEX line: "
  ++ Text.string_of_int (Z.of_nat (String.length line))
  ++ " characters (must be 80)" ++ endl
  ++ line ++ endl ++ ruler ++ endl.

(** The lines that are not 80 characters long. *)
Definition bad_lines (lines : list string) : list string :=
  filter (fun line => negb (String.length line =? 80)%nat) lines.

(** A run in which every line written was length-checked first: the
    log holds one diagnostic per bad line, in the order of writing. *)
Definition diagnosed {A : Type} (r : run A) : Prop :=
  logged r = List.map diagnostic (bad_lines (written r)).

(** The reception time of an SBAS message is unknown, or converts to a
    date. *)
Definition sbs_epoch_ok (m : Sbas_Raw_Msg) : bool :=
  match sbs_gps_time m with
  | None => true
  | Some (gps_week, gps_sec) => is_ok (sbs_epoch gps_week gps_sec)
  end.

(** An SBAS message cut after its first [n] bytes. *)
Definition sbs_truncate (n : nat) (m : Sbas_Raw_Msg) : Sbas_Raw_Msg :=
  mkSbas (sbs_prn m) (sbs_gps_time m) (sbs_msg_type m) (firstn n (sbs_msg m)).

(** The elements of a [std::vector<unsigned char>]. *)
Definition is_bytes (l : list Z) : Prop := Forall (fun b => 0 <= b < 256) l.

(** PRN 7 with a time of week that lies after the year 9999, which
    Boost refuses to date. *)
Definition eph_year_10000 : Gps_Ephemeris :=
  mkEph 7 260000000000 0 0 0 0 0 0 0 0 0 0 0 0 0 0 0 0 0 100 0 0 0 0 0 0 0 [].

(** PRN 5 in GPS week 1124, that is 1024 weeks after [eph_prn5]. *)
Definition eph_week_1124 : Gps_Ephemeris :=
  mkEph 5 0 0 0 0 0 0 0 0 0 0 0 0 0 0 0 0 0 0 1124 0 0 0 0 0 0 0 [].

(** * Properties *)

(** ** Facts on the C++ scalars and on text *)

Module CppFacts.

Import Cpp.

Lemma wrap32_id z : INT_MIN <= z <= INT_MAX -> wrap32 z = z.
Proof.
  unfold wrap32, INT_MIN, INT_MAX. intros H.
  rewrite Z.mod_small by lia. lia.
Qed.

Lemma wrap32_range z : INT_MIN <= wrap32 z <= INT_MAX.
Proof.
  unfold wrap32, INT_MIN, INT_MAX.
  pose proof (Z.mod_pos_bound (z + 2147483648) 4294967296). lia.
Qed.

Lemma compare_refl a : compare a a = 0.
Proof.
  unfold compare.
  pose proof (String.compare_antisym a a) as H.
  destruct (String.compare a a); simpl in H; congruence.
Qed.

Lemma compare_eq a b : compare a b = 0 -> a = b.
Proof.
  unfold compare. destruct (String.compare a b) eqn:E; try discriminate.
  intros _. now apply String.compare_eq_iff.
Qed.

End CppFacts.

Module TextFacts.

Import Text.

Lemma length_append a b :
  String.length (a ++ b) = (String.length a + String.length b)%nat.
Proof. induction a as [|c a IH]; simpl; [reflexivity | now rewrite IH]. Qed.

Lemma append_assoc a b c : (a ++ b) ++ c = a ++ (b ++ c).
Proof. induction a as [|x a IH]; simpl; [reflexivity | now rewrite IH]. Qed.

Lemma append_nil_r a : a ++ "" = a.
Proof. induction a as [|x a IH]; simpl; [reflexivity | now rewrite IH]. Qed.

Lemma substring_append_skip a s n m :
  substring (String.length a + n) m (a ++ s) = substring n m s.
Proof. induction a as [|x a IH]; simpl; [reflexivity | exact IH]. Qed.

Lemma substring_prefix b c : substring 0 (String.length b) (b ++ c) = b.
Proof.
  induction b as [|x b IH]; simpl.
  - now destruct c.
  - now rewrite IH.
Qed.

Lemma length_replicate n c : String.length (replicate n c) = n.
Proof. induction n as [|n IH]; simpl; [reflexivity | now rewrite IH]. Qed.

Lemma length_spaces n : String.length (spaces n) = n.
Proof. apply length_replicate. Qed.

Lemma length_dec_digits fuel : forall n acc k,
  0 <= n < 2 ^ Z.of_nat fuel -> (0 < fuel)%nat ->
  10 ^ (Z.of_nat k) <= n < 10 ^ (Z.of_nat (S k)) \/ (k = O /\ 0 <= n < 10) ->
  String.length (dec_digits fuel n acc) = (S k + String.length acc)%nat.
Proof.
  induction fuel as [|fuel IH]; intros n acc k Hn Hf Hk; [lia|].
  cbn [dec_digits].
  destruct (Z.ltb_spec n 10) as [Hlt|Hge].
  - assert (k = O).
    { destruct Hk as [[Hk _]|[Hk _]]; [|assumption].
      destruct k; [reflexivity|].
      assert (10 ^ 1 <= 10 ^ Z.of_nat (S k)) by (apply Z.pow_le_mono_r; lia).
      change (10 ^ 1) with 10 in *. lia. }
    subst k. reflexivity.
  - destruct Hk as [Hk|[_ Hk]]; [|lia].
    destruct k as [|k].
    { change (10 ^ Z.of_nat 1) with 10 in Hk. lia. }
    assert (Hpow : forall j, 10 ^ Z.of_nat (S j) = 10 * 10 ^ Z.of_nat j).
    { intros j. rewrite Nat2Z.inj_succ, Z.pow_succ_r by lia. reflexivity. }
    assert (H2 : 2 ^ Z.of_nat (S fuel) = 2 * 2 ^ Z.of_nat fuel).
    { rewrite Nat2Z.inj_succ, Z.pow_succ_r by lia. reflexivity. }
    rewrite (Hpow (S k)) in Hk. rewrite (Hpow k) in Hk.
    assert (H10 : 0 < 10 ^ Z.of_nat k) by (apply Z.pow_pos_nonneg; lia).
    destruct fuel as [|fuel'].
    { change (2 ^ Z.of_nat 1) with 2 in Hn. lia. }
    rewrite (IH (n / 10) _ k).
    + simpl. lia.
    + split; [apply Z.div_pos; lia|].
      apply Z.div_lt_upper_bound; lia.
    + lia.
    + left. rewrite (Hpow k). split.
      * apply Z.div_le_lower_bound; lia.
      * apply Z.div_lt_upper_bound; lia.
Qed.

Lemma dec_fuel n : 0 <= n -> n < 2 ^ Z.of_nat (S (Z.to_nat (Z.log2 n))).
Proof.
  intros Hn. rewrite Nat2Z.inj_succ, Z2Nat.id by apply Z.log2_nonneg.
  destruct (Z.eq_dec n 0) as [->|Hnz]; [reflexivity|].
  apply Z.log2_spec. lia.
Qed.

(** A number in [10^k, 10^(k+1)) has [k+1] decimal digits. *)
Lemma length_dec n k :
  10 ^ (Z.of_nat k) <= n < 10 ^ (Z.of_nat (S k)) \/ (k = O /\ 0 <= n < 10) ->
  String.length (dec n) = S k.
Proof.
  intros Hk. unfold dec.
  assert (Hn : 0 <= n).
  { destruct Hk as [[Hk _]|[_ Hk]]; [|lia].
    assert (0 < 10 ^ Z.of_nat k) by (apply Z.pow_pos_nonneg; lia). lia. }
  rewrite (length_dec_digits _ n "" k); [simpl; lia | | lia | assumption].
  split; [assumption | now apply dec_fuel].
Qed.

Lemma length_string_of_int_1 i : 0 <= i < 10 -> String.length (string_of_int i) = 1%nat.
Proof.
  intros H. unfold string_of_int.
  destruct (Z.ltb_spec i 0); [lia|]. apply (length_dec i 0). right. split; [reflexivity|lia].
Qed.

Lemma length_string_of_int_2 i : 10 <= i < 100 -> String.length (string_of_int i) = 2%nat.
Proof.
  intros H. unfold string_of_int.
  destruct (Z.ltb_spec i 0); [lia|]. apply (length_dec i 1). left.
  change (10 ^ Z.of_nat 1) with 10. change (10 ^ Z.of_nat 2) with 100. lia.
Qed.

Lemma length_string_of_int_3 i : 100 <= i < 1000 -> String.length (string_of_int i) = 3%nat.
Proof.
  intros H. unfold string_of_int.
  destruct (Z.ltb_spec i 0); [lia|]. apply (length_dec i 2). left.
  change (10 ^ Z.of_nat 2) with 100. change (10 ^ Z.of_nat 3) with 1000. lia.
Qed.

Lemma length_string_of_int_4 i : 1000 <= i < 10000 -> String.length (string_of_int i) = 4%nat.
Proof.
  intros H. unfold string_of_int.
  destruct (Z.ltb_spec i 0); [lia|]. apply (length_dec i 3). left.
  change (10 ^ Z.of_nat 3) with 1000. change (10 ^ Z.of_nat 4) with 10000. lia.
Qed.

(** A non-negative number below [10^k] has at most [k] digits. *)
Lemma length_string_of_int_le i k :
  0 <= i < 10 ^ Z.of_nat k -> (String.length (string_of_int i) <= Nat.max 1 k)%nat.
Proof.
  revert i. induction k as [|k IH]; intros i H.
  - change (10 ^ Z.of_nat 0) with 1 in H.
    rewrite length_string_of_int_1 by lia. simpl. lia.
  - destruct (Z.lt_ge_cases i (10 ^ Z.of_nat k)) as [Hlt|Hge].
    + specialize (IH i ltac:(lia)). lia.
    + unfold string_of_int. destruct (Z.ltb_spec i 0); [lia|].
      rewrite (length_dec i k) by (left; lia). lia.
Qed.

End TextFacts.

(** ** Properties of the scalar functions *)

Lemma int_cast_some z :
  Cpp.INT_MIN <= z <= Cpp.INT_MAX -> Cpp.int_cast z = Some z.
Proof.
  intros [H1 H2]. unfold Cpp.int_cast.
  apply Z.leb_le in H1. apply Z.leb_le in H2. now rewrite H1, H2.
Qed.

Lemma block_of_eph_zero prn block IODC :
  block_of (eph_zero prn block IODC) = block.
Proof.
  unfold block_of, eph_zero, map_at. simpl. now rewrite Z.eqb_refl.
Qed.

(** With block "IIA" the first table is skipped ([compare] is zero,
    which the source's [if] reads as false) and the second table does
    not apply, so the interval stays at its initial value. *)
Lemma curve_fit_interval_IIA eph :
  block_of eph = "IIA" -> curve_fit_interval eph = 4%float.
Proof.
  intros H. unfold curve_fit_interval. rewrite H. reflexivity.
Qed.

(** Outside every listed range no assignment fires, whatever the block. *)
Lemma curve_fit_interval_default eph :
  iodc_documented (d_IODC eph) = false -> curve_fit_interval eph = 4%float.
Proof.
  unfold iodc_documented, curve_fit_interval. intros H.
  repeat (apply orb_false_iff in H; destruct H as [H ?]).
  repeat match goal with
         | E : ?b = false |- _ => rewrite E; clear E
         end.
  now repeat match goal with
             | |- context [if ?c then _ else _] => destruct c; simpl
             end.
Qed.

(** C8 (amended). For every input whose quotient by 6 has a floor that
    is finite and representable as an [int], signalStrength returns
    that floor clamped into [1, 9]; in particular 54.0 gives 9, 0.0
    gives 1 and 30.0 gives 5. *)
Theorem signalStrength_clamped (snr : float) (fl : Z) :
  Cpp.floor_double (snr / 6)%float = Some fl ->
  Cpp.INT_MIN <= fl <= Cpp.INT_MAX ->
  (exists ss, signalStrength snr = Some ss
              /\ 1 <= ss <= 9
              /\ ss = Z.min (Z.max fl 1) 9)
  /\ signalStrength 54%float = Some 9
  /\ signalStrength 0%float = Some 1
  /\ signalStrength 30%float = Some 5.
Proof.
  intros Hfl Hrange. split.
  - exists (Z.min (Z.max fl 1) 9). unfold signalStrength.
    rewrite Hfl, (int_cast_some fl Hrange). split; [reflexivity | lia].
  - repeat split; vm_compute; reflexivity.
Qed.

Lemma signalStrength_clamped_witness :
  exists ss, signalStrength 47.5%float = Some ss /\ 1 <= ss <= 9
             /\ ss = Z.min (Z.max 7 1) 9.
Proof.
  apply (signalStrength_clamped 47.5%float 7).
  - vm_compute. reflexivity.
  - unfold Cpp.INT_MIN, Cpp.INT_MAX. lia.
Defined.

(** C8 as stated fails: it promises a result for every input.  For
    12884901888.0 the floor of the quotient is 2^31, which no [int]
    holds although its clamped value would be 9, and for a NaN or an
    infinity there is no floor at all: the conversion to [int] is
    undefined and signalStrength has no defined result. *)
Lemma signalStrength_not_total_counterexample :
  Cpp.floor_double (12884901888 / 6)%float = Some 2147483648
  /\ Z.min (Z.max 2147483648 1) 9 = 9
  /\ ~ (exists ss, signalStrength 12884901888%float = Some ss
                   /\ 1 <= ss <= 9 /\ ss = Z.min (Z.max 2147483648 1) 9)
  /\ signalStrength nan = None
  /\ signalStrength infinity = None.
Proof.
  split; [vm_compute; reflexivity|]. split; [reflexivity|]. split.
  - intros (ss & H & _). vm_compute in H. discriminate H.
  - split; vm_compute; reflexivity.
Qed.

(** C2. On the code, block "IIA" never selects the II/IIA table: IODC
    496 and IODC 757 both leave the 4-hour default, while a block that
    is not "IIA" gets 14 and 98 hours for them. *)
Theorem curve_fit_interval_IIA_496_757 :
  curve_fit_interval (eph_zero 1 "IIA" 496) = 4%float
  /\ curve_fit_interval (eph_zero 1 "IIA" 757) = 4%float
  /\ curve_fit_interval (eph_zero 1 "II" 496) = 14%float
  /\ curve_fit_interval (eph_zero 1 "II" 757) = 98%float.
Proof. repeat split; vm_compute; reflexivity. Qed.

(** ** The loops of [to_date_time] against the reference calendar *)

Section ToDateTime.

Import Calendar.

Lemma leap_test_is_leap y : 0 <= y -> leap_test y = is_leap y.
Proof.
  intros Hy. unfold leap_test, is_leap.
  now rewrite !Z.rem_mod_nonneg by lia.
Qed.

Lemma days_before_year_succ y :
  1 <= y -> days_before_year (y + 1) = days_before_year y + days_in_year y.
Proof.
  intros Hy. unfold days_before_year, days_in_year, is_leap.
  replace (y + 1 - 1) with y by lia.
  destruct (Z.eqb_spec (y mod 4) 0); destruct (Z.eqb_spec (y mod 100) 0);
    destruct (Z.eqb_spec (y mod 400) 0); cbn [andb orb negb];
    Z.to_euclidean_division_equations; lia.
Qed.

Lemma days_in_year_pos y : 365 <= days_in_year y <= 366.
Proof. unfold days_in_year. destruct (is_leap y); lia. Qed.

Lemma secs_in_year_eq y :
  (if is_leap y then secs_per_leap_year else secs_per_normal_year)
  = days_in_year y * 86400.
Proof. unfold days_in_year. now destruct (is_leap y). Qed.

(** The year loop stops as soon as the fuel covers the seconds. *)
Lemma year_loop_total fuel : forall y rem,
  Cpp.INT_MIN <= rem <= Cpp.INT_MAX ->
  rem < Z.of_nat fuel * secs_per_normal_year ->
  (0 < fuel)%nat ->
  exists r, year_loop fuel y rem = Some r.
Proof.
  induction fuel as [|fuel IH]; intros y rem Hr Hlt Hpos; [lia|].
  cbn [year_loop].
  set (secs := if leap_test y then secs_per_leap_year else secs_per_normal_year).
  assert (Hs : 31536000 <= secs <= 31622400)
    by (subst secs; destruct (leap_test y); vm_compute; split; discriminate).
  change secs_per_normal_year with 31536000 in *.
  unfold Cpp.INT_MIN, Cpp.INT_MAX in Hr.
  destruct (Z.leb_spec secs rem) as [Hle|Hgt]; [|eauto].
  apply IH.
  - apply CppFacts.wrap32_range.
  - rewrite CppFacts.wrap32_id by (unfold Cpp.INT_MIN, Cpp.INT_MAX; lia). lia.
  - lia.
Qed.

(** What the year loop returns: the year that contains the instant,
    whether it is a leap year, and the seconds elapsed in it. *)
Lemma year_loop_spec fuel : forall y rem y' leap rem',
  1 <= y -> y + Z.of_nat fuel <= Cpp.INT_MAX ->
  0 <= rem <= Cpp.INT_MAX ->
  year_loop fuel y rem = Some (y', leap, rem') ->
  y <= y' /\ leap = is_leap y'
  /\ 0 <= rem' < days_in_year y' * 86400
  /\ days_before_year y * 86400 + rem = days_before_year y' * 86400 + rem'.
Proof.
  induction fuel as [|fuel IH]; intros y rem y' leap rem' Hy Hf Hr; [discriminate|].
  cbn [year_loop]. rewrite leap_test_is_leap by lia. rewrite secs_in_year_eq.
  pose proof (days_in_year_pos y) as Hd.
  destruct (Z.leb_spec (days_in_year y * 86400) rem) as [Hle|Hgt].
  - rewrite !CppFacts.wrap32_id by (unfold Cpp.INT_MIN, Cpp.INT_MAX in *; lia).
    intros H. apply IH in H; try (unfold Cpp.INT_MAX in *; lia).
    destruct H as (H1 & H2 & H3 & H4).
    rewrite days_before_year_succ in H4 by lia.
    repeat split; try assumption; lia.
  - intros H. injection H as <- <- <-. repeat split; lia.
Qed.

Lemma month_loop_unfold fuel leap m rem :
  month_loop (S fuel) leap m rem =
  match nth_error days_per_month (Z.to_nat (m - 1)) with
  | None => None
  | Some dpm =>
      if (if leap && (m =? 2) then dpm * secs_per_day + secs_per_day
          else dpm * secs_per_day) <=? rem
      then month_loop fuel leap (m + 1)
             (Cpp.wrap32 (rem - (if leap && (m =? 2)
                                 then dpm * secs_per_day + secs_per_day
                                 else dpm * secs_per_day)))
      else Some (m, rem)
  end.
Proof. reflexivity. Qed.

(** Replace the closed calendar terms of the goal by their values. *)
Ltac eval_closed :=
  repeat match goal with
    | |- context [nth_error days_per_month ?n] =>
        let v := eval vm_compute in (nth_error days_per_month n) in
        change (nth_error days_per_month n) with v
    | |- context [month_offset ?l (Zpos ?k)] =>
        let v := eval vm_compute in (month_offset l (Zpos k)) in
        change (month_offset l (Zpos k)) with v
    | |- context [month_length ?l (Zpos ?k)] =>
        let v := eval vm_compute in (month_length l (Zpos k)) in
        change (month_length l (Zpos k)) with v
    | H : context [month_offset ?l (Zpos ?k)] |- _ =>
        let v := eval vm_compute in (month_offset l (Zpos k)) in
        change (month_offset l (Zpos k)) with v in H
    end.

(** What the month loop returns: the month that contains the instant
    and the seconds elapsed in it; the array is never read past its
    twelfth entry. *)
Lemma month_loop_spec leap fuel : forall m rem,
  1 <= m <= 12 -> 13 - m <= Z.of_nat fuel ->
  0 <= rem <= Cpp.INT_MAX ->
  month_offset leap m * 86400 + rem < (if leap then 366 else 365) * 86400 ->
  exists m' rem',
    month_loop fuel leap m rem = Some (m', rem')
    /\ m <= m' <= 12
    /\ month_offset leap m * 86400 + rem = month_offset leap m' * 86400 + rem'
    /\ 0 <= rem' < month_length leap m' * 86400.
Proof.
  induction fuel as [|fuel IH]; intros m rem Hm Hf Hr Hlt; [lia|].
  unfold Cpp.INT_MAX in Hr.
  assert (Hcases : m = 1 \/ m = 2 \/ m = 3 \/ m = 4 \/ m = 5 \/ m = 6 \/ m = 7
                   \/ m = 8 \/ m = 9 \/ m = 10 \/ m = 11 \/ m = 12) by lia.
  rewrite month_loop_unfold.
  repeat destruct Hcases as [->|Hcases]; [..|subst m];
    destruct leap; eval_closed; cbv beta iota;
    match goal with
    | |- context [?a <=? rem] =>
        let v := eval vm_compute in a in
        change a with v; destruct (Z.leb_spec v rem) as [Hle|Hgt]
    end;
    try (eexists; eexists; split; [reflexivity|]; eval_closed; lia);
    try lia;
    (rewrite CppFacts.wrap32_id by (unfold Cpp.INT_MIN, Cpp.INT_MAX; lia);
     match goal with
     | |- context [month_loop fuel ?l ?k ?r] =>
         let k' := eval vm_compute in k in
         change k with k';
         destruct (IH k' r) as (m' & rem' & H1 & H2 & H3 & H4);
         [lia | lia | unfold Cpp.INT_MAX; lia | eval_closed; lia |];
         exists m', rem'; eval_closed;
         repeat split; try assumption; lia
     end).
Qed.

Lemma month_offset_1 leap : month_offset leap 1 = 0.
Proof. now destruct leap. Qed.

End ToDateTime.

(** C3 (amended). For every non-negative GPS week and time of week whose
    second count, advanced by the five days from 1 January to the GPS
    epoch, still fits a 32-bit [int] (instants up to 19 January 2048
    03:14:07), to_date_time returns the Gregorian date and time that lie
    exactly week*604800 + tow seconds after 6 January 1980 00:00, with
    the standard leap-year rule and no leap seconds. *)
Theorem to_date_time_correct (gps_week gps_tow : Z) :
  0 <= gps_week -> 0 <= gps_tow ->
  gps_week * 604800 + gps_tow + 432000 <= Cpp.INT_MAX ->
  exists dt,
    to_date_time gps_week gps_tow = Some dt
    /\ Calendar.valid dt
    /\ Calendar.gps_seconds dt = gps_week * 604800 + gps_tow.
Proof.
  intros Hw Ht Hmax. unfold Cpp.INT_MAX in Hmax.
  unfold to_date_time.
  change secs_per_week with 604800. change secs_per_day with 86400.
  rewrite (CppFacts.wrap32_id (gps_week * 604800))
    by (unfold Cpp.INT_MIN, Cpp.INT_MAX; lia).
  rewrite (CppFacts.wrap32_id (gps_week * 604800 + gps_tow))
    by (unfold Cpp.INT_MIN, Cpp.INT_MAX; lia).
  rewrite (CppFacts.wrap32_id (gps_week * 604800 + gps_tow + 5 * 86400))
    by (unfold Cpp.INT_MIN, Cpp.INT_MAX; lia).
  set (secs := gps_week * 604800 + gps_tow) in *.
  destruct (year_loop_total 100 1980 (secs + 5 * 86400)) as [[[y leap] rem] Hy].
  { unfold Cpp.INT_MIN, Cpp.INT_MAX; lia. }
  { change secs_per_normal_year with 31536000. lia. }
  { lia. }
  rewrite Hy.
  apply year_loop_spec in Hy; [| lia | unfold Cpp.INT_MAX; lia | unfold Cpp.INT_MAX; lia].
  destruct Hy as (Hy1 & -> & Hrem & Hsum).
  pose proof (days_in_year_pos y) as Hdiy.
  destruct (month_loop_spec (Calendar.is_leap y) 13 1 rem) as (m & rem' & Hm & Hm1 & Hm2 & Hm3).
  { lia. } { lia. } { unfold Cpp.INT_MAX; lia. }
  { rewrite month_offset_1. unfold Calendar.days_in_year in Hrem. lia. }
  rewrite Hm. rewrite month_offset_1 in Hm2.
  eexists. split; [reflexivity|].
  assert (Hlen : 28 <= Calendar.month_length (Calendar.is_leap y) m <= 31).
  { unfold Calendar.month_length.
    repeat match goal with |- context [if ?c then _ else _] => destruct c end; lia. }
  unfold Calendar.valid, Calendar.gps_seconds, Calendar.rata_die,
    Calendar.days_before_month, Calendar.days_in_month.
  cbn [dt_year dt_month dt_day dt_hour dt_minute dt_second].
  rewrite month_offset_1.
  set (L := Calendar.month_length (Calendar.is_leap y) m) in *.
  set (O := Calendar.month_offset (Calendar.is_leap y) m) in *.
  set (Y := Calendar.days_before_year y) in *.
  set (Y0 := Calendar.days_before_year 1980) in *.
  assert (Hq : Z.quot rem' 86400 = rem' / 86400) by (apply Z.quot_div_nonneg; lia).
  assert (Hr : Z.rem rem' 86400 = rem' mod 86400) by (apply Z.rem_mod_nonneg; lia).
  rewrite Hq, Hr.
  pose proof (Z.mod_pos_bound rem' 86400 ltac:(lia)) as Htod.
  set (tod := rem' mod 86400) in *.
  assert (Hday : rem' = 86400 * (rem' / 86400) + tod)
    by (subst tod; apply Z.div_mod; lia).
  set (dq := rem' / 86400) in *.
  rewrite !Z.quot_div_nonneg, !Z.rem_mod_nonneg by lia.
  rewrite CppFacts.wrap32_id by (unfold Cpp.INT_MIN, Cpp.INT_MAX; lia).
  repeat split; try lia; Z.to_euclidean_division_equations; lia.
Qed.

Lemma to_date_time_correct_witness :
  exists dt,
    to_date_time 1756 388800 = Some dt
    /\ Calendar.valid dt
    /\ Calendar.gps_seconds dt = 1756 * 604800 + 388800.
Proof.
  apply (to_date_time_correct 1756 388800); unfold Cpp.INT_MAX; lia.
Defined.

(** C3 as stated fails after 19 January 2048: week 3560 starts on
    29 March 2048, inside 1980-2099, but 3560 * 604800 does not fit an
    [int]; the loops then see a negative second count and leave with a
    day number below 1. *)
Lemma to_date_time_2048_counterexample :
  0 <= 3560 /\ 0 <= 0
  /\ Calendar.gps_seconds (mkDateTime 2048 3 29 0 0 0) = 3560 * 604800 + 0
  /\ Calendar.gps_seconds (mkDateTime 2048 3 29 0 0 0)
     < Calendar.gps_seconds (mkDateTime 2100 1 1 0 0 0)
  /\ ~ (exists dt,
          to_date_time 3560 0 = Some dt
          /\ Calendar.valid dt
          /\ Calendar.gps_seconds dt = 3560 * 604800 + 0).
Proof.
  split; [lia|]. split; [lia|].
  split; [vm_compute; reflexivity|]. split; [vm_compute; reflexivity|].
  intros (dt & Hdt & (_ & Hday & _) & _).
  vm_compute in Hdt. injection Hdt as <-.
  cbn [dt_day] in Hday. lia.
Qed.


(** ** Construction and destruction *)

Lemma compare_neq a b : a <> b -> (Cpp.compare a b =? 0) = false.
Proof.
  intros H. apply Z.eqb_neq. intros E. apply H. now apply CppFacts.compare_eq.
Qed.

Lemma fs_set_same fs f c : fs_set fs f c f = c.
Proof. unfold fs_set. now rewrite String.eqb_refl. Qed.

Lemma fs_set_some fs f g c :
  fs g <> None -> fs_set fs f (Some c) g <> None.
Proof. unfold fs_set. destruct (String.eqb g f); [discriminate | trivial]. Qed.

Lemma fs_set_other fs f g c : g <> f -> fs_set fs f c g = fs g.
Proof.
  intros H. unfold fs_set. destruct (String.eqb_spec g f); [contradiction | reflexivity].
Qed.

(** The destructor keeps or erases the navigation file by the position
    of the navigation stream. *)
Lemma dtor_nav_file p fs :
  navfilename p <> obsfilename p -> navfilename p <> sbsfilename p ->
  Rinex_Printer_dtor (p, fs) (navfilename p)
  = if tellp (navFile p) =? 0 then None else fs (navfilename p).
Proof.
  intros Ho Hs. unfold Rinex_Printer_dtor, remove.
  destruct (tellp (obsFile p) =? 0); destruct (tellp (navFile p) =? 0);
    repeat first [rewrite fs_set_other by assumption | rewrite fs_set_same]; reflexivity.
Qed.

(** The same for the observation file. *)
Lemma dtor_obs_file p fs :
  obsfilename p <> navfilename p -> obsfilename p <> sbsfilename p ->
  Rinex_Printer_dtor (p, fs) (obsfilename p)
  = if tellp (obsFile p) =? 0 then None else fs (obsfilename p).
Proof.
  intros Hn Hs. unfold Rinex_Printer_dtor, remove.
  destruct (tellp (obsFile p) =? 0); destruct (tellp (navFile p) =? 0);
    repeat first [rewrite fs_set_other by assumption | rewrite fs_set_same]; reflexivity.
Qed.

(** The SBAS file is kept or erased by the position of the observation
    stream; what went to the SBAS stream plays no part. *)
Lemma dtor_sbs_file p fs :
  sbsfilename p <> navfilename p -> sbsfilename p <> obsfilename p ->
  Rinex_Printer_dtor (p, fs) (sbsfilename p)
  = if tellp (obsFile p) =? 0 then None else fs (sbsfilename p).
Proof.
  intros Hn Ho. unfold Rinex_Printer_dtor, remove.
  destruct (tellp (obsFile p) =? 0); destruct (tellp (navFile p) =? 0);
    repeat first [rewrite fs_set_other by assumption | rewrite fs_set_same]; reflexivity.
Qed.

(** C4. On the code the SBAS file does not follow its own stream: with
    one byte written to the SBAS stream only, the destructor erases the
    SBAS file; with one byte written to the observation stream only, it
    leaves an empty SBAS file behind.  The navigation and observation
    files behave as claimed in both runs. *)
Theorem dtor_sbs_file_follows_obs_stream :
  (exists pf fs,
      constructed "2.11" env_2013 0 no_files = Some pf
      /\ fs = Rinex_Printer_dtor (put_sbs "x" pf)
      /\ fs (sbsfilename (fst pf)) = None
      /\ fs (navfilename (fst pf)) = None
      /\ fs (obsfilename (fst pf)) = None)
  /\ (exists pf fs,
      constructed "2.11" env_2013 0 no_files = Some pf
      /\ fs = Rinex_Printer_dtor (put_obs "x" pf)
      /\ fs (sbsfilename (fst pf)) = Some ""
      /\ fs (navfilename (fst pf)) = None
      /\ fs (obsfilename (fst pf)) = Some "x").
Proof.
  split; eexists; eexists; (split; [vm_compute; reflexivity|]);
    (split; [reflexivity|]); repeat split; vm_compute; reflexivity.
Qed.

(** C5 (amended). For every version string other than "3.01", "2.11"
    and "2.10" the constructor logs "Unknown RINEX version ..." and
    returns the object all the same: [version] keeps its indeterminate
    value, [stringVersion] stays empty, and the three output files,
    opened before the version is looked at, exist. *)
Theorem ctor_unknown_version (v : string) (env : environment) (u : Z)
    (fs : file_system) :
  v <> "3.01" -> v <> "2.11" -> v <> "2.10" ->
  exists p,
    outcome (fst (Rinex_Printer_ctor v env u fs)) = Ok p
    /\ logged (fst (Rinex_Printer_ctor v env u fs))
       = ["Unknown RINEX version " ++ v ++ " (must be 2.11 or 3.01)" ++ endl]
    /\ version p = u
    /\ stringVersion p = ""
    /\ snd (Rinex_Printer_ctor v env u fs) (navfilename p) <> None
    /\ snd (Rinex_Printer_ctor v env u fs) (obsfilename p) <> None
    /\ snd (Rinex_Printer_ctor v env u fs) (sbsfilename p) <> None.
Proof.
  intros H3 H211 H210. unfold Rinex_Printer_ctor, open_append.
  rewrite (compare_neq _ _ H3), (compare_neq _ _ H211), (compare_neq _ _ H210).
  eexists. cbn [fst snd outcome logged bind log_error ret app
                version stringVersion navfilename obsfilename sbsfilename].
  repeat split.
  - do 2 apply fs_set_some. rewrite fs_set_same. discriminate.
  - apply fs_set_some. rewrite fs_set_same. discriminate.
  - rewrite fs_set_same. discriminate.
Qed.

Lemma ctor_unknown_version_witness :
  exists p,
    outcome (fst (Rinex_Printer_ctor "3.02" env_2013 7 no_files)) = Ok p
    /\ logged (fst (Rinex_Printer_ctor "3.02" env_2013 7 no_files))
       = ["Unknown RINEX version " ++ "3.02" ++ " (must be 2.11 or 3.01)" ++ endl]
    /\ version p = 7
    /\ stringVersion p = ""
    /\ snd (Rinex_Printer_ctor "3.02" env_2013 7 no_files) (navfilename p) <> None
    /\ snd (Rinex_Printer_ctor "3.02" env_2013 7 no_files) (obsfilename p) <> None
    /\ snd (Rinex_Printer_ctor "3.02" env_2013 7 no_files) (sbsfilename p) <> None.
Proof.
  apply (ctor_unknown_version "3.02" env_2013 7 no_files); discriminate.
Defined.

(** C5 as stated fails: with the version "4.00" on an empty disk the
    constructor does not fail, and the three files are there when it
    returns. *)
Lemma ctor_unknown_version_counterexample :
  "4.00" <> "3.01" /\ "4.00" <> "2.11" /\ "4.00" <> "2.10"
  /\ exists p,
       outcome (fst (Rinex_Printer_ctor "4.00" env_2013 0 no_files)) = Ok p
       /\ snd (Rinex_Printer_ctor "4.00" env_2013 0 no_files) (navfilename p) = Some ""
       /\ snd (Rinex_Printer_ctor "4.00" env_2013 0 no_files) (obsfilename p) = Some ""
       /\ snd (Rinex_Printer_ctor "4.00" env_2013 0 no_files) (sbsfilename p) = Some "".
Proof.
  repeat split; try discriminate.
  eexists. split; [vm_compute; reflexivity|].
  repeat split; vm_compute; reflexivity.
Qed.

(** ** Field widths *)

Lemma length_leftJustify s w :
  (String.length s <= w)%nat -> String.length (leftJustify s w) = w.
Proof.
  intros H. unfold leftJustify.
  destruct (Nat.ltb_spec w (String.length s)); [lia|].
  rewrite TextFacts.length_append, TextFacts.length_spaces. lia.
Qed.

Lemma length_rightJustify_pad s w c :
  (String.length s <= w)%nat -> String.length (rightJustify_pad s w c) = w.
Proof.
  intros H. unfold rightJustify_pad.
  destruct (Nat.ltb_spec w (String.length s)); [lia|].
  rewrite TextFacts.length_append, TextFacts.length_replicate. lia.
Qed.

Lemma length_rightJustify s w :
  (String.length s <= w)%nat -> String.length (rightJustify s w) = w.
Proof. apply length_rightJustify_pad. Qed.

Lemma length_zero_padded w n :
  0 <= n < 10 ^ Z.of_nat w -> (0 < w)%nat ->
  String.length (Boost.zero_padded w n) = w.
Proof.
  intros Hn Hw. unfold Boost.zero_padded. apply length_rightJustify_pad.
  pose proof (TextFacts.length_string_of_int_le n w Hn). lia.
Qed.

Lemma length_two_digits n : 0 <= n < 100 -> String.length (two_digits n) = 2%nat.
Proof.
  intros H. unfold two_digits. destruct (Z.ltb_spec n 10).
  - rewrite TextFacts.length_append, TextFacts.length_string_of_int_1 by lia. reflexivity.
  - rewrite TextFacts.length_append, TextFacts.length_string_of_int_2 by lia. reflexivity.
Qed.

Lemma string_length_2 s :
  String.length s = 2%nat -> exists a b, s = String a (String b "").
Proof.
  destruct s as [|a [|b [|c s]]]; simpl; try discriminate. intros _. eauto.
Qed.

Lemma string_length_4 s :
  String.length s = 4%nat ->
  exists a b c d, s = String a (String b (String c (String d ""))).
Proof.
  destruct s as [|a [|b [|c [|d [|e s]]]]]; simpl; try discriminate.
  intros _. eauto 6.
Qed.

Lemma string_length_6 s :
  String.length s = 6%nat ->
  exists a b c d e f,
    s = String a (String b (String c (String d (String e (String f ""))))).
Proof.
  destruct s as [|a [|b [|c [|d [|e [|f [|g s]]]]]]]; simpl; try discriminate.
  intros _. eauto 8.
Qed.

(** ** The shape of a time stamp *)

Lemma to_iso_string_shape t ts : Boost.to_iso_string t = Ok ts -> iso_shape ts.
Proof.
  unfold Boost.to_iso_string.
  destruct (Boost.from_day_number (t / Boost.ticks_per_day)) as [[y m] d].
  destruct ((1400 <=? y) && (y <=? 9999) && (1 <=? m) && (m <=? 12) && (1 <=? d)
            && (d <=? 31)) eqn:Hrange; [|discriminate].
  repeat (apply andb_prop in Hrange; destruct Hrange as [Hrange ?]).
  repeat match goal with
         | H : (_ <=? _) = true |- _ => apply Z.leb_le in H
         end.
  intros E. injection E as <-.
  pose proof (Z.mod_pos_bound t Boost.ticks_per_day ltac:(reflexivity)) as Htod.
  set (tod := t mod Boost.ticks_per_day) in *. clearbody tod.
  unfold Boost.ticks_per_day in Htod.
  destruct (string_length_4 (Text.string_of_int y)) as (y1 & y2 & y3 & y4 & ->).
  { apply TextFacts.length_string_of_int_4. lia. }
  destruct (string_length_2 (Boost.zero_padded 2 m)) as (m1 & m2 & ->).
  { apply length_zero_padded; [change (10 ^ Z.of_nat 2) with 100|]; lia. }
  destruct (string_length_2 (Boost.zero_padded 2 d)) as (d1 & d2 & ->).
  { apply length_zero_padded; [change (10 ^ Z.of_nat 2) with 100|]; lia. }
  destruct (string_length_2 (Boost.zero_padded 2 (tod / 3600000000))) as (h1 & h2 & ->).
  { apply length_zero_padded; [change (10 ^ Z.of_nat 2) with 100|lia].
    Z.to_euclidean_division_equations; lia. }
  destruct (string_length_2 (Boost.zero_padded 2 ((tod / 60000000) mod 60)))
    as (n1 & n2 & ->).
  { apply length_zero_padded; [change (10 ^ Z.of_nat 2) with 100|lia].
    Z.to_euclidean_division_equations; lia. }
  destruct (string_length_2 (Boost.zero_padded 2 ((tod / 1000000) mod 60)))
    as (s1 & s2 & ->).
  { apply length_zero_padded; [change (10 ^ Z.of_nat 2) with 100|lia].
    Z.to_euclidean_division_equations; lia. }
  exists y1, y2, y3, y4, m1, m2, d1, d2, h1, h2, n1, n2, s1, s2.
  eexists. split; [reflexivity|].
  destruct (tod mod 1000000 =? 0); [now left | right].
  destruct (string_length_6 (Boost.zero_padded 6 (tod mod 1000000)))
    as (f1 & f2 & f3 & f4 & f5 & f6 & ->).
  { apply length_zero_padded; [change (10 ^ Z.of_nat 6) with 1000000|lia].
    Z.to_euclidean_division_equations; lia. }
  exists f1, f2, f3, f4, f5, f6. reflexivity.
Qed.

Lemma gps_timestring_shape eph t ts : gps_timestring eph t = Ok ts -> iso_shape ts.
Proof.
  unfold gps_timestring. destruct (compute_GPS_time eph t); [|discriminate].
  apply to_iso_string_shape.
Qed.

(** ** Laws of the output monad *)

Lemma bind_ret_l {A B : Type} (a : A) (k : A -> run B) : bind (ret a) k = k a.
Proof. unfold bind, ret. cbn. now destruct (k a). Qed.

Lemma bind_raise_l {A B : Type} (f : failure) (k : A -> run B) :
  bind (raise f) k = raise f.
Proof. reflexivity. Qed.

Lemma lift_ok {A : Type} (a : A) : lift (Ok a) = ret a.
Proof. reflexivity. Qed.

Lemma lift_raise {A : Type} (f : failure) : lift (@Raise A f) = raise f.
Proof. reflexivity. Qed.

Lemma outcome_bind {A B : Type} (m : run A) (k : A -> run B) (a : A) :
  outcome m = Ok a -> outcome (bind m k) = outcome (k a).
Proof. intros H. unfold bind. now rewrite H. Qed.

Lemma written_bind {A B : Type} (m : run A) (k : A -> run B) (a : A) :
  outcome m = Ok a -> written (bind m k) = (written m ++ written (k a))%list.
Proof. intros H. unfold bind. now rewrite H. Qed.

Lemma outcome_lengthCheck line : outcome (lengthCheck line) = Ok tt.
Proof. unfold lengthCheck. now destruct (negb _). Qed.

Lemma written_lengthCheck line : written (lengthCheck line) = [].
Proof. unfold lengthCheck. now destruct (negb _). Qed.

Lemma outcome_check_and_put line : outcome (check_and_put line) = Ok tt.
Proof.
  unfold check_and_put. now rewrite (outcome_bind _ _ tt (outcome_lengthCheck line)).
Qed.

Lemma written_check_and_put line : written (check_and_put line) = [line].
Proof.
  unfold check_and_put.
  rewrite (written_bind _ _ tt (outcome_lengthCheck line)), written_lengthCheck.
  reflexivity.
Qed.

(** A length-checked line is written whatever its length, and the
    writer goes on. *)
Lemma outcome_put_then {B : Type} line (k : unit -> run B) :
  outcome (bind (check_and_put line) k) = outcome (k tt).
Proof. apply outcome_bind, outcome_check_and_put. Qed.

Lemma written_put_then {B : Type} line (k : unit -> run B) :
  written (bind (check_and_put line) k) = line :: written (k tt).
Proof.
  rewrite (written_bind _ _ tt (outcome_check_and_put line)), written_check_and_put.
  reflexivity.
Qed.

Lemma for_each_ok {V : Type} (m : std_map V) (body : Z -> V -> run unit) :
  Forall (fun kv => outcome (body (fst kv) (snd kv)) = Ok tt) m ->
  outcome (for_each m body) = Ok tt
  /\ written (for_each m body)
     = flat_map (fun kv => written (body (fst kv) (snd kv))) m.
Proof.
  induction 1 as [|[k v] m Hkv Hm [IHo IHw]]; [now split|].
  cbn [for_each flat_map fst snd] in *.
  rewrite (outcome_bind _ _ tt Hkv), (written_bind _ _ tt Hkv), IHo, IHw.
  now split.
Qed.

(** ** The navigation record *)

Ltac norm_app :=
  repeat (progress (rewrite ?TextFacts.append_assoc, ?TextFacts.append_nil_r;
                    cbn [String.append])).

(** Take a time stamp of known shape apart. *)
Ltac explicit_timestring Hts :=
  let frac := fresh "frac" in
  let Hfrac := fresh "Hfrac" in
  destruct (gps_timestring_shape _ _ _ Hts)
    as (?y1 & ?y2 & ?y3 & ?y4 & ?m1 & ?m2 & ?d1 & ?d2 & ?h1 & ?h2 & ?n1 & ?n2
        & ?s1 & ?s2 & frac & -> & Hfrac);
  destruct Hfrac as [-> | (?f1 & ?f2 & ?f3 & ?f4 & ?f5 & ?f6 & ->)].

(** Run the reads of the time stamp and the pure steps of a writer. *)
Ltac run_pure :=
  unfold substr;
  cbn [String.length Nat.ltb Nat.leb substring lift];
  repeat rewrite ?lift_ok, ?bind_ret_l.

Section NavRecord.

Variable doub2for : float -> nat -> nat -> string.

Lemma orbit_line_layout p f1 f2 f3 f4 :
  version p = 2 \/ version p = 3 ->
  orbit_line p f1 f2 f3 f4 = orbit_layout (version p) (f1, f2, f3, f4).
Proof.
  unfold orbit_line, orbit_layout.
  intros [-> | ->]; cbn [Z.eqb Pos.eqb String.append Text.spaces Text.replicate];
    norm_app; reflexivity.
Qed.

Lemma put_orbit_lines_layout p fields :
  version p = 2 \/ version p = 3 ->
  outcome (put_orbit_lines p fields) = Ok tt
  /\ written (put_orbit_lines p fields) = List.map (orbit_layout (version p)) fields.
Proof.
  intros Hv. induction fields as [|[[[f1 f2] f3] f4] fields [IHo IHw]]; [now split|].
  cbn [put_orbit_lines List.map].
  rewrite outcome_put_then, written_put_then, IHo, IHw, orbit_line_layout by assumption.
  now split.
Qed.

(** The clock line of version 2: the tenth of the second is "0" for
    every time stamp. *)
Lemma clock_line_v2 p eph ts :
  version p = 2 -> gps_timestring eph (d_TOW eph) = Ok ts ->
  exists yy mm dd hh nn ss,
    String.length yy = 2%nat /\ String.length mm = 2%nat /\ String.length dd = 2%nat
    /\ String.length hh = 2%nat /\ String.length nn = 2%nat /\ String.length ss = 2%nat
    /\ clock_line doub2for p eph
       = ret (rightJustify (Text.string_of_int (i_satellite_PRN eph)) 2
              ++ " " ++ yy ++ " " ++ mm ++ " " ++ dd ++ " " ++ hh ++ " " ++ nn
              ++ " " ++ ss ++ "." ++ "0" ++ " "
              ++ doub2for (d_A_f0 eph) 18 2 ++ " "
              ++ doub2for (d_A_f1 eph) 18 2 ++ " "
              ++ doub2for (d_A_f2 eph) 18 2 ++ " ").
Proof.
  intros Hv Hts. pose proof Hts as Hshape.
  explicit_timestring Hshape;
    (exists (String y3 (String y4 "")), (String m1 (String m2 "")),
       (String d1 (String d2 "")), (String h1 (String h2 "")),
       (String n1 (String n2 "")), (String s1 (String s2 ""));
     repeat (split; [reflexivity|]);
     unfold clock_line; rewrite Hts, Hv; run_pure;
     change (2 =? 2) with true; change (2 =? 3) with false; cbv iota;
     run_pure; reflexivity).
Qed.

(** The clock line of version 3. *)
Lemma clock_line_v3 p eph ts :
  version p = 3 -> gps_timestring eph (d_TOW eph) = Ok ts ->
  exists yyyy mm dd hh nn ss,
    String.length yyyy = 4%nat /\ String.length mm = 2%nat /\ String.length dd = 2%nat
    /\ String.length hh = 2%nat /\ String.length nn = 2%nat /\ String.length ss = 2%nat
    /\ clock_line doub2for p eph
       = ret (str_at (satelliteSystem p) "GPS"
              ++ (if i_satellite_PRN eph <? 10 then "0" else "")
              ++ Text.string_of_int (i_satellite_PRN eph)
              ++ " " ++ yyyy ++ " " ++ mm ++ " " ++ dd ++ " " ++ hh ++ " " ++ nn
              ++ " " ++ ss ++ " "
              ++ doub2for (d_A_f0 eph) 18 2 ++ " "
              ++ doub2for (d_A_f1 eph) 18 2 ++ " "
              ++ doub2for (d_A_f2 eph) 18 2).
Proof.
  intros Hv Hts. pose proof Hts as Hshape.
  explicit_timestring Hshape;
    (exists (String y1 (String y2 (String y3 (String y4 "")))),
       (String m1 (String m2 "")),
       (String d1 (String d2 "")), (String h1 (String h2 "")),
       (String n1 (String n2 "")), (String s1 (String s2 ""));
     repeat (split; [reflexivity|]);
     unfold clock_line; rewrite Hts, Hv; run_pure;
     change (3 =? 2) with false; change (3 =? 3) with true; cbv iota;
     run_pure; reflexivity).
Qed.

Lemma clock_line_returns p eph :
  version p = 2 \/ version p = 3 ->
  is_ok (gps_timestring eph (d_TOW eph)) = true ->
  exists clock, clock_line doub2for p eph = ret clock.
Proof.
  intros Hv Hts.
  destruct (gps_timestring eph (d_TOW eph)) as [ts|] eqn:E; [|discriminate].
  destruct Hv as [Hv|Hv].
  - destruct (clock_line_v2 p eph ts Hv E) as (? & ? & ? & ? & ? & ? & H).
    decompose [and] H. eauto.
  - destruct (clock_line_v3 p eph ts Hv E) as (? & ? & ? & ? & ? & ? & H).
    decompose [and] H. eauto.
Qed.

(** One record: the clock line and the seven orbit lines. *)
Lemma nav_record_lines p eph clock :
  version p = 2 \/ version p = 3 ->
  clock_line doub2for p eph = ret clock ->
  outcome (nav_record doub2for p eph) = Ok tt
  /\ written (nav_record doub2for p eph)
     = clock :: List.map (orbit_layout (version p)) (orbit_fields doub2for eph).
Proof.
  intros Hv Hc. unfold nav_record. rewrite Hc, bind_ret_l.
  rewrite outcome_put_then, written_put_then.
  destruct (put_orbit_lines_layout p (orbit_fields doub2for eph) Hv) as [-> ->].
  now split.
Qed.

End NavRecord.

(** The lines of a whole map: record after record, each a clock line
    followed by the laid-out orbit lines. *)
Lemma log_rinex_nav_records doub2for p eph_map :
  version p = 2 \/ version p = 3 ->
  Forall (fun kv => is_ok (gps_timestring (snd kv) (d_TOW (snd kv))) = true) eph_map ->
  exists clocks,
    Forall2 (fun clock kv => clock_line doub2for p (snd kv) = ret clock) clocks eph_map
    /\ outcome (log_rinex_nav doub2for p eph_map) = Ok tt
    /\ written (log_rinex_nav doub2for p eph_map)
       = flat_map (fun ce => fst ce :: List.map (orbit_layout (version p))
                                         (orbit_fields doub2for (snd (snd ce))))
                  (combine clocks eph_map).
Proof.
  intros Hv. induction 1 as [|[k eph] m Hts _ (clocks & Hc & Ho & Hw)].
  - exists []. repeat split. constructor.
  - destruct (clock_line_returns doub2for p eph Hv Hts) as [clock Hclock].
    destruct (nav_record_lines doub2for p eph clock Hv Hclock) as [Hro Hrw].
    exists (clock :: clocks). split; [constructor; assumption|].
    unfold log_rinex_nav in *. cbn [for_each combine flat_map fst snd].
    rewrite (outcome_bind _ _ tt Hro), (written_bind _ _ tt Hro), Ho, Hw, Hrw.
    split; reflexivity.
Qed.

(** C6. In version 2 or 3, for every map of ephemerides whose time
    stamps can be formed, log_rinex_nav returns and writes, per
    ephemeris in key order, one clock line followed by seven
    broadcast-orbit lines; an orbit line has 4 leading spaces in
    version 2 and 5 in version 3, and one more space at its end in
    version 2 only; in version 3 the clock line of PRN 5 begins with
    "G05". *)
Theorem log_rinex_nav_layout doub2for p eph_map :
  version p = 2 \/ version p = 3 ->
  Forall (fun kv => is_ok (gps_timestring (snd kv) (d_TOW (snd kv))) = true) eph_map ->
  exists clocks,
    List.length clocks = List.length eph_map
    /\ outcome (log_rinex_nav doub2for p eph_map) = Ok tt
    /\ written (log_rinex_nav doub2for p eph_map)
       = flat_map (fun ce => fst ce :: List.map (orbit_layout (version p))
                                         (orbit_fields doub2for (snd (snd ce))))
                  (combine clocks eph_map)
    /\ Forall (fun kv => List.length (orbit_fields doub2for (snd kv)) = 7%nat) eph_map
    /\ Forall2 (fun clock kv =>
                  clock_line doub2for p (snd kv) = ret clock
                  /\ (version p = 3 -> i_satellite_PRN (snd kv) = 5 ->
                      str_at (satelliteSystem p) "GPS" = "G" ->
                      String.prefix "G05" clock = true))
               clocks eph_map.
Proof.
  intros Hv Hts.
  destruct (log_rinex_nav_records doub2for p eph_map Hv Hts) as (clocks & Hc & Ho & Hw).
  exists clocks. split; [eapply Forall2_length; eassumption|].
  split; [assumption|]. split; [assumption|].
  split; [apply Forall_forall; reflexivity|].
  clear Ho Hw. induction Hc as [|clock [k eph] clocks m Hclock Hc IH]; constructor.
  - split; [assumption|]. intros H3 Hprn HG. cbn [snd] in *.
    inversion Hts as [|? ? Hts1 _]; subst. cbn [snd] in Hts1.
    destruct (gps_timestring eph (d_TOW eph)) as [ts|] eqn:E; [|discriminate].
    destruct (clock_line_v3 doub2for p eph ts H3 E) as (? & ? & ? & ? & ? & ? & H).
    decompose [and] H. clear H.
    match goal with
    | H1 : clock_line _ _ _ = ret ?c, H2 : clock_line _ _ _ = ret clock |- _ =>
        rewrite H1 in H2; injection H2 as <-
    end.
    rewrite HG, Hprn. reflexivity.
  - apply IH. now inversion Hts.
Qed.

(** C10. In version 2, for every map of ephemerides with PRNs of at
    most two digits whose time stamps can be formed, whatever their
    fraction of a second, column 21 of every clock line is the
    decimal point of the seconds and column 22, the tenth of a second,
    is '0'. *)
Theorem log_rinex_nav_tenth_is_zero doub2for p eph_map :
  version p = 2 ->
  Forall (fun kv => is_ok (gps_timestring (snd kv) (d_TOW (snd kv))) = true) eph_map ->
  Forall (fun kv => 0 <= i_satellite_PRN (snd kv) < 100) eph_map ->
  exists clocks,
    List.length clocks = List.length eph_map
    /\ written (log_rinex_nav doub2for p eph_map)
       = flat_map (fun ce => fst ce :: List.map (orbit_layout (version p))
                                         (orbit_fields doub2for (snd (snd ce))))
                  (combine clocks eph_map)
    /\ Forall (fun clock => String.get 20 clock = Some "."%char
                            /\ String.get 21 clock = Some "0"%char) clocks.
Proof.
  intros Hv Hts Hprn.
  destruct (log_rinex_nav_records doub2for p eph_map (or_introl Hv) Hts)
    as (clocks & Hc & Ho & Hw).
  exists clocks. split; [eapply Forall2_length; eassumption|].
  split; [assumption|]. clear Ho Hw.
  induction Hc as [|clock [k eph] clocks m Hclock Hc IH]; constructor.
  - cbn [snd] in *.
    inversion Hts as [|? ? Hts1 _]; subst. inversion Hprn as [|? ? Hprn1 _]; subst.
    cbn [snd] in *.
    destruct (gps_timestring eph (d_TOW eph)) as [ts|] eqn:E; [|discriminate].
    destruct (clock_line_v2 doub2for p eph ts Hv E)
      as (yy & mm & dd & hh & nn & ss & Hyy & Hmm & Hdd & Hhh & Hnn & Hss & H).
    rewrite H in Hclock. injection Hclock as <-.
    assert (Hsv : String.length
                    (rightJustify (Text.string_of_int (i_satellite_PRN eph)) 2) = 2%nat).
    { apply length_rightJustify.
      destruct (Z.lt_ge_cases (i_satellite_PRN eph) 10).
      - rewrite TextFacts.length_string_of_int_1 by lia. lia.
      - rewrite TextFacts.length_string_of_int_2 by lia. lia. }
    destruct (string_length_2 _ Hsv) as (a & b & ->).
    destruct (string_length_2 _ Hyy) as (? & ? & ->).
    destruct (string_length_2 _ Hmm) as (? & ? & ->).
    destruct (string_length_2 _ Hdd) as (? & ? & ->).
    destruct (string_length_2 _ Hhh) as (? & ? & ->).
    destruct (string_length_2 _ Hnn) as (? & ? & ->).
    destruct (string_length_2 _ Hss) as (? & ? & ->).
    split; reflexivity.
  - apply IH; [now inversion Hts | now inversion Hprn].
Qed.

Lemma log_rinex_nav_layout_witness :
  exists clocks,
    List.length clocks = List.length [(5, eph_prn5)]
    /\ outcome (log_rinex_nav doub2for_ref (printer_of_version 3) [(5, eph_prn5)]) = Ok tt
    /\ written (log_rinex_nav doub2for_ref (printer_of_version 3) [(5, eph_prn5)])
       = flat_map (fun ce => fst ce :: List.map (orbit_layout (version (printer_of_version 3)))
                                         (orbit_fields doub2for_ref (snd (snd ce))))
                  (combine clocks [(5, eph_prn5)])
    /\ Forall (fun kv => List.length (orbit_fields doub2for_ref (snd kv)) = 7%nat)
              [(5, eph_prn5)]
    /\ Forall2 (fun clock kv =>
                  clock_line doub2for_ref (printer_of_version 3) (snd kv) = ret clock
                  /\ (version (printer_of_version 3) = 3 -> i_satellite_PRN (snd kv) = 5 ->
                      str_at (satelliteSystem (printer_of_version 3)) "GPS" = "G" ->
                      String.prefix "G05" clock = true))
               clocks [(5, eph_prn5)].
Proof.
  apply (log_rinex_nav_layout doub2for_ref (printer_of_version 3) [(5, eph_prn5)]).
  - right. reflexivity.
  - repeat constructor.
Defined.

Lemma log_rinex_nav_tenth_is_zero_witness :
  exists clocks,
    List.length clocks = List.length [(5, eph_half_second)]
    /\ written (log_rinex_nav doub2for_ref (printer_of_version 2) [(5, eph_half_second)])
       = flat_map (fun ce => fst ce :: List.map (orbit_layout (version (printer_of_version 2)))
                                         (orbit_fields doub2for_ref (snd (snd ce))))
                  (combine clocks [(5, eph_half_second)])
    /\ Forall (fun clock => String.get 20 clock = Some "."%char
                            /\ String.get 21 clock = Some "0"%char) clocks.
Proof.
  apply (log_rinex_nav_tenth_is_zero doub2for_ref (printer_of_version 2)
           [(5, eph_half_second)]).
  - reflexivity.
  - repeat constructor.
  - repeat constructor; cbn; lia.
Defined.

(** The time stamp of the half-second record does carry its fraction. *)
Example gps_timestring_half_second :
  gps_timestring eph_half_second (d_TOW eph_half_second) = Ok "20010722T000000.500000".
Proof. vm_compute. reflexivity. Qed.

(** ** The observation record of version 2 *)

Lemma bind_ret_r_unit (m : run unit) : bind m (fun _ => ret tt) = m.
Proof.
  destruct m as [[[]|f] w l]; unfold bind; cbn; rewrite ?app_nil_r; reflexivity.
Qed.

Lemma blank_leading_zero_2 a b :
  exists c, blank_leading_zero (String a (String b "")) = ret (String c (String b "")).
Proof.
  unfold blank_leading_zero. cbn [substring].
  destruct (Cpp.compare (String a "") "0" =? 0); [exists " "%char | exists a];
    run_pure; reflexivity.
Qed.

(** The epoch line of version 2 before it is filled: the date and time
    on 16 columns, the seconds, the epoch flag, the number of
    satellites and their ids.  The fill is [80 - line.size()] spaces,
    computed in [size_t]. *)
Lemma log_rinex_obs_v2_epoch p eph obs_time pseudoranges ts :
  version p = 2 -> gps_timestring eph obs_time = Ok ts ->
  exists yy mo dd hh nn,
    String.length yy = 2%nat /\ String.length mo = 2%nat /\ String.length dd = 2%nat
    /\ String.length hh = 2%nat /\ String.length nn = 2%nat
    /\ log_rinex_obs p eph obs_time pseudoranges
       = (let line :=
            " " ++ yy ++ " " ++ mo ++ " " ++ dd ++ " " ++ hh ++ " " ++ nn ++ " "
            ++ asString_double (fmod obs_time 60) 7 ++ "  " ++ "0"
            ++ rightJustify
                 (Text.string_of_int (Z.of_nat (List.length pseudoranges))) 3
            ++ sat_ids p (map_keys pseudoranges) in
          fill <- lift (string_fill (size_sub 80 (Z.of_nat (String.length line))) " ") ;;
          check_and_put (line ++ fill) ;;
          for_each pseudoranges (fun _ obs => obs_line_v2 obs))%run.
Proof.
  intros Hv Hts. pose proof Hts as Hshape.
  explicit_timestring Hshape;
    (destruct (blank_leading_zero_2 m1 m2) as [mc Hm];
     destruct (blank_leading_zero_2 d1 d2) as [dc Hd];
     exists (String y3 (String y4 "")), (String mc (String m2 "")),
       (String dc (String d2 "")), (String h1 (String h2 "")),
       (String n1 (String n2 ""));
     repeat (split; [reflexivity|]);
     unfold log_rinex_obs; rewrite Hts, Hv; run_pure;
     change (2 =? 2) with true; change (2 =? 3) with false; cbv iota;
     run_pure; rewrite Hm; run_pure; rewrite Hd; run_pure;
     rewrite bind_ret_r_unit; reflexivity).
Qed.

Lemma fits_F14_3_widths obs :
  fits_F14_3 obs = true ->
  String.length (rightJustify (asString_double (Pseudorange_m obs) 3) 14) = 14%nat
  /\ String.length
       (rightJustify (asString_double (Carrier_phase_rads obs / GPS_TWO_PI)%float 3) 14)
     = 14%nat
  /\ String.length (rightJustify (asString_double (Carrier_Doppler_hz obs) 3) 14) = 14%nat
  /\ String.length (rightJustify (asString_double (CN0_dB_hz obs) 3) 14) = 14%nat.
Proof.
  unfold fits_F14_3, obs_values. cbn [forallb]. intros H.
  repeat (apply andb_prop in H; destruct H as [? H]).
  repeat match goal with
         | E : (_ <=? _)%nat = true |- _ => apply Nat.leb_le in E
         end.
  repeat split; apply length_rightJustify; assumption.
Qed.

(** An observation line of version 2 whose values fit their columns is
    written as laid out, 80 columns wide. *)
Lemma obs_line_v2_layout obs :
  fits_F14_3 obs = true ->
  outcome (obs_line_v2 obs) = Ok tt
  /\ written (obs_line_v2 obs) = [obs_layout_v2 obs]
  /\ String.length (obs_layout_v2 obs) = 80%nat.
Proof.
  intros Hfit. destruct (fits_F14_3_widths obs Hfit) as (H1 & H2 & H3 & H4).
  unfold obs_line_v2, obs_layout_v2.
  set (a := rightJustify (asString_double (Pseudorange_m obs) 3) 14) in *.
  set (b := rightJustify
              (asString_double (Carrier_phase_rads obs / GPS_TWO_PI)%float 3) 14) in *.
  set (c := rightJustify (asString_double (Carrier_Doppler_hz obs) 3) 14) in *.
  set (d := rightJustify (asString_double (CN0_dB_hz obs) 3) 14) in *.
  clearbody a b c d. cbv zeta. change (0 =? 0) with true. cbv iota.
  assert (Hlen : String.length (((("" ++ a) ++ Text.spaces 1) ++ b) ++ c ++ d) = 57%nat).
  { rewrite !TextFacts.length_append, H1, H2, H3, H4. reflexivity. }
  assert (Hlen' : String.length ((((("" ++ a) ++ Text.spaces 1) ++ b) ++ c) ++ d) = 57%nat).
  { rewrite !TextFacts.length_append, H1, H2, H3, H4. reflexivity. }
  rewrite Hlen'. change (57 <? 80)%nat with true. cbv iota.
  change (string_fill (size_sub 80 (Z.of_nat 57)) " ") with (Ok (Text.spaces 23)).
  rewrite lift_ok, bind_ret_l, bind_ret_l.
  repeat split.
  - cbn [put_line written]. f_equal.
    cbn [Text.spaces Text.replicate String.append]. norm_app. reflexivity.
  - rewrite !TextFacts.length_append, H1, H2, H3, H4. reflexivity.
Qed.

Lemma asString_seconds_of_100 : asString_double (fmod 100 60) 7 = "40.0000000".
Proof. vm_compute. reflexivity. Qed.

(** C7. In version 2, for the two satellites PRN 3 and PRN 12 at time
    of week 100.0, with a time stamp that can be formed and values that
    fit their F14.3 columns, log_rinex_obs returns and writes three
    lines of 80 columns: an epoch line with the date and time, 40
    seconds, the epoch flag 0, the count 2 and the list "G03G12"; then
    one observation line per satellite, in which the second field is
    the carrier phase in radians divided by 2 pi. *)
Theorem log_rinex_obs_v2_two_satellites p eph s3 s12 :
  version p = 2 ->
  str_at (satelliteSystem p) "GPS" = "G" ->
  is_ok (gps_timestring eph 100) = true ->
  fits_F14_3 s3 = true -> fits_F14_3 s12 = true ->
  exists yy mo dd hh nn,
    String.length yy = 2%nat /\ String.length mo = 2%nat /\ String.length dd = 2%nat
    /\ String.length hh = 2%nat /\ String.length nn = 2%nat
    /\ outcome (log_rinex_obs p eph 100 [(3, s3); (12, s12)]) = Ok tt
    /\ written (log_rinex_obs p eph 100 [(3, s3); (12, s12)])
       = [ " " ++ yy ++ " " ++ mo ++ " " ++ dd ++ " " ++ hh ++ " " ++ nn
           ++ " 40.0000000" ++ "  0" ++ "  2" ++ "G03G12" ++ Text.spaces 42;
           obs_layout_v2 s3;
           obs_layout_v2 s12 ]
    /\ Forall (fun line => String.length line = 80%nat)
              (written (log_rinex_obs p eph 100 [(3, s3); (12, s12)]))
    /\ substring 15 14 (obs_layout_v2 s3)
       = rightJustify (asString_double (Carrier_phase_rads s3 / GPS_TWO_PI)%float 3) 14
    /\ substring 15 14 (obs_layout_v2 s12)
       = rightJustify (asString_double (Carrier_phase_rads s12 / GPS_TWO_PI)%float 3) 14.
Proof.
  intros Hv HG Hts Hf3 Hf12.
  destruct (gps_timestring eph 100) as [ts|] eqn:E; [|discriminate].
  destruct (log_rinex_obs_v2_epoch p eph 100 [(3, s3); (12, s12)] ts Hv E)
    as (yy & mo & dd & hh & nn & Hyy & Hmo & Hdd & Hhh & Hnn & Hrun).
  exists yy, mo, dd, hh, nn.
  do 5 (split; [assumption|]).
  destruct (obs_line_v2_layout s3 Hf3) as (Ho3 & Hw3 & Hl3).
  destruct (obs_line_v2_layout s12 Hf12) as (Ho12 & Hw12 & Hl12).
  assert (Hlines :
    outcome (log_rinex_obs p eph 100 [(3, s3); (12, s12)]) = Ok tt
    /\ written (log_rinex_obs p eph 100 [(3, s3); (12, s12)])
       = [ " " ++ yy ++ " " ++ mo ++ " " ++ dd ++ " " ++ hh ++ " " ++ nn
           ++ " 40.0000000" ++ "  0" ++ "  2" ++ "G03G12" ++ Text.spaces 42;
           obs_layout_v2 s3;
           obs_layout_v2 s12 ]).
  { rewrite Hrun. cbv zeta.
    rewrite asString_seconds_of_100.
    unfold sat_ids, sat_id, map_keys. cbn [List.map fst List.length]. rewrite HG.
    destruct (string_length_2 _ Hyy) as (? & ? & ->).
    destruct (string_length_2 _ Hmo) as (? & ? & ->).
    destruct (string_length_2 _ Hdd) as (? & ? & ->).
    destruct (string_length_2 _ Hhh) as (? & ? & ->).
    destruct (string_length_2 _ Hnn) as (? & ? & ->).
    match goal with
    | |- context [lift (string_fill ?n " ")] =>
        change (lift (string_fill n " ")) with (ret (Text.spaces 42))
    end.
    rewrite bind_ret_l, outcome_put_then, written_put_then.
    cbn [for_each].
    rewrite (outcome_bind _ _ tt Ho3), (written_bind _ _ tt Ho3), Hw3.
    rewrite (outcome_bind _ _ tt Ho12), (written_bind _ _ tt Ho12), Hw12.
    split; reflexivity. }
  destruct Hlines as [Ho Hw]. split; [exact Ho|]. split; [exact Hw|]. split.
  - rewrite Hw. repeat constructor; try assumption.
    rewrite !TextFacts.length_append, Hyy, Hmo, Hdd, Hhh, Hnn. reflexivity.
  - destruct (fits_F14_3_widths s3 Hf3) as (A3 & B3 & _).
    destruct (fits_F14_3_widths s12 Hf12) as (A12 & B12 & _).
    unfold obs_layout_v2.
    split.
    + change 15%nat with (14 + 1)%nat. rewrite <- A3 at 1.
      rewrite TextFacts.substring_append_skip. cbn [String.append substring].
      rewrite <- B3 at 1. apply TextFacts.substring_prefix.
    + change 15%nat with (14 + 1)%nat. rewrite <- A12 at 1.
      rewrite TextFacts.substring_append_skip. cbn [String.append substring].
      rewrite <- B12 at 1. apply TextFacts.substring_prefix.
Qed.

Lemma log_rinex_obs_v2_two_satellites_witness :
  exists yy mo dd hh nn,
    String.length yy = 2%nat /\ String.length mo = 2%nat /\ String.length dd = 2%nat
    /\ String.length hh = 2%nat /\ String.length nn = 2%nat
    /\ outcome (log_rinex_obs (printer_of_version 2) eph_prn5 100
                  [(3, sample_obs); (12, sample_obs)]) = Ok tt
    /\ written (log_rinex_obs (printer_of_version 2) eph_prn5 100
                  [(3, sample_obs); (12, sample_obs)])
       = [ " " ++ yy ++ " " ++ mo ++ " " ++ dd ++ " " ++ hh ++ " " ++ nn
           ++ " 40.0000000" ++ "  0" ++ "  2" ++ "G03G12" ++ Text.spaces 42;
           obs_layout_v2 sample_obs;
           obs_layout_v2 sample_obs ]
    /\ Forall (fun line => String.length line = 80%nat)
              (written (log_rinex_obs (printer_of_version 2) eph_prn5 100
                          [(3, sample_obs); (12, sample_obs)]))
    /\ substring 15 14 (obs_layout_v2 sample_obs)
       = rightJustify
           (asString_double (Carrier_phase_rads sample_obs / GPS_TWO_PI)%float 3) 14
    /\ substring 15 14 (obs_layout_v2 sample_obs)
       = rightJustify
           (asString_double (Carrier_phase_rads sample_obs / GPS_TWO_PI)%float 3) 14.
Proof.
  apply (log_rinex_obs_v2_two_satellites (printer_of_version 2) eph_prn5
           sample_obs sample_obs); vm_compute; reflexivity.
Defined.

(** What the two-satellite record looks like for the sample. *)
Example log_rinex_obs_v2_sample :
  written (log_rinex_obs (printer_of_version 2) eph_prn5 100
             [(3, sample_obs); (12, sample_obs)])
  = [" 01  7 22 00 01 40.0000000  0  2G03G12                                          ";
     "  20000000.500        159.155     -1500.250        45.000                       ";
     "  20000000.500        159.155     -1500.250        45.000                       "].
Proof. vm_compute. reflexivity. Qed.

(** Whenever the content of the version 2 epoch line is longer than 80
    columns, the subtraction [80 - line.size()] wraps around in
    [size_t], the fill string cannot be built, and the call ends with
    [std::length_error] before anything is written or logged. *)
Lemma log_rinex_obs_v2_long_epoch_throws p eph obs_time pseudoranges :
  version p = 2 ->
  is_ok (gps_timestring eph obs_time) = true ->
  let content :=
    (16 + String.length (asString_double (fmod obs_time 60) 7) + 3
     + String.length (rightJustify
                        (Text.string_of_int (Z.of_nat (List.length pseudoranges))) 3)
     + String.length (sat_ids p (map_keys pseudoranges)))%nat in
  (80 < content)%nat -> Z.of_nat content < 2 ^ 62 ->
  log_rinex_obs p eph obs_time pseudoranges = raise length_error.
Proof.
  intros Hv Hts content Hlong Hbound.
  destruct (gps_timestring eph obs_time) as [ts|] eqn:E; [|discriminate].
  destruct (log_rinex_obs_v2_epoch p eph obs_time pseudoranges ts Hv E)
    as (yy & mo & dd & hh & nn & Hyy & Hmo & Hdd & Hhh & Hnn & ->).
  cbv zeta.
  match goal with
  | |- context [string_fill (size_sub 80 (Z.of_nat (String.length ?l))) " "] =>
      assert (Hlen : String.length l = content)
  end.
  { rewrite !TextFacts.length_append, Hyy, Hmo, Hdd, Hhh, Hnn. subst content.
    cbn [String.length]. lia. }
  rewrite Hlen. unfold string_fill, size_sub.
  assert (Hwrap : (80 - Z.of_nat content) mod 2 ^ 64 = 2 ^ 64 + 80 - Z.of_nat content).
  { symmetry. apply Z.mod_unique with (q := -1); lia. }
  rewrite Hwrap.
  assert (Hmax : (max_size <? 2 ^ 64 + 80 - Z.of_nat content) = true).
  { apply Z.ltb_lt. unfold max_size. lia. }
  rewrite Hmax. reflexivity.
Qed.

(** C9. On the code an over-long version 2 epoch line is not written:
    with sixteen satellites the line has exactly 80 columns and the
    record goes out; with seventeen the call throws
    [std::length_error] and nothing is written. *)
Theorem log_rinex_obs_v2_seventeen_satellites_throw :
  log_rinex_obs (printer_of_version 2) eph_prn5 100 seventeen_satellites
  = raise length_error
  /\ outcome (log_rinex_obs (printer_of_version 2) eph_prn5 100 sixteen_satellites)
     = Ok tt
  /\ List.hd "" (written (log_rinex_obs (printer_of_version 2) eph_prn5 100
                            sixteen_satellites))
     = " 01  7 22 00 01 40.0000000  0 16G01G02G03G04G05G06G07G08G09G10G11G12G13G14G15G16"
  /\ List.length (written (log_rinex_obs (printer_of_version 2) eph_prn5 100
                             sixteen_satellites)) = 17%nat.
Proof.
  split; [|repeat split; vm_compute; reflexivity].
  apply log_rinex_obs_v2_long_epoch_throws.
  - reflexivity.
  - vm_compute. reflexivity.
  - apply Nat.ltb_lt. vm_compute. reflexivity.
  - vm_compute. reflexivity.
Qed.

(** ** Lines of 80 columns *)

Lemma in_range_spec lo x hi : in_range lo x hi = true -> lo <= x <= hi.
Proof.
  unfold in_range. intros H. apply andb_prop in H. destruct H as [H1 H2].
  apply Z.leb_le in H1. apply Z.leb_le in H2. lia.
Qed.

(** Split a conjunction of boolean tests into facts on integers and
    lengths. *)
Ltac split_tests H :=
  repeat match type of H with
         | (_ && _) = true =>
             let H1 := fresh H in
             apply andb_prop in H; destruct H as [H1 H]; try split_tests H1
         end;
  try (apply in_range_spec in H);
  try (apply Nat.eqb_eq in H);
  try (apply Nat.leb_le in H).

Lemma length_substring s : forall n m,
  (n + m <= String.length s)%nat -> String.length (substring n m s) = m.
Proof.
  induction s as [|c s IH]; intros n m H; simpl in *.
  - assert (n = O) by lia. assert (m = O) by lia. subst. reflexivity.
  - destruct n as [|n]; destruct m as [|m]; simpl; try reflexivity.
    + rewrite IH by lia. reflexivity.
    + apply IH. lia.
    + apply IH. lia.
Qed.

Lemma length_rightJustify_pad_ge s w c :
  (w <= String.length (rightJustify_pad s w c))%nat.
Proof.
  unfold rightJustify_pad. destruct (Nat.ltb_spec w (String.length s)); [lia|].
  rewrite TextFacts.length_append, TextFacts.length_replicate. lia.
Qed.

(** The fixed-width rendering always has the width asked for. *)
Lemma length_asFixWidthString x w c : String.length (asFixWidthString x w c) = w.
Proof.
  unfold asFixWidthString. apply length_substring.
  pose proof (length_rightJustify_pad_ge (Text.string_of_int x) w c). lia.
Qed.

Lemma length_hex_bytes bytes :
  String.length (hex_bytes bytes) = (3 * List.length bytes)%nat.
Proof.
  induction bytes as [|b bytes IH]; [reflexivity|].
  cbn [hex_bytes List.length]. unfold Text.hex2.
  cbn [String.append String.length]. rewrite IH. lia.
Qed.

Lemma length_string_of_int_small i :
  0 <= i < 100 ->
  String.length ((if i <? 10 then " " else "") ++ Text.string_of_int i) = 2%nat.
Proof.
  intros H. destruct (Z.ltb_spec i 10).
  - rewrite TextFacts.length_append, TextFacts.length_string_of_int_1 by lia. reflexivity.
  - rewrite TextFacts.length_append, TextFacts.length_string_of_int_2 by lia. reflexivity.
Qed.


(** The length of a line built from justified fields, blanks and
    literals. *)
Ltac field_widths :=
  repeat (progress (rewrite ?TextFacts.length_append; cbn [String.length]));
  rewrite ?length_leftJustify, ?length_rightJustify, ?TextFacts.length_spaces,
    ?length_two_digits, ?length_asFixWidthString
    by (first [assumption | cbn [String.length]; lia | lia]);
  cbn [String.length]; try lia.






Lemma printer_ready_spec p :
  printer_ready p = true ->
  (version p = 2 \/ version p = 3)
  /\ String.length (stringVersion p) = 4%nat
  /\ 0 <= numberTypesObservations p <= 999
  /\ String.length (str_at (satelliteSystem p) "GPS") = 1%nat
  /\ String.length (str_at (observationType p) "PSEUDORANGE") = 1%nat
  /\ String.length (str_at (observationType p) "SIGNAL_STRENGTH") = 1%nat
  /\ String.length (str_at (observationCode p) "GPS_L1_CA") = 2%nat
  /\ String.length (str_at (observationType p) "PSEUDORANGE_CA_v2") = 1%nat
  /\ String.length (str_at (observationType p) "CARRIER_PHASE_CA_v2") = 1%nat
  /\ String.length (str_at (observationType p) "DOPPLER_v2") = 1%nat
  /\ String.length (str_at (observationType p) "SIGNAL_STRENGTH_v2") = 1%nat
  /\ String.length (str_at (observationCode p) "GPS_L1_CA_v2") = 1%nat.
Proof.
  unfold printer_ready, all_fill. cbn [forallb fst snd]. intros H.
  split_tests H.
  match goal with
  | Hv : (_ || _) = true |- _ =>
      apply orb_prop in Hv; destruct Hv as [Hv|Hv]; apply Z.eqb_eq in Hv
  end; repeat split; try lia; try assumption; auto.
Qed.





Lemma fill_to_60_fits line :
  (String.length line <= 60)%nat ->
  fill_to_60 line = ret (line ++ Text.spaces (60 - String.length line)).
Proof.
  intros H. unfold fill_to_60, string_fill, size_sub.
  rewrite Z.mod_small by (change (2 ^ 64) with 18446744073709551616; lia).
  assert (Hmax : (max_size <? 60 - Z.of_nat (String.length line)) = false).
  { apply Z.ltb_ge. unfold max_size. change (2 ^ 62) with 4611686018427387904. lia. }
  rewrite Hmax, lift_ok, bind_ret_l.
  replace (Z.to_nat (60 - Z.of_nat (String.length line)))
    with (60 - String.length line)%nat by lia.
  reflexivity.
Qed.

(** Step through the lines of a header. *)
Ltac run_lines :=
  repeat first [ rewrite outcome_put_then | rewrite written_put_then
               | rewrite bind_ret_l | rewrite lift_ok ].


Lemma string_fill_fits N len :
  0 <= N <= 100 -> (len <= Z.to_nat N)%nat ->
  string_fill (size_sub N (Z.of_nat len)) " " = Ok (Text.spaces (Z.to_nat N - len)).
Proof.
  intros HN H. unfold string_fill, size_sub.
  rewrite Z.mod_small by (change (2 ^ 64) with 18446744073709551616; lia).
  assert (Hmax : (max_size <? N - Z.of_nat len) = false).
  { apply Z.ltb_ge. unfold max_size. change (2 ^ 62) with 4611686018427387904. lia. }
  rewrite Hmax. replace (Z.to_nat (N - Z.of_nat len)) with (Z.to_nat N - len)%nat by lia.
  reflexivity.
Qed.

Lemma length_sat_id p prn :
  String.length (str_at (satelliteSystem p) "GPS") = 1%nat -> 0 <= prn <= 99 ->
  String.length (sat_id p prn) = 3%nat.
Proof.
  intros HG Hprn. unfold sat_id. rewrite TextFacts.length_append, HG.
  destruct (Z.ltb_spec prn 10).
  - rewrite TextFacts.length_append, TextFacts.length_string_of_int_1 by lia. reflexivity.
  - rewrite TextFacts.length_append, TextFacts.length_string_of_int_2 by lia. reflexivity.
Qed.

(** The epoch line of version 3 before it is filled. *)
Lemma log_rinex_obs_v3_epoch p eph obs_time pseudoranges ts :
  version p = 3 -> gps_timestring eph obs_time = Ok ts ->
  exists yyyy mo dd hh nn,
    String.length yyyy = 4%nat /\ String.length mo = 2%nat /\ String.length dd = 2%nat
    /\ String.length hh = 2%nat /\ String.length nn = 2%nat
    /\ log_rinex_obs p eph obs_time pseudoranges
       = (let line :=
            ">" ++ " " ++ yyyy ++ " " ++ mo ++ " " ++ dd ++ " " ++ hh ++ " " ++ nn ++ " "
            ++ (if (fmod obs_time 60 <? 10)%float then "0" else "")
            ++ asString_double (fmod obs_time 60) 7 ++ "  " ++ "0"
            ++ rightJustify
                 (Text.string_of_int (Z.of_nat (List.length pseudoranges))) 3 in
          fill <- lift (string_fill (size_sub 80 (Z.of_nat (String.length line))) " ") ;;
          check_and_put (line ++ fill) ;;
          for_each pseudoranges (fun prn obs => obs_line_v3 p prn obs))%run.
Proof.
  intros Hv Hts. pose proof Hts as Hshape.
  explicit_timestring Hshape;
    (exists (String y1 (String y2 (String y3 (String y4 "")))),
       (String m1 (String m2 "")),
       (String d1 (String d2 "")), (String h1 (String h2 "")),
       (String n1 (String n2 ""));
     repeat (split; [reflexivity|]);
     unfold log_rinex_obs; rewrite Hts, Hv; run_pure;
     change (3 =? 2) with false; change (3 =? 3) with true; cbv iota;
     run_pure; reflexivity).
Qed.








(** The record of the 32-byte message. *)
Example log_rinex_sbs_sample :
  written (log_rinex_sbs sbas_32_bytes)
  = ["120 13 09 05 12 00 59.9  L1    32     0   SBA                                   ";
     "  9    00 01 02 03 04 05 06 07 08 09 0a 0b 0c 0d 0e 0f 10 11                    ";
     "       12 13 14 15 16 17 18 19 1a 1b 1c 1d 1e 1f                                "].
Proof. vm_compute. reflexivity. Qed.

(** The spec's navigation scenario: version 3.01, GPS week 100, PRN 5,
    all orbital fields zero. *)
Example log_rinex_nav_scenario :
  written (log_rinex_nav doub2for_ref (printer_of_version 3) [(5, eph_prn5)])
  = ["G05 2001 07 22 00 00 00  0.00000000000D+00  0.00000000000D+00  0.00000000000D+00";
     "      0.00000000000D+00  0.00000000000D+00  0.00000000000D+00  0.00000000000D+00";
     "      0.00000000000D+00  0.00000000000D+00  0.00000000000D+00  0.00000000000D+00";
     "      0.00000000000D+00  0.00000000000D+00  0.00000000000D+00  0.00000000000D+00";
     "      0.00000000000D+00  0.00000000000D+00  0.00000000000D+00  0.00000000000D+00";
     "      0.00000000000D+00  0.00000000000D+00  0.11240000000D+04  0.00000000000D+00";
     "      0.00000000000D+00  0.00000000000D+00  0.00000000000D+00  0.00000000000D+00";
     "      0.00000000000D+00  0.40000000000D+01                                      "].
Proof. vm_compute. reflexivity. Qed.

(** * Further properties *)

(** ** File names *)

Lemma append_inv_head a b c : a ++ b = a ++ c -> b = c.
Proof.
  induction a as [|x a IH]; simpl; [trivial|].
  intros H. injection H as H. now apply IH.
Qed.

(** Reading a key that the map does not hold gives the empty string. *)
Lemma str_at_absent m k : ~ In k (str_keys m) -> str_at m k = "".
Proof.
  induction m as [|[k' v] m IH]; [reflexivity|].
  cbn [str_keys List.map fst In str_at]. intros H.
  destruct (String.eqb_spec k' k) as [->|Hne]; [exfalso; apply H; now left|].
  apply IH. intros Hin. apply H. now right.
Qed.

(** A file name is a stem that depends on the clock alone, followed by
    the letter of the file type. *)
Lemma createFilename_stem env :
  exists stem, forall type, createFilename env type = stem ++ str_at fileType type.
Proof.
  unfold createFilename. cbv zeta.
  match goal with
  | |- exists stem, forall type, ?a ++ ?b ++ ?c ++ ?d ++ ?e ++ ?f ++ _ = _ =>
      exists (a ++ b ++ c ++ d ++ e ++ f)
  end.
  intros type. rewrite !TextFacts.append_assoc. reflexivity.
Qed.

(** The day of the year on three digits. *)
Lemma day_of_year_tag d :
  1 <= d <= 366 ->
  (if d <? 10 then (if d <? 100 then "" ++ "0" else "") ++ "0"
   else if d <? 100 then "" ++ "0" else "")
  ++ Text.string_of_int d = Boost.zero_padded 3 d.
Proof.
  intros H. unfold Boost.zero_padded, rightJustify_pad.
  destruct (Z.ltb_spec d 10); [|destruct (Z.ltb_spec d 100)].
  - assert (Hd : (d <? 100) = true) by (apply Z.ltb_lt; lia). rewrite Hd.
    rewrite TextFacts.length_string_of_int_1 by lia. reflexivity.
  - rewrite TextFacts.length_string_of_int_2 by lia. reflexivity.
  - rewrite TextFacts.length_string_of_int_3 by lia. reflexivity.
Qed.

(** The minute on two digits. *)
Lemma minute_tag m :
  0 <= m <= 59 ->
  (if m <? 10 then "0" else "") ++ Text.string_of_int m = Boost.zero_padded 2 m.
Proof.
  intros H. unfold Boost.zero_padded, rightJustify_pad.
  destruct (Z.ltb_spec m 10).
  - rewrite TextFacts.length_string_of_int_1 by lia. reflexivity.
  - rewrite TextFacts.length_string_of_int_2 by lia. reflexivity.
Qed.

Lemma local_clock_in_range_spec env :
  local_clock_in_range env = true ->
  1 <= local_day_of_year env <= 366 /\ 0 <= tm_hour (local_tm env) <= 23
  /\ 0 <= tm_min (local_tm env) <= 59 /\ 110 <= tm_year (local_tm env) <= 199.
Proof.
  unfold local_clock_in_range. intros H. split_tests H. repeat split; lia.
Qed.

Lemma length_file_type type :
  In type (str_keys fileType) -> String.length (str_at fileType type) = 1%nat.
Proof.
  cbn. intros H. repeat destruct H as [H|H]; try subst type; try reflexivity.
  contradiction.
Qed.

(** X1. For a local clock in the years 2010 to 2099 and a file type of
    the table, createFilename returns a name of 14 characters: "GSDR",
    the day of the year on three digits, the letter of the hour ('a'
    for 0 h to 'x' for 23 h), the minute on two digits, a point, the
    year on two digits and the letter of the file type. *)
Theorem createFilename_shape env type :
  local_clock_in_range env = true -> In type (str_keys fileType) ->
  createFilename env type
  = "GSDR" ++ Boost.zero_padded 3 (local_day_of_year env)
    ++ String (ascii_of_nat (97 + Z.to_nat (tm_hour (local_tm env)))) ""
    ++ Boost.zero_padded 2 (tm_min (local_tm env)) ++ "."
    ++ Text.string_of_int (tm_year (local_tm env) - 100)
    ++ str_at fileType type
  /\ String.length (createFilename env type) = 14%nat.
Proof.
  intros Hc Ht.
  destruct (local_clock_in_range_spec env Hc) as (Hd & Hh & Hm & Hy).
  assert (E : createFilename env type
              = "GSDR" ++ Boost.zero_padded 3 (local_day_of_year env)
                ++ String (ascii_of_nat (97 + Z.to_nat (tm_hour (local_tm env)))) ""
                ++ Boost.zero_padded 2 (tm_min (local_tm env)) ++ "."
                ++ Text.string_of_int (tm_year (local_tm env) - 100)
                ++ str_at fileType type).
  { unfold createFilename. cbv zeta.
    rewrite day_of_year_tag, minute_tag by assumption.
    do 2 f_equal.
    assert (Hc24 : exists n, (n < 24)%nat /\ tm_hour (local_tm env) = Z.of_nat n).
    { exists (Z.to_nat (tm_hour (local_tm env))). lia. }
    destruct Hc24 as (n & Hn & ->).
    do 24 (destruct n as [|n]; [reflexivity|]). lia. }
  split; [exact E|]. rewrite E.
  rewrite !TextFacts.length_append, !length_zero_padded, TextFacts.length_string_of_int_2,
    length_file_type by (try assumption; try lia;
                         first [change (10 ^ Z.of_nat 3) with 1000
                               |change (10 ^ Z.of_nat 2) with 100]; lia).
  reflexivity.
Qed.

Lemma createFilename_shape_witness :
  createFilename env_2013 "RINEX_FILE_TYPE_SBAS"
  = "GSDR" ++ Boost.zero_padded 3 (local_day_of_year env_2013)
    ++ String (ascii_of_nat (97 + Z.to_nat (tm_hour (local_tm env_2013)))) ""
    ++ Boost.zero_padded 2 (tm_min (local_tm env_2013)) ++ "."
    ++ Text.string_of_int (tm_year (local_tm env_2013) - 100)
    ++ str_at fileType "RINEX_FILE_TYPE_SBAS"
  /\ String.length (createFilename env_2013 "RINEX_FILE_TYPE_SBAS") = 14%nat.
Proof.
  apply (createFilename_shape env_2013 "RINEX_FILE_TYPE_SBAS").
  - vm_compute. reflexivity.
  - cbn. tauto.
Defined.

(** The SBAS file of 5 September 2013, 12:00. *)
Example createFilename_sample :
  createFilename env_2013 "RINEX_FILE_TYPE_SBAS" = "GSDR248m00.13B".
Proof. vm_compute. reflexivity. Qed.

(** X2. A file type that the table [fileType] does not hold gives no
    error: the name comes back without a type letter, that is the name
    of the navigation, observation or SBAS file less its last
    character. *)
Theorem createFilename_unknown_type env type :
  ~ In type (str_keys fileType) ->
  createFilename env "RINEX_FILE_TYPE_GPS_NAV" = createFilename env type ++ "N"
  /\ createFilename env "RINEX_FILE_TYPE_OBS" = createFilename env type ++ "O"
  /\ createFilename env "RINEX_FILE_TYPE_SBAS" = createFilename env type ++ "B".
Proof.
  intros H. destruct (createFilename_stem env) as [stem Hstem].
  rewrite !Hstem, (str_at_absent _ _ H), TextFacts.append_nil_r.
  repeat split.
Qed.

Lemma createFilename_unknown_type_witness :
  createFilename env_2013 "RINEX_FILE_TYPE_GPS_NAV"
  = createFilename env_2013 "RINEX_FILE_TYPE_NAV" ++ "N"
  /\ createFilename env_2013 "RINEX_FILE_TYPE_OBS"
     = createFilename env_2013 "RINEX_FILE_TYPE_NAV" ++ "O"
  /\ createFilename env_2013 "RINEX_FILE_TYPE_SBAS"
     = createFilename env_2013 "RINEX_FILE_TYPE_NAV" ++ "B".
Proof.
  apply (createFilename_unknown_type env_2013 "RINEX_FILE_TYPE_NAV").
  cbn. intros H. repeat destruct H as [H|H]; try discriminate H. exact H.
Defined.

(** ** The constructor, the destructor and the disk *)

Lemma output_names_distinct env :
  createFilename env "RINEX_FILE_TYPE_GPS_NAV" <> createFilename env "RINEX_FILE_TYPE_OBS"
  /\ createFilename env "RINEX_FILE_TYPE_GPS_NAV" <> createFilename env "RINEX_FILE_TYPE_SBAS"
  /\ createFilename env "RINEX_FILE_TYPE_OBS" <> createFilename env "RINEX_FILE_TYPE_SBAS".
Proof.
  destruct (createFilename_stem env) as [stem Hstem]. rewrite !Hstem.
  repeat split; intros E; apply append_inv_head in E; discriminate E.
Qed.

(** The constructor always returns, with the three names asked of
    [createFilename] and three streams that stand at the end of what
    their files held before. *)
Lemma ctor_returns flag env u fs :
  exists p,
    outcome (fst (Rinex_Printer_ctor flag env u fs)) = Ok p
    /\ navfilename p = createFilename env "RINEX_FILE_TYPE_GPS_NAV"
    /\ obsfilename p = createFilename env "RINEX_FILE_TYPE_OBS"
    /\ sbsfilename p = createFilename env "RINEX_FILE_TYPE_SBAS"
    /\ navFile p = mkStream (navfilename p) (file_size fs (navfilename p))
    /\ obsFile p = mkStream (obsfilename p) (file_size fs (obsfilename p))
    /\ sbsFile p = mkStream (sbsfilename p) (file_size fs (sbsfilename p)).
Proof.
  destruct (output_names_distinct env) as (Hno & Hns & Hos).
  unfold Rinex_Printer_ctor, open_append, file_size. cbv zeta beta iota.
  repeat match goal with
         | |- context [if ?c then _ else _] =>
             match c with
             | Cpp.compare _ _ =? 0 => destruct c
             end
         end;
    eexists; (split; [reflexivity|]);
    cbn [navfilename obsfilename sbsfilename navFile obsFile sbsFile];
    rewrite !fs_set_other by congruence; repeat split.
Qed.

(** X3. Whatever the clock reads, the constructor gives its three
    files three different names, so that no two streams share a
    file. *)
Theorem ctor_filenames_distinct flag env u fs :
  exists p,
    outcome (fst (Rinex_Printer_ctor flag env u fs)) = Ok p
    /\ navfilename p <> obsfilename p
    /\ navfilename p <> sbsfilename p
    /\ obsfilename p <> sbsfilename p.
Proof.
  destruct (ctor_returns flag env u fs) as (p & Hp & Hn & Ho & Hs & _).
  exists p. split; [exact Hp|]. rewrite Hn, Ho, Hs.
  apply output_names_distinct.
Qed.

(** X4. With the flag "3.01", "2.11" or "2.10" the constructor logs
    nothing and returns a printer that the writers can use: version 3
    with the version string "3.01" for "3.01", and version 2 with the
    version string "2.10" for both "2.11" and "2.10", whatever the
    member [version] held before. *)
Theorem ctor_known_version flag env u fs :
  flag = "3.01" \/ flag = "2.11" \/ flag = "2.10" ->
  exists p,
    outcome (fst (Rinex_Printer_ctor flag env u fs)) = Ok p
    /\ logged (fst (Rinex_Printer_ctor flag env u fs)) = []
    /\ version p = (if String.eqb flag "3.01" then 3 else 2)
    /\ stringVersion p = (if String.eqb flag "3.01" then "3.01" else "2.10")
    /\ printer_ready p = true.
Proof.
  intros [-> | [-> | ->]]; eexists; repeat split.
Qed.

Lemma ctor_known_version_witness :
  exists p,
    outcome (fst (Rinex_Printer_ctor "2.11" env_2013 7 no_files)) = Ok p
    /\ logged (fst (Rinex_Printer_ctor "2.11" env_2013 7 no_files)) = []
    /\ version p = (if String.eqb "2.11" "3.01" then 3 else 2)
    /\ stringVersion p = (if String.eqb "2.11" "3.01" then "3.01" else "2.10")
    /\ printer_ready p = true.
Proof.
  apply (ctor_known_version "2.11" env_2013 7 no_files). right. left. reflexivity.
Defined.

Lemma open_append_keeps f fs g c :
  fs g = Some c -> snd (open_append f fs) g = Some c.
Proof.
  intros H. unfold open_append, fs_set. cbn [snd].
  destruct (String.eqb_spec g f) as [->|_]; [now rewrite H | exact H].
Qed.

Lemma open_append_creates f fs : snd (open_append f fs) f <> None.
Proof. unfold open_append. cbn [snd]. rewrite fs_set_same. discriminate. Qed.

Lemma open_append_other f fs g : g <> f -> snd (open_append f fs) g = fs g.
Proof. intros H. unfold open_append. cbn [snd]. now apply fs_set_other. Qed.

Lemma open_append_exists f fs g :
  fs g <> None -> snd (open_append f fs) g <> None.
Proof.
  destruct (fs g) as [c|] eqn:E; [|congruence].
  intros _. now rewrite (open_append_keeps f fs g c E).
Qed.

(** The disk that the constructor leaves: the three files opened one
    after the other, whatever the version flag. *)
Lemma ctor_disk flag env u fs :
  snd (Rinex_Printer_ctor flag env u fs)
  = snd (open_append (createFilename env "RINEX_FILE_TYPE_SBAS")
      (snd (open_append (createFilename env "RINEX_FILE_TYPE_OBS")
        (snd (open_append (createFilename env "RINEX_FILE_TYPE_GPS_NAV") fs))))).
Proof.
  unfold Rinex_Printer_ctor, open_append. cbv zeta beta iota.
  repeat match goal with
         | |- context [if ?c then _ else _] =>
             match c with
             | Cpp.compare _ _ =? 0 => destruct c
             end
         end; reflexivity.
Qed.

Lemma ctor_disk_other flag env u fs f :
  ~ In f (output_names env) -> snd (Rinex_Printer_ctor flag env u fs) f = fs f.
Proof.
  rewrite ctor_disk. unfold output_names. cbn [In]. intros Hf.
  rewrite !open_append_other; [reflexivity | | |]; intros ->; apply Hf; tauto.
Qed.

(** X5. The constructor opens in append mode: every file that was on
    disk keeps its bytes, the three output files exist when it returns
    (for any version flag), and no other file appears. *)
Theorem ctor_keeps_files flag env u fs :
  (forall f c, fs f = Some c -> snd (Rinex_Printer_ctor flag env u fs) f = Some c)
  /\ (forall f, In f (output_names env) ->
                snd (Rinex_Printer_ctor flag env u fs) f <> None)
  /\ (forall f, ~ In f (output_names env) ->
                snd (Rinex_Printer_ctor flag env u fs) f = fs f).
Proof.
  repeat split.
  - intros f c H. rewrite ctor_disk. now do 3 apply open_append_keeps.
  - intros f Hin. rewrite ctor_disk. unfold output_names in Hin. cbn [In] in Hin.
    destruct Hin as [<-|Hin]; [|destruct Hin as [<-|Hin]; [|destruct Hin as [<-|Hin]]].
    + do 2 apply open_append_exists. apply open_append_creates.
    + apply open_append_exists. apply open_append_creates.
    + apply open_append_creates.
    + contradiction.
  - apply ctor_disk_other.
Qed.

(** The destructor after writes to the three streams of a printer that
    has just created its three files. *)
Lemma dtor_after_writes p fs nav_data obs_data sbs_data :
  navfilename p <> obsfilename p -> navfilename p <> sbsfilename p ->
  obsfilename p <> sbsfilename p ->
  navFile p = mkStream (navfilename p) 0 ->
  obsFile p = mkStream (obsfilename p) 0 ->
  sbsFile p = mkStream (sbsfilename p) 0 ->
  fs (navfilename p) = Some "" -> fs (obsfilename p) = Some "" ->
  fs (sbsfilename p) = Some "" ->
  let final :=
    Rinex_Printer_dtor (put_sbs sbs_data (put_obs obs_data (put_nav nav_data (p, fs)))) in
  final (navfilename p) = (if String.eqb nav_data "" then None else Some nav_data)
  /\ final (obsfilename p) = (if String.eqb obs_data "" then None else Some obs_data)
  /\ final (sbsfilename p) = (if String.eqb obs_data "" then None else Some sbs_data)
  /\ (forall g, g <> navfilename p -> g <> obsfilename p -> g <> sbsfilename p ->
                final g = fs g).
Proof.
  destruct p as [v sv nt ss oc ot n o s sn so sb].
  cbn [navfilename obsfilename sbsfilename navFile obsFile sbsFile].
  intros Hno Hns Hos -> -> -> Hn Ho Hs.
  assert (Hon : o <> n) by congruence.
  assert (Hsn : s <> n) by congruence.
  assert (Hso : s <> o) by congruence.
  destruct nav_data as [|a1 d1]; destruct obs_data as [|a2 d2];
    destruct sbs_data as [|a3 d3];
    cbv zeta;
    unfold put_nav, put_obs, put_sbs, stream_put, Rinex_Printer_dtor, remove;
    cbn [navfilename obsfilename sbsfilename navFile obsFile sbsFile os_path tellp
         String.eqb];
    rewrite ?fs_set_same, ?Hn, ?Ho, ?Hs;
    repeat first [ rewrite fs_set_same
                 | rewrite (fs_set_other _ _ _ _ Hno)
                 | rewrite (fs_set_other _ _ _ _ Hns)
                 | rewrite (fs_set_other _ _ _ _ Hos)
                 | rewrite (fs_set_other _ _ _ _ Hon)
                 | rewrite (fs_set_other _ _ _ _ Hsn)
                 | rewrite (fs_set_other _ _ _ _ Hso)
                 | rewrite Hn | rewrite Ho | rewrite Hs
                 | progress cbn [String.append String.length Z.of_nat Z.eqb
                                 navfilename obsfilename sbsfilename navFile obsFile
                                 sbsFile os_path tellp] ];
    repeat split;
    try (intros g Hgn Hgo Hgs; rewrite ?fs_set_other by assumption; reflexivity).
Qed.

(** X6. The life of the three files, from construction on a disk that
    does not hold them to destruction, for any clock, flag and data:
    the navigation file is left with the bytes written to it and is
    erased when there are none, and so is the observation file; the
    SBAS file is kept, with the bytes written to it, exactly when
    bytes went to the observation stream; no other file changes. *)
Theorem printer_lifecycle flag env u fs nav_data obs_data sbs_data :
  Forall (fun f => fs f = None) (output_names env) ->
  exists pf,
    constructed flag env u fs = Some pf
    /\ let final :=
         Rinex_Printer_dtor
           (put_sbs sbs_data (put_obs obs_data (put_nav nav_data pf))) in
       final (navfilename (fst pf))
       = (if String.eqb nav_data "" then None else Some nav_data)
       /\ final (obsfilename (fst pf))
          = (if String.eqb obs_data "" then None else Some obs_data)
       /\ final (sbsfilename (fst pf))
          = (if String.eqb obs_data "" then None else Some sbs_data)
       /\ (forall g, ~ In g (output_names env) -> final g = fs g).
Proof.
  intros Hnew. unfold output_names in *.
  inversion Hnew as [|? ? Hn Hnew1]; subst. inversion Hnew1 as [|? ? Ho Hnew2]; subst.
  inversion Hnew2 as [|? ? Hs _]; subst. clear Hnew Hnew1 Hnew2.
  destruct (ctor_returns flag env u fs) as (p & Hp & En & Eo & Es & Sn & So & Ss).
  unfold file_size in Sn, So, Ss. rewrite En, Hn in Sn. rewrite Eo, Ho in So.
  rewrite Es, Hs in Ss. cbn [String.length Z.of_nat] in Sn, So, Ss.
  rewrite <- En in Sn. rewrite <- Eo in So. rewrite <- Es in Ss.
  destruct (output_names_distinct env) as (Hno & Hns & Hos).
  exists (p, snd (Rinex_Printer_ctor flag env u fs)).
  split; [unfold constructed; now rewrite Hp|].
  cbn [fst].
  pose proof (ctor_disk_other flag env u fs) as Hother.
  assert (Hfs : forall f, snd (Rinex_Printer_ctor flag env u fs) f
                          = snd (open_append (createFilename env "RINEX_FILE_TYPE_SBAS")
                              (snd (open_append (createFilename env "RINEX_FILE_TYPE_OBS")
                                (snd (open_append (createFilename env "RINEX_FILE_TYPE_GPS_NAV")
                                        fs))))) f)
    by (intros f; now rewrite ctor_disk).
  destruct (dtor_after_writes p (snd (Rinex_Printer_ctor flag env u fs))
              nav_data obs_data sbs_data) as (F1 & F2 & F3 & F4);
    try (rewrite ?En, ?Eo, ?Es; congruence); try assumption.
  - rewrite Hfs, En. rewrite !open_append_other by congruence.
    unfold open_append. cbn [snd]. now rewrite fs_set_same, Hn.
  - rewrite Hfs, Eo. rewrite open_append_other by congruence.
    unfold open_append at 1. cbn [snd]. rewrite fs_set_same.
    now rewrite open_append_other, Ho by congruence.
  - rewrite Hfs, Es. unfold open_append at 1. cbn [snd]. rewrite fs_set_same.
    now rewrite !open_append_other, Hs by congruence.
  - repeat split; try assumption.
    intros g Hg. cbn [In] in Hg. rewrite F4, Hother.
    + reflexivity.
    + unfold output_names. cbn [In]. exact Hg.
    + rewrite En. intros ->. apply Hg. tauto.
    + rewrite Eo. intros ->. apply Hg. tauto.
    + rewrite Es. intros ->. apply Hg. tauto.
Qed.

Lemma printer_lifecycle_witness :
  exists pf,
    constructed "3.01" env_2013 0 no_files = Some pf
    /\ let final :=
         Rinex_Printer_dtor (put_sbs "s" (put_obs "" (put_nav "n" pf))) in
       final (navfilename (fst pf)) = (if String.eqb "n" "" then None else Some "n")
       /\ final (obsfilename (fst pf)) = (if String.eqb "" "" then None else Some "")
       /\ final (sbsfilename (fst pf)) = (if String.eqb "" "" then None else Some "s")
       /\ (forall g, ~ In g (output_names env_2013) -> final g = no_files g).
Proof.
  apply (printer_lifecycle "3.01" env_2013 0 no_files "n" "" "s").
  repeat constructor.
Defined.

(** ** The length check and the log *)

Lemma diagnosed_ret {A : Type} (a : A) : diagnosed (ret a).
Proof. reflexivity. Qed.

Lemma diagnosed_raise {A : Type} (f : failure) : diagnosed (@raise A f).
Proof. reflexivity. Qed.

Lemma diagnosed_lift {A : Type} (r : result A) : diagnosed (lift r).
Proof. reflexivity. Qed.

(** A checked line is logged exactly when it is not 80 characters
    long, and written in both cases. *)
Lemma diagnosed_check_and_put line : diagnosed (check_and_put line).
Proof.
  unfold diagnosed, check_and_put, lengthCheck, bad_lines, diagnostic.
  destruct (negb (String.length line =? 80)%nat) eqn:E; cbn; rewrite E; reflexivity.
Qed.

Lemma diagnosed_bind {A B : Type} (m : run A) (k : A -> run B) :
  diagnosed m -> (forall a, diagnosed (k a)) -> diagnosed (bind m k).
Proof.
  unfold diagnosed, bind, bad_lines. intros Hm Hk.
  destruct (outcome m) as [a|f]; cbn [logged written]; [|exact Hm].
  rewrite filter_app, map_app, Hm, (Hk a). reflexivity.
Qed.

Lemma diagnosed_for_each {V : Type} (m : std_map V) (body : Z -> V -> run unit) :
  (forall k v, diagnosed (body k v)) -> diagnosed (for_each m body).
Proof.
  intros H. induction m as [|[k v] m IH]; [apply diagnosed_ret|].
  cbn [for_each]. apply diagnosed_bind; [apply H | intros _; exact IH].
Qed.

(** Take a writer apart into its checked lines. *)
Ltac diagnose :=
  repeat first
    [ apply diagnosed_check_and_put
    | apply diagnosed_ret
    | apply diagnosed_raise
    | apply diagnosed_lift
    | apply diagnosed_bind; [|intros ?]
    | match goal with
      | |- diagnosed (if ?c then _ else _) => destruct c
      | |- diagnosed (match ?x with _ => _ end) => destruct x
      end ].

Lemma diagnosed_log_rinex_nav doub2for p eph_map :
  diagnosed (log_rinex_nav doub2for p eph_map).
Proof.
  unfold log_rinex_nav. apply diagnosed_for_each. intros _ eph.
  unfold nav_record. diagnose.
Qed.

Lemma diagnosed_rinex_nav_header doub2for lexical_cast_double p env iono utc_model :
  diagnosed (rinex_nav_header doub2for lexical_cast_double p env iono utc_model).
Proof. unfold rinex_nav_header. cbv zeta. diagnose. Qed.

Lemma diagnosed_rinex_sbs_header env : diagnosed (rinex_sbs_header env).
Proof. unfold rinex_sbs_header. cbv zeta. diagnose. Qed.

Lemma diagnosed_log_rinex_sbs m : diagnosed (log_rinex_sbs m).
Proof. unfold log_rinex_sbs. cbv zeta. diagnose. Qed.

Lemma diagnosed_rinex_obs_header p env eph t : diagnosed (rinex_obs_header p env eph t).
Proof. unfold rinex_obs_header, fill_to_60. cbv zeta. diagnose. Qed.

(** X7. Every line that the three header writers, log_rinex_nav and
    log_rinex_sbs write has gone through lengthCheck: for any input, in
    any version and also when the writer fails on the way, the log
    holds exactly one "Bad defined RINEX line" diagnostic per written
    line that is not 80 characters long, in the order of writing, and
    nothing else. *)
Theorem checked_writers_log_each_bad_line doub2for lexical_cast_double p env iono
    utc_model eph_map eph d_TOW_first_observation sbs_message :
  Forall (fun r => logged r = List.map diagnostic (bad_lines (written r)))
    [ rinex_nav_header doub2for lexical_cast_double p env iono utc_model;
      log_rinex_nav doub2for p eph_map;
      rinex_obs_header p env eph d_TOW_first_observation;
      rinex_sbs_header env;
      log_rinex_sbs sbs_message ].
Proof.
  repeat match goal with
         | |- Forall _ (_ :: _) => apply Forall_cons
         | |- Forall _ [] => apply Forall_nil
         end.
  - apply diagnosed_rinex_nav_header.
  - apply diagnosed_log_rinex_nav.
  - apply diagnosed_rinex_obs_header.
  - apply diagnosed_rinex_sbs_header.
  - apply diagnosed_log_rinex_sbs.
Qed.

(** ** The headers *)

(** X8. rinex_nav_header and rinex_sbs_header cannot fail: for any
    printer, clock and correction model they return after 9 and 6
    lines, the last of which is the END OF HEADER record, 60 blanks
    followed by the label in columns 61 to 80. *)
Theorem headers_always_complete doub2for lexical_cast_double p env iono utc_model :
  let nav := rinex_nav_header doub2for lexical_cast_double p env iono utc_model in
  let sbs := rinex_sbs_header env in
  outcome nav = Ok tt /\ List.length (written nav) = 9%nat
  /\ List.last (written nav) "" = Text.spaces 60 ++ "END OF HEADER" ++ Text.spaces 7
  /\ outcome sbs = Ok tt /\ List.length (written sbs) = 6%nat
  /\ List.last (written sbs) "" = Text.spaces 60 ++ "END OF HEADER" ++ Text.spaces 7.
Proof.
  cbv zeta. unfold rinex_nav_header, rinex_sbs_header. cbv zeta.
  destruct (utc_day env) as [[y m] d].
  rewrite !outcome_put_then, !written_put_then, outcome_check_and_put,
    written_check_and_put.
  repeat split; reflexivity.
Qed.

Lemma length_numberTypesObservations p :
  0 <= numberTypesObservations p <= 999 ->
  (String.length (Text.string_of_int (numberTypesObservations p)) <= 3)%nat.
Proof.
  intros Hn.
  pose proof (TextFacts.length_string_of_int_le (numberTypesObservations p) 3) as Hle.
  change (10 ^ Z.of_nat 3) with 1000 in Hle. specialize (Hle ltac:(lia)).
  cbn in Hle. lia.
Qed.

(** X9. With a printer as constructed, the variable USER set and a
    time stamp of the first observation that can be formed,
    rinex_obs_header returns after 15 lines in version 2 as in version
    3, the last being the END OF HEADER record, however long the user
    name is. *)
Theorem rinex_obs_header_complete p env eph d_TOW_first_observation :
  printer_ready p = true ->
  env_USER env <> None ->
  is_ok (gps_timestring eph d_TOW_first_observation) = true ->
  outcome (rinex_obs_header p env eph d_TOW_first_observation) = Ok tt
  /\ List.length (written (rinex_obs_header p env eph d_TOW_first_observation)) = 15%nat
  /\ List.last (written (rinex_obs_header p env eph d_TOW_first_observation)) ""
     = Text.spaces 60 ++ "END OF HEADER" ++ Text.spaces 7.
Proof.
  intros Hp HU Hts.
  destruct (printer_ready_spec p Hp)
    as (Hv & Hsv & Hn & HG & HP & HS & HC & HP2 & HL2 & HD2 & HS2 & HC2).
  destruct (env_USER env) as [username|] eqn:EU; [clear HU|congruence].
  destruct (gps_timestring eph d_TOW_first_observation) as [ts|] eqn:E; [|discriminate].
  pose proof (length_numberTypesObservations p Hn) as Hnum.
  pose proof E as Hshape.
  unfold rinex_obs_header. cbv zeta. rewrite EU, E.
  explicit_timestring Hshape;
    (destruct Hv as [Hv | Hv]; rewrite Hv in *;
     [change (2 =? 2) with true; change (2 =? 3) with false
     |change (3 =? 2) with false; change (3 =? 3) with true];
     cbv iota; run_lines;
     rewrite ?fill_to_60_fits by field_widths;
     run_lines; run_pure; run_lines;
     rewrite ?outcome_check_and_put, ?written_check_and_put;
     repeat split; reflexivity).
Qed.

Lemma rinex_obs_header_complete_witness :
  outcome (rinex_obs_header (printer_of_version 3) env_2013 eph_prn5 100) = Ok tt
  /\ List.length (written (rinex_obs_header (printer_of_version 3) env_2013 eph_prn5 100))
     = 15%nat
  /\ List.last (written (rinex_obs_header (printer_of_version 3) env_2013 eph_prn5 100)) ""
     = Text.spaces 60 ++ "END OF HEADER" ++ Text.spaces 7.
Proof.
  apply (rinex_obs_header_complete (printer_of_version 3) env_2013 eph_prn5 100).
  - vm_compute. reflexivity.
  - discriminate.
  - vm_compute. reflexivity.
Defined.

(** X10. The time of the first observation is looked at late: for a
    printer as the constructor leaves it for a known version and with
    USER set, when the time stamp of the first observation cannot be
    formed, rinex_obs_header ends with the failure of the time stamp
    after the 13 lines that precede TIME OF FIRST OBS, and the header
    is left without its last two records. *)
Theorem rinex_obs_header_stops_at_time_of_first_obs p env eph d_TOW_first_observation f :
  printer_ready p = true ->
  env_USER env <> None ->
  gps_timestring eph d_TOW_first_observation = Raise f ->
  outcome (rinex_obs_header p env eph d_TOW_first_observation) = Raise f
  /\ List.length (written (rinex_obs_header p env eph d_TOW_first_observation)) = 13%nat.
Proof.
  intros Hp HU E.
  destruct (printer_ready_spec p Hp)
    as (Hv & Hsv & Hn & HG & HP & HS & HC & HP2 & HL2 & HD2 & HS2 & HC2).
  destruct (env_USER env) as [username|] eqn:EU; [clear HU|congruence].
  pose proof (length_numberTypesObservations p Hn) as Hnum.
  unfold rinex_obs_header. cbv zeta. rewrite EU, E.
  destruct Hv as [Hv | Hv]; rewrite Hv in *;
    [change (2 =? 2) with true; change (2 =? 3) with false
    |change (3 =? 2) with false; change (3 =? 3) with true];
    cbv iota; run_lines;
    rewrite ?fill_to_60_fits by field_widths;
    run_lines; split; reflexivity.
Qed.

(** A time of week that lies after the year 9999, where Boost refuses
    the date. *)
Example gps_timestring_year_10000 :
  gps_timestring eph_prn5 260000000000 = Raise out_of_range.
Proof. vm_compute. reflexivity. Qed.

Lemma rinex_obs_header_stops_at_time_of_first_obs_witness :
  outcome (rinex_obs_header (printer_of_version 2) env_2013 eph_prn5 260000000000)
  = Raise out_of_range
  /\ List.length (written (rinex_obs_header (printer_of_version 2) env_2013 eph_prn5
                             260000000000)) = 13%nat.
Proof.
  apply (rinex_obs_header_stops_at_time_of_first_obs (printer_of_version 2) env_2013
           eph_prn5 260000000000 out_of_range).
  - vm_compute. reflexivity.
  - discriminate.
  - vm_compute. reflexivity.
Defined.

(** ** Navigation records *)

(** The outcome of a navigation record is that of its time stamp. *)
Lemma outcome_nav_record doub2for p eph :
  outcome (nav_record doub2for p eph)
  = match gps_timestring eph (d_TOW eph) with
    | Ok _ => Ok tt
    | Raise f => Raise f
    end.
Proof.
  destruct (gps_timestring eph (d_TOW eph)) as [ts|f] eqn:E.
  - assert (Hc : exists clock, clock_line doub2for p eph = ret clock).
    { pose proof E as Hshape. unfold clock_line. rewrite E.
      explicit_timestring Hshape; run_pure;
        destruct (version p =? 2); destruct (version p =? 3);
        run_pure; eauto. }
    destruct Hc as [clock Hc].
    unfold nav_record. rewrite Hc, bind_ret_l, outcome_put_then.
    clear. induction (orbit_fields doub2for eph) as [|[[[f1 f2] f3] f4] l IH];
      [reflexivity|].
    cbn [put_orbit_lines]. now rewrite outcome_put_then.
  - unfold nav_record, clock_line. rewrite E. reflexivity.
Qed.

(** X11. log_rinex_nav fails on nothing but a time stamp: in any
    version and for any formatter, it returns exactly when the time
    stamp of every ephemeris of the map can be formed. *)
Theorem log_rinex_nav_returns_iff doub2for p eph_map :
  outcome (log_rinex_nav doub2for p eph_map) = Ok tt
  <-> Forall (fun kv => is_ok (gps_timestring (snd kv) (d_TOW (snd kv))) = true) eph_map.
Proof.
  unfold log_rinex_nav.
  induction eph_map as [|[k eph] m IH]; cbn [for_each].
  - split; [constructor | reflexivity].
  - pose proof (outcome_nav_record doub2for p eph) as Ho.
    destruct (gps_timestring eph (d_TOW eph)) as [ts|f] eqn:E.
    + rewrite (outcome_bind _ _ tt Ho), IH. split.
      * intros H. constructor; [cbn [snd]; now rewrite E | exact H].
      * intros H. now inversion H.
    + unfold bind. rewrite Ho. cbn [outcome]. split; [discriminate|].
      intros H. inversion H as [|? ? H1 _]. cbn [snd] in H1. rewrite E in H1.
      discriminate H1.
Qed.

Lemma bind_assoc {A B C : Type} (m : run A) (f : A -> run B) (g : B -> run C) :
  bind (bind m f) g = bind m (fun a => bind (f a) g).
Proof.
  unfold bind. destruct m as [[a|e] w l]; cbn [outcome written logged]; [|reflexivity].
  destruct (f a) as [[b|e] w' l']; cbn [outcome written logged]; [|reflexivity].
  now rewrite !app_assoc.
Qed.

Lemma for_each_app {V : Type} (m1 m2 : std_map V) (body : Z -> V -> run unit) :
  for_each (m1 ++ m2)%list body = bind (for_each m1 body) (fun _ => for_each m2 body).
Proof.
  induction m1 as [|[k v] m1 IH]; cbn [for_each app].
  - now rewrite bind_ret_l.
  - now rewrite bind_assoc, IH.
Qed.

Lemma written_put_orbit_lines p fields :
  outcome (put_orbit_lines p fields) = Ok tt
  /\ written (put_orbit_lines p fields)
     = List.map (fun f => let '(f1, f2, f3, f4) := f in orbit_line p f1 f2 f3 f4) fields.
Proof.
  induction fields as [|[[[f1 f2] f3] f4] fields [IHo IHw]]; [now split|].
  cbn [put_orbit_lines List.map].
  rewrite outcome_put_then, written_put_then, IHo, IHw. now split.
Qed.

(** A record whose time stamp can be formed: its clock line and seven
    orbit lines, in any version. *)
Lemma nav_record_written doub2for p eph :
  is_ok (gps_timestring eph (d_TOW eph)) = true ->
  exists clock,
    clock_line doub2for p eph = ret clock
    /\ outcome (nav_record doub2for p eph) = Ok tt
    /\ written (nav_record doub2for p eph)
       = clock :: List.map (fun f => let '(f1, f2, f3, f4) := f in orbit_line p f1 f2 f3 f4)
                           (orbit_fields doub2for eph).
Proof.
  intros Hts.
  destruct (gps_timestring eph (d_TOW eph)) as [ts|] eqn:E; [|discriminate].
  assert (Hc : exists clock, clock_line doub2for p eph = ret clock).
  { pose proof E as Hshape. unfold clock_line. rewrite E.
    explicit_timestring Hshape; run_pure;
      destruct (version p =? 2); destruct (version p =? 3);
      run_pure; eauto. }
  destruct Hc as [clock Hc]. exists clock. split; [exact Hc|].
  unfold nav_record. rewrite Hc, bind_ret_l, outcome_put_then, written_put_then.
  destruct (written_put_orbit_lines p (orbit_fields doub2for eph)) as [-> ->].
  now split.
Qed.

(** A record whose time stamp cannot be formed writes and logs
    nothing. *)
Lemma nav_record_bad_timestamp doub2for p eph f :
  gps_timestring eph (d_TOW eph) = Raise f -> nav_record doub2for p eph = raise f.
Proof. intros E. unfold nav_record, clock_line. rewrite E. reflexivity. Qed.

(** X12. log_rinex_nav stops at the first ephemeris whose time stamp
    cannot be formed: the records before it are written in full, eight
    lines each, the failing record writes and logs nothing, no later
    record is written, and the call ends with the failure of that time
    stamp. *)
Theorem log_rinex_nav_stops_at_bad_timestamp doub2for p m1 k eph m2 f :
  Forall (fun kv => is_ok (gps_timestring (snd kv) (d_TOW (snd kv))) = true) m1 ->
  gps_timestring eph (d_TOW eph) = Raise f ->
  outcome (log_rinex_nav doub2for p (m1 ++ (k, eph) :: m2)%list) = Raise f
  /\ written (log_rinex_nav doub2for p (m1 ++ (k, eph) :: m2)%list)
     = written (log_rinex_nav doub2for p m1)
  /\ logged (log_rinex_nav doub2for p (m1 ++ (k, eph) :: m2)%list)
     = logged (log_rinex_nav doub2for p m1)
  /\ outcome (log_rinex_nav doub2for p m1) = Ok tt
  /\ List.length (written (log_rinex_nav doub2for p m1)) = (8 * List.length m1)%nat.
Proof.
  intros Hok Hbad. unfold log_rinex_nav.
  destruct (for_each_ok m1 (fun _ eph => nav_record doub2for p eph)) as [Ho Hw].
  { eapply Forall_impl; [|exact Hok]. intros kv Hkv.
    destruct (nav_record_written doub2for p (snd kv) Hkv) as (c & _ & H & _). exact H. }
  rewrite for_each_app. cbn [for_each].
  rewrite (nav_record_bad_timestamp doub2for p eph f Hbad), bind_raise_l.
  unfold bind at 1 2 3. rewrite Ho. cbn [outcome written logged raise].
  rewrite !app_nil_r. repeat split; try assumption.
  rewrite Hw. clear Ho Hw.
  induction Hok as [|kv m Hkv _ IH]; [reflexivity|].
  cbn [flat_map List.length]. rewrite length_app, IH.
  destruct (nav_record_written doub2for p (snd kv) Hkv) as (c & _ & _ & ->).
  cbn [List.length fst snd]. rewrite length_map. cbn [orbit_fields List.length]. lia.
Qed.

Lemma log_rinex_nav_stops_at_bad_timestamp_witness :
  outcome (log_rinex_nav doub2for_ref (printer_of_version 2)
             ([(5, eph_prn5)] ++ (7, eph_year_10000) :: [(9, eph_prn5)])%list)
  = Raise out_of_range
  /\ written (log_rinex_nav doub2for_ref (printer_of_version 2)
                ([(5, eph_prn5)] ++ (7, eph_year_10000) :: [(9, eph_prn5)])%list)
     = written (log_rinex_nav doub2for_ref (printer_of_version 2) [(5, eph_prn5)])
  /\ logged (log_rinex_nav doub2for_ref (printer_of_version 2)
               ([(5, eph_prn5)] ++ (7, eph_year_10000) :: [(9, eph_prn5)])%list)
     = logged (log_rinex_nav doub2for_ref (printer_of_version 2) [(5, eph_prn5)])
  /\ outcome (log_rinex_nav doub2for_ref (printer_of_version 2) [(5, eph_prn5)]) = Ok tt
  /\ List.length (written (log_rinex_nav doub2for_ref (printer_of_version 2)
                             [(5, eph_prn5)]))
     = (8 * List.length [(5, eph_prn5)])%nat.
Proof.
  apply (log_rinex_nav_stops_at_bad_timestamp doub2for_ref (printer_of_version 2)
           [(5, eph_prn5)] 7 eph_year_10000 [(9, eph_prn5)] out_of_range).
  - repeat constructor.
  - vm_compute. reflexivity.
Defined.

Lemma bad_lines_app l1 l2 : bad_lines (l1 ++ l2)%list = (bad_lines l1 ++ bad_lines l2)%list.
Proof. apply filter_app. Qed.

Lemma logged_for_each_ok {V : Type} (m : std_map V) (body : Z -> V -> run unit) :
  Forall (fun kv => outcome (body (fst kv) (snd kv)) = Ok tt) m ->
  logged (for_each m body) = flat_map (fun kv => logged (body (fst kv) (snd kv))) m.
Proof.
  induction 1 as [|[k v] m Hkv Hm IH]; [reflexivity|].
  cbn [for_each flat_map fst snd] in *.
  unfold bind. rewrite Hkv. cbn [logged]. now rewrite IH.
Qed.

(** X13. A printer whose version is neither 2 nor 3, as the
    constructor leaves it for an unknown flag, with time stamps that
    can be formed: log_rinex_obs returns without writing or logging
    anything, so the epoch is lost in silence; log_rinex_nav returns
    and writes, for each record of the map, an empty clock line and
    seven orbit lines without leading or closing blanks, and logs the
    diagnostic of the empty line for each record, followed by those of
    its orbit lines that are not 80 characters long. *)
Theorem writers_with_unknown_version doub2for p eph obs_time pseudoranges eph_map :
  version p <> 2 -> version p <> 3 ->
  is_ok (gps_timestring eph obs_time) = true ->
  Forall (fun kv => is_ok (gps_timestring (snd kv) (d_TOW (snd kv))) = true) eph_map ->
  log_rinex_obs p eph obs_time pseudoranges = ret tt
  /\ outcome (log_rinex_nav doub2for p eph_map) = Ok tt
  /\ written (log_rinex_nav doub2for p eph_map)
     = flat_map (fun kv =>
                   "" :: List.map (fun f => let '(f1, f2, f3, f4) := f in
                                            f1 ++ " " ++ f2 ++ " " ++ f3 ++ " " ++ f4)
                                  (orbit_fields doub2for (snd kv)))
                eph_map
  /\ logged (log_rinex_nav doub2for p eph_map)
     = flat_map (fun kv =>
                   diagnostic ""
                   :: List.map diagnostic
                        (bad_lines
                           (List.map (fun f => let '(f1, f2, f3, f4) := f in
                                               f1 ++ " " ++ f2 ++ " " ++ f3 ++ " " ++ f4)
                                     (orbit_fields doub2for (snd kv)))))
                eph_map.
Proof.
  intros H2 H3 Hobs Hnav.
  apply Z.eqb_neq in H2. apply Z.eqb_neq in H3.
  split.
  { destruct (gps_timestring eph obs_time) as [ts|] eqn:E; [|discriminate].
    pose proof E as Hshape.
    unfold log_rinex_obs. rewrite E, H2, H3.
    explicit_timestring Hshape; run_pure; reflexivity. }
  assert (Hrec : forall e, is_ok (gps_timestring e (d_TOW e)) = true ->
            outcome (nav_record doub2for p e) = Ok tt
            /\ written (nav_record doub2for p e)
               = "" :: List.map (fun f => let '(f1, f2, f3, f4) := f in
                                          f1 ++ " " ++ f2 ++ " " ++ f3 ++ " " ++ f4)
                                (orbit_fields doub2for e)).
  { intros e He.
    destruct (nav_record_written doub2for p e He) as (clock & Hc & Ho & Hw).
    split; [exact Ho|]. rewrite Hw.
    assert (Hempty : clock_line doub2for p e = ret "").
    { destruct (gps_timestring e (d_TOW e)) as [ts|] eqn:E; [|discriminate].
      pose proof E as Hshape. unfold clock_line. rewrite E, H2, H3.
      explicit_timestring Hshape; run_pure; reflexivity. }
    rewrite Hempty in Hc. injection Hc as <-.
    f_equal. apply map_ext. intros [[[f1 f2] f3] f4].
    unfold orbit_line. rewrite H2, H3. reflexivity. }
  unfold log_rinex_nav.
  destruct (for_each_ok eph_map (fun _ e => nav_record doub2for p e)) as [Ho Hw].
  { eapply Forall_impl; [|exact Hnav]. intros kv Hkv. now apply Hrec. }
  split; [exact Ho|]. split.
  - rewrite Hw. clear Ho Hw.
    induction Hnav as [|kv m Hkv _ IH]; [reflexivity|].
    cbn [flat_map fst snd]. rewrite IH.
    destruct (Hrec (snd kv) Hkv) as [_ ->]. reflexivity.
  - rewrite logged_for_each_ok
      by (eapply Forall_impl; [|exact Hnav]; intros kv Hkv; now apply Hrec).
    clear Ho Hw.
    induction Hnav as [|kv m Hkv _ IH]; [reflexivity|].
    cbn [flat_map fst snd]. rewrite IH. f_equal.
    assert (Hd : diagnosed (nav_record doub2for p (snd kv)))
      by (unfold nav_record; diagnose).
    unfold diagnosed in Hd. rewrite Hd.
    destruct (Hrec (snd kv) Hkv) as [_ ->]. reflexivity.
Qed.

Lemma writers_with_unknown_version_witness :
  log_rinex_obs (printer_of_version 7) eph_prn5 100 sixteen_satellites = ret tt
  /\ outcome (log_rinex_nav doub2for_ref (printer_of_version 7) [(5, eph_prn5)]) = Ok tt
  /\ written (log_rinex_nav doub2for_ref (printer_of_version 7) [(5, eph_prn5)])
     = flat_map (fun kv =>
                   "" :: List.map (fun f => let '(f1, f2, f3, f4) := f in
                                            f1 ++ " " ++ f2 ++ " " ++ f3 ++ " " ++ f4)
                                  (orbit_fields doub2for_ref (snd kv)))
                [(5, eph_prn5)]
  /\ logged (log_rinex_nav doub2for_ref (printer_of_version 7) [(5, eph_prn5)])
     = flat_map (fun kv =>
                   diagnostic ""
                   :: List.map diagnostic
                        (bad_lines
                           (List.map (fun f => let '(f1, f2, f3, f4) := f in
                                               f1 ++ " " ++ f2 ++ " " ++ f3 ++ " " ++ f4)
                                     (orbit_fields doub2for_ref (snd kv)))))
                [(5, eph_prn5)].
Proof.
  apply (writers_with_unknown_version doub2for_ref (printer_of_version 7) eph_prn5 100
           sixteen_satellites [(5, eph_prn5)]).
  - discriminate.
  - discriminate.
  - vm_compute. reflexivity.
  - repeat constructor.
Defined.

(** X14. Whatever the block and the IODC of an ephemeris (a NaN
    included), the curve-fit interval written on broadcast-orbit line 7
    is one of 4, 8, 14, 26, 50, 74 and 98 hours. *)
Theorem curve_fit_interval_values eph :
  In (curve_fit_interval eph) [4; 8; 14; 26; 50; 74; 98]%float.
Proof.
  unfold curve_fit_interval. cbv zeta.
  repeat match goal with
         | |- context [if ?c then _ else _] => destruct c
         end; cbn [In]; tauto.
Qed.

(** ** Observation records *)

Lemma length_sat_ids p keys :
  String.length (str_at (satelliteSystem p) "GPS") = 1%nat ->
  Forall (fun k => 0 <= k <= 99) keys ->
  String.length (sat_ids p keys) = (3 * List.length keys)%nat.
Proof.
  intros HG. induction 1 as [|k keys Hk _ IH]; [reflexivity|].
  cbn [sat_ids List.length].
  rewrite TextFacts.length_append, (length_sat_id p k HG Hk), IH. lia.
Qed.

(** The number of satellites on three columns. *)
Lemma length_count n :
  (n <= 999)%nat ->
  String.length (rightJustify (Text.string_of_int (Z.of_nat n)) 3) = 3%nat.
Proof.
  intros H. apply length_rightJustify.
  pose proof (TextFacts.length_string_of_int_le (Z.of_nat n) 3) as Hle.
  change (10 ^ Z.of_nat 3) with 1000 in Hle. specialize (Hle ltac:(lia)).
  cbn in Hle. lia.
Qed.

(** An observation line of version 2 is always written, whatever the
    width of its values, and never logged. *)
Lemma obs_line_v2_one_line obs :
  outcome (obs_line_v2 obs) = Ok tt
  /\ List.length (written (obs_line_v2 obs)) = 1%nat
  /\ logged (obs_line_v2 obs) = [].
Proof.
  unfold obs_line_v2. cbv zeta.
  match goal with
  | |- context [(String.length ?l <? 80)%nat] => set (lineObs := l); clearbody lineObs
  end.
  destruct (Nat.ltb_spec (String.length lineObs) 80) as [Hlt|Hge].
  - rewrite (string_fill_fits 80 (String.length lineObs))
      by first [lia | change (Z.to_nat 80) with 80%nat; lia].
    rewrite lift_ok, !bind_ret_l. repeat split.
  - rewrite bind_ret_l. repeat split.
Qed.

(** The same in version 3. *)
Lemma obs_line_v3_one_line p prn obs :
  outcome (obs_line_v3 p prn obs) = Ok tt
  /\ List.length (written (obs_line_v3 p prn obs)) = 1%nat
  /\ logged (obs_line_v3 p prn obs) = [].
Proof.
  unfold obs_line_v3. cbv zeta.
  change (signalStrength 54) with (Some 9).
  change (0 =? 0) with true. cbv iota. rewrite bind_ret_l.
  change (9 =? 0) with false. cbv iota.
  match goal with
  | |- context [(String.length ?l <? 80)%nat] => set (lineObs := l); clearbody lineObs
  end.
  destruct (Nat.ltb_spec (String.length lineObs) 80) as [Hlt|Hge].
  - rewrite (string_fill_fits 80 (String.length lineObs))
      by first [lia | change (Z.to_nat 80) with 80%nat; lia].
    rewrite lift_ok, !bind_ret_l. repeat split.
  - rewrite bind_ret_l. repeat split.
Qed.

Lemma logged_bind {A B : Type} (m : run A) (k : A -> run B) (a : A) :
  outcome m = Ok a -> logged (bind m k) = (logged m ++ logged (k a))%list.
Proof. intros H. unfold bind. now rewrite H. Qed.

Lemma logged_for_each {V : Type} (m : std_map V) (body : Z -> V -> run unit) :
  (forall k v, logged (body k v) = []) -> logged (for_each m body) = [].
Proof.
  intros H. induction m as [|[k v] m IH]; [reflexivity|].
  cbn [for_each]. unfold bind. destruct (outcome (body k v)); cbn [logged].
  - now rewrite H, IH.
  - apply H.
Qed.

Lemma logged_check_and_put_80 line :
  String.length line = 80%nat -> logged (check_and_put line) = [].
Proof.
  intros H. unfold check_and_put, lengthCheck. rewrite H. reflexivity.
Qed.

Lemma length_flat_map_one {A B : Type} (f : A -> list B) (l : list A) :
  Forall (fun a => List.length (f a) = 1%nat) l ->
  List.length (flat_map f l) = List.length l.
Proof.
  induction 1 as [|a l Ha _ IH]; [reflexivity|].
  cbn [flat_map List.length]. rewrite length_app, Ha, IH. reflexivity.
Qed.

(** The record that follows an epoch line of at most 80 columns of
    content: the line filled to 80 columns, then one line per
    satellite, and nothing logged. *)
Lemma epoch_then_observations line pseudoranges (body : Z -> Gnss_Synchro -> run unit) :
  (String.length line <= 80)%nat ->
  (forall prn obs, outcome (body prn obs) = Ok tt
                   /\ List.length (written (body prn obs)) = 1%nat
                   /\ logged (body prn obs) = []) ->
  let r := (fill <- lift (string_fill (size_sub 80 (Z.of_nat (String.length line))) " ") ;;
            check_and_put (line ++ fill) ;;
            for_each pseudoranges body) in
  outcome r = Ok tt
  /\ List.length (written r) = S (List.length pseudoranges)
  /\ logged r = [].
Proof.
  intros Hlen Hbody. cbv zeta.
  rewrite (string_fill_fits 80 (String.length line))
    by first [lia | change (Z.to_nat 80) with 80%nat; exact Hlen].
  rewrite lift_ok, bind_ret_l.
  destruct (for_each_ok pseudoranges body) as [Ho Hw].
  { apply Forall_forall. intros kv _. apply Hbody. }
  rewrite outcome_put_then, written_put_then, Ho, Hw.
  split; [reflexivity|]. split.
  - cbn [List.length]. f_equal. apply length_flat_map_one.
    apply Forall_forall. intros kv _. apply Hbody.
  - rewrite (logged_bind _ _ tt (outcome_check_and_put _)).
    rewrite logged_check_and_put_80, logged_for_each; [reflexivity | |].
    + intros prn obs. apply Hbody.
    + rewrite TextFacts.length_append, TextFacts.length_spaces.
      change (Z.to_nat 80) with 80%nat. lia.
Qed.

(** X15. The version 2 epoch line holds sixteen satellites and no
    more.  For a time stamp that can be formed, seconds that print on 9
    or 10 characters, PRNs from 0 to 99 and a one-letter system code:
    with at most 16 satellites log_rinex_obs returns, writes the epoch
    line and one line per satellite and logs nothing; with 17 or more
    it ends in std::length_error and writes nothing at all. *)
Theorem log_rinex_obs_v2_satellite_limit p eph obs_time pseudoranges :
  version p = 2 ->
  String.length (str_at (satelliteSystem p) "GPS") = 1%nat ->
  is_ok (gps_timestring eph obs_time) = true ->
  (9 <= String.length (asString_double (fmod obs_time 60) 7) <= 10)%nat ->
  Forall (fun kv => 0 <= fst kv <= 99) pseudoranges ->
  (List.length pseudoranges <= 999)%nat ->
  if (List.length pseudoranges <=? 16)%nat
  then outcome (log_rinex_obs p eph obs_time pseudoranges) = Ok tt
       /\ List.length (written (log_rinex_obs p eph obs_time pseudoranges))
          = S (List.length pseudoranges)
       /\ logged (log_rinex_obs p eph obs_time pseudoranges) = []
  else log_rinex_obs p eph obs_time pseudoranges = raise length_error.
Proof.
  intros Hv HG Hts Hsec Hprn Hmax.
  assert (Hids : String.length (sat_ids p (map_keys pseudoranges))
                 = (3 * List.length pseudoranges)%nat).
  { unfold map_keys. rewrite length_sat_ids, length_map; [reflexivity | assumption |].
    apply Forall_map. exact Hprn. }
  pose proof (length_count _ Hmax) as Hcount.
  destruct (Nat.leb_spec (List.length pseudoranges) 16) as [Hn|Hn].
  - destruct (gps_timestring eph obs_time) as [ts|] eqn:E; [|discriminate].
    destruct (log_rinex_obs_v2_epoch p eph obs_time pseudoranges ts Hv E)
      as (yy & mo & dd & hh & nn & Hyy & Hmo & Hdd & Hhh & Hnn & ->).
    apply (epoch_then_observations _ pseudoranges (fun _ obs => obs_line_v2 obs)).
    + rewrite !TextFacts.length_append, Hyy, Hmo, Hdd, Hhh, Hnn, Hcount, Hids.
      cbn [String.length]. lia.
    + intros _ obs. apply obs_line_v2_one_line.
  - apply log_rinex_obs_v2_long_epoch_throws; try assumption.
    + rewrite Hcount, Hids. lia.
    + rewrite Hcount, Hids. change (2 ^ 62) with 4611686018427387904. lia.
Qed.

Lemma log_rinex_obs_v2_satellite_limit_witness :
  if (List.length seventeen_satellites <=? 16)%nat
  then outcome (log_rinex_obs (printer_of_version 2) eph_prn5 59.5 seventeen_satellites)
       = Ok tt
       /\ List.length (written (log_rinex_obs (printer_of_version 2) eph_prn5 59.5
                                  seventeen_satellites))
          = S (List.length seventeen_satellites)
       /\ logged (log_rinex_obs (printer_of_version 2) eph_prn5 59.5 seventeen_satellites)
          = []
  else log_rinex_obs (printer_of_version 2) eph_prn5 59.5 seventeen_satellites
       = raise length_error.
Proof.
  apply (log_rinex_obs_v2_satellite_limit (printer_of_version 2) eph_prn5 59.5
           seventeen_satellites).
  - reflexivity.
  - reflexivity.
  - vm_compute. reflexivity.
  - split; apply Nat.leb_le; vm_compute; reflexivity.
  - repeat constructor; cbn; lia.
  - cbn. lia.
Defined.

(** X16. Version 3 sets no such limit: its epoch line does not list
    the satellites, and for up to 999 of them, with any PRNs and
    values, log_rinex_obs returns, writes the epoch line and one line
    per satellite and logs nothing. *)
Theorem log_rinex_obs_v3_any_satellites p eph obs_time pseudoranges :
  version p = 3 ->
  is_ok (gps_timestring eph obs_time) = true ->
  (String.length (asString_double (fmod obs_time 60) 7) <= 10)%nat ->
  (List.length pseudoranges <= 999)%nat ->
  outcome (log_rinex_obs p eph obs_time pseudoranges) = Ok tt
  /\ List.length (written (log_rinex_obs p eph obs_time pseudoranges))
     = S (List.length pseudoranges)
  /\ logged (log_rinex_obs p eph obs_time pseudoranges) = [].
Proof.
  intros Hv Hts Hsec Hmax.
  pose proof (length_count _ Hmax) as Hcount.
  destruct (gps_timestring eph obs_time) as [ts|] eqn:E; [|discriminate].
  destruct (log_rinex_obs_v3_epoch p eph obs_time pseudoranges ts Hv E)
    as (yy & mo & dd & hh & nn & Hyy & Hmo & Hdd & Hhh & Hnn & ->).
  apply (epoch_then_observations _ pseudoranges (fun prn obs => obs_line_v3 p prn obs)).
  - rewrite !TextFacts.length_append, Hyy, Hmo, Hdd, Hhh, Hnn, Hcount.
    destruct (fmod obs_time 60 <? 10)%float; cbn [String.length]; lia.
  - intros prn obs. apply obs_line_v3_one_line.
Qed.

Lemma log_rinex_obs_v3_any_satellites_witness :
  outcome (log_rinex_obs (printer_of_version 3) eph_prn5 100 seventeen_satellites) = Ok tt
  /\ List.length (written (log_rinex_obs (printer_of_version 3) eph_prn5 100
                             seventeen_satellites))
     = S (List.length seventeen_satellites)
  /\ logged (log_rinex_obs (printer_of_version 3) eph_prn5 100 seventeen_satellites) = [].
Proof.
  apply (log_rinex_obs_v3_any_satellites (printer_of_version 3) eph_prn5 100
           seventeen_satellites).
  - reflexivity.
  - vm_compute. reflexivity.
  - apply Nat.leb_le. vm_compute. reflexivity.
  - cbn. lia.
Defined.

(** X17. An observation line of version 3 carries the satellite id,
    the pseudorange in F14.3, a blank loss-of-lock indicator and the
    signal strength 9, then blanks up to column 80: the strength is
    that of the constant 54 dB-Hz, and neither the carrier phase, the
    Doppler shift nor the measured C/N0 of the sample is written. *)
Theorem obs_line_v3_layout p prn obs :
  String.length (str_at (satelliteSystem p) "GPS") = 1%nat -> 0 <= prn <= 99 ->
  (String.length (asString_double (Pseudorange_m obs) 3) <= 14)%nat ->
  obs_line_v3 p prn obs
  = put_line (sat_id p prn ++ rightJustify (asString_double (Pseudorange_m obs) 3) 14
              ++ " " ++ "9" ++ Text.spaces 61).
Proof.
  intros HG Hprn Hfit.
  pose proof (length_sat_id p prn HG Hprn) as Hid.
  pose proof (length_rightJustify _ _ Hfit) as H1.
  unfold obs_line_v3. cbv zeta.
  change (signalStrength 54) with (Some 9).
  change (0 =? 0) with true. cbv iota. rewrite bind_ret_l.
  change (9 =? 0) with false. cbv iota.
  set (a := rightJustify (asString_double (Pseudorange_m obs) 3) 14) in *.
  clearbody a.
  assert (Hlen : String.length (((("" ++ sat_id p prn) ++ a) ++ Text.spaces 1)
                                ++ rightJustify (Text.string_of_int 9) 1) = 19%nat).
  { rewrite !TextFacts.length_append, Hid, H1. reflexivity. }
  rewrite Hlen. change (19 <? 80)%nat with true. cbv iota.
  change (string_fill (size_sub 80 (Z.of_nat 19)) " ") with (Ok (Text.spaces 61)).
  rewrite lift_ok, !bind_ret_l. f_equal.
  change (rightJustify (Text.string_of_int 9) 1) with "9".
  cbn [Text.spaces Text.replicate]. norm_app. reflexivity.
Qed.

Lemma obs_line_v3_layout_witness :
  obs_line_v3 (printer_of_version 3) 7 sample_obs
  = put_line (sat_id (printer_of_version 3) 7
              ++ rightJustify (asString_double (Pseudorange_m sample_obs) 3) 14
              ++ " " ++ "9" ++ Text.spaces 61).
Proof.
  apply (obs_line_v3_layout (printer_of_version 3) 7 sample_obs).
  - reflexivity.
  - lia.
  - apply Nat.leb_le. vm_compute. reflexivity.
Defined.

Lemma gps_timestring_week eph eph' t :
  Z.rem (i_GPS_week eph) 1024 = Z.rem (i_GPS_week eph') 1024 ->
  gps_timestring eph t = gps_timestring eph' t.
Proof. intros H. unfold gps_timestring, compute_GPS_time. now rewrite H. Qed.

(** X18. The observation writers read nothing of the ephemeris but its
    week number modulo 1024: two ephemerides whose weeks leave the same
    remainder, such as weeks 100 and 1124, give the same observation
    record and the same observation header, whatever else they hold. *)
Theorem log_rinex_obs_week_modulo p env eph eph' obs_time pseudoranges :
  Z.rem (i_GPS_week eph) 1024 = Z.rem (i_GPS_week eph') 1024 ->
  log_rinex_obs p eph obs_time pseudoranges = log_rinex_obs p eph' obs_time pseudoranges
  /\ rinex_obs_header p env eph obs_time = rinex_obs_header p env eph' obs_time.
Proof.
  intros H. unfold log_rinex_obs, rinex_obs_header.
  rewrite (gps_timestring_week eph eph' obs_time H). split; reflexivity.
Qed.

Lemma log_rinex_obs_week_modulo_witness :
  log_rinex_obs (printer_of_version 2) eph_prn5 100 sixteen_satellites
  = log_rinex_obs (printer_of_version 2) eph_week_1124 100 sixteen_satellites
  /\ rinex_obs_header (printer_of_version 2) env_2013 eph_prn5 100
     = rinex_obs_header (printer_of_version 2) env_2013 eph_week_1124 100.
Proof.
  apply (log_rinex_obs_week_modulo (printer_of_version 2) env_2013 eph_prn5
           eph_week_1124 100 sixteen_satellites).
  reflexivity.
Defined.

(** ** SBAS records *)

(** X19. For a message whose reception time is unknown or converts to
    a date, and a type below 100, log_rinex_sbs returns with three
    lines.  The second holds the first 18 bytes at most and is 80
    columns wide exactly when the message has 18 bytes or more; the
    third holds bytes 19 to 36 at most and is 80 columns wide exactly
    when the message has 32 bytes. *)
Theorem log_rinex_sbs_data_lines m :
  sbs_epoch_ok m = true -> 0 <= sbs_msg_type m <= 99 ->
  exists l1 l2 l3,
    outcome (log_rinex_sbs m) = Ok tt
    /\ written (log_rinex_sbs m) = [l1; l2; l3]
    /\ String.length l2 = (26 + 3 * Nat.min 18 (List.length (sbs_msg m)))%nat
    /\ String.length l3 = (38 + 3 * Nat.min 18 (List.length (sbs_msg m) - 18))%nat
    /\ (String.length l2 = 80%nat <-> (18 <= List.length (sbs_msg m))%nat)
    /\ (String.length l3 = 80%nat <-> List.length (sbs_msg m) = 32%nat).
Proof.
  unfold sbs_epoch_ok, log_rinex_sbs. intros He Ht.
  assert (Hepoch : exists epoch,
             match sbs_gps_time m with
             | Some (gps_week, gps_sec) => sbs_epoch gps_week gps_sec
             | None => Ok (Text.spaces 19)
             end = Ok epoch).
  { destruct (sbs_gps_time m) as [[w sec]|]; [|eauto].
    destruct (sbs_epoch w sec) as [e|]; [eauto | discriminate]. }
  destruct Hepoch as (epoch & ->).
  rewrite lift_ok, bind_ret_l.
  rewrite !outcome_put_then, !written_put_then, outcome_check_and_put,
    written_check_and_put.
  do 3 eexists. split; [reflexivity|]. split; [reflexivity|].
  assert (H2 : String.length
                 (" " ++ (if sbs_msg_type m <? 10 then " " else "")
                  ++ Text.string_of_int (sbs_msg_type m) ++ Text.spaces 4
                  ++ hex_bytes (firstn 18 (sbs_msg m)) ++ Text.spaces 19)
               = (26 + 3 * Nat.min 18 (List.length (sbs_msg m)))%nat).
  { rewrite TextFacts.length_append.
    rewrite <- (TextFacts.append_assoc (if sbs_msg_type m <? 10 then " " else "")).
    rewrite (TextFacts.length_append (_ ++ Text.string_of_int _)).
    rewrite length_string_of_int_small by lia.
    rewrite !TextFacts.length_append, length_hex_bytes, !TextFacts.length_spaces,
      length_firstn.
    cbn [String.length]. lia. }
  assert (H3 : String.length
                 (Text.spaces 7 ++ hex_bytes (firstn 18 (skipn 18 (sbs_msg m)))
                  ++ Text.spaces 31)
               = (38 + 3 * Nat.min 18 (List.length (sbs_msg m) - 18))%nat).
  { rewrite !TextFacts.length_append, length_hex_bytes, !TextFacts.length_spaces,
      length_firstn, length_skipn. lia. }
  rewrite H2, H3. repeat split; lia.
Qed.

Lemma log_rinex_sbs_data_lines_witness :
  exists l1 l2 l3,
    outcome (log_rinex_sbs sbas_36_bytes) = Ok tt
    /\ written (log_rinex_sbs sbas_36_bytes) = [l1; l2; l3]
    /\ String.length l2 = (26 + 3 * Nat.min 18 (List.length (sbs_msg sbas_36_bytes)))%nat
    /\ String.length l3
       = (38 + 3 * Nat.min 18 (List.length (sbs_msg sbas_36_bytes) - 18))%nat
    /\ (String.length l2 = 80%nat <-> (18 <= List.length (sbs_msg sbas_36_bytes))%nat)
    /\ (String.length l3 = 80%nat <-> List.length (sbs_msg sbas_36_bytes) = 32%nat).
Proof.
  apply (log_rinex_sbs_data_lines sbas_36_bytes).
  - reflexivity.
  - cbn. lia.
Defined.

(** X20. log_rinex_sbs prints the first 36 bytes of a message and no
    other: cutting the message after 36 bytes changes neither the
    outcome nor the two data lines (the first line still states the
    full length). *)
Theorem log_rinex_sbs_prints_36_bytes m :
  outcome (log_rinex_sbs (sbs_truncate 36 m)) = outcome (log_rinex_sbs m)
  /\ List.tl (written (log_rinex_sbs (sbs_truncate 36 m)))
     = List.tl (written (log_rinex_sbs m)).
Proof.
  unfold log_rinex_sbs, sbs_truncate.
  cbn [sbs_prn sbs_gps_time sbs_msg_type sbs_msg].
  destruct (match sbs_gps_time m with
            | Some (gps_week, gps_sec) => sbs_epoch gps_week gps_sec
            | None => Ok (Text.spaces 19)
            end) as [epoch|f]; [|split; reflexivity].
  rewrite !lift_ok, !bind_ret_l.
  rewrite !outcome_put_then, !written_put_then, !outcome_check_and_put,
    !written_check_and_put.
  split; [reflexivity|]. cbn [List.tl].
  rewrite firstn_firstn. change (Nat.min 18 36) with 18%nat.
  rewrite skipn_firstn_comm. change (36 - 18)%nat with 18%nat.
  rewrite firstn_firstn. change (Nat.min 18 18) with 18%nat.
  reflexivity.
Qed.

Lemma hex_digit_inj a b :
  0 <= a < 16 -> 0 <= b < 16 -> Text.hex_digit a = Text.hex_digit b -> a = b.
Proof.
  intros Ha Hb.
  assert (Ea : a = 0 \/ a = 1 \/ a = 2 \/ a = 3 \/ a = 4 \/ a = 5 \/ a = 6 \/ a = 7
               \/ a = 8 \/ a = 9 \/ a = 10 \/ a = 11 \/ a = 12 \/ a = 13 \/ a = 14
               \/ a = 15) by lia.
  assert (Eb : b = 0 \/ b = 1 \/ b = 2 \/ b = 3 \/ b = 4 \/ b = 5 \/ b = 6 \/ b = 7
               \/ b = 8 \/ b = 9 \/ b = 10 \/ b = 11 \/ b = 12 \/ b = 13 \/ b = 14
               \/ b = 15) by lia.
  clear Ha Hb.
  repeat destruct Ea as [->|Ea]; try subst a;
    repeat destruct Eb as [->|Eb]; try subst b;
    intros H; first [reflexivity | discriminate H].
Qed.

Lemma hex2_inj a b :
  0 <= a < 256 -> 0 <= b < 256 -> Text.hex2 a = Text.hex2 b -> a = b.
Proof.
  intros Ha Hb H. unfold Text.hex2 in H. injection H as H1 H2.
  apply hex_digit_inj in H1; [|Z.to_euclidean_division_equations; lia..].
  apply hex_digit_inj in H2; [|Z.to_euclidean_division_equations; lia..].
  rewrite (Z.div_mod a 16), (Z.div_mod b 16) by lia. congruence.
Qed.

(** X21. The hexadecimal rendering of the data lines loses nothing:
    two different sequences of bytes never print as the same text. *)
Theorem hex_bytes_injective l1 l2 :
  is_bytes l1 -> is_bytes l2 -> l1 <> l2 -> hex_bytes l1 <> hex_bytes l2.
Proof.
  unfold is_bytes. intros H1 H2 Hne E. apply Hne. clear Hne. revert l2 H2 E.
  induction H1 as [|a l1 Ha H1 IH]; intros l2 H2 E.
  - destruct l2; [reflexivity | discriminate E].
  - destruct H2 as [|b l2 Hb H2]; [discriminate E|].
    cbn [hex_bytes] in E. unfold Text.hex2 in E. cbn [String.append] in E.
    injection E as E1 E2 E3.
    f_equal.
    + apply hex2_inj; [assumption..|]. unfold Text.hex2. congruence.
    + now apply IH.
Qed.

Lemma hex_bytes_injective_witness : hex_bytes [0; 10; 255] <> hex_bytes [0; 11; 255].
Proof.
  apply (hex_bytes_injective [0; 10; 255] [0; 11; 255]).
  - repeat constructor; lia.
  - repeat constructor; lia.
  - discriminate.
Defined.

(** ** to_date_time on every instant *)

(** With a negative second count the year loop stops at once. *)
Lemma year_loop_exit fuel y rem :
  rem < 0 -> year_loop (S fuel) y rem = Some (y, leap_test y, rem).
Proof.
  intros H. cbn [year_loop].
  assert (Hs : ((if leap_test y then secs_per_leap_year else secs_per_normal_year) <=? rem)
               = false).
  { apply Z.leb_gt.
    destruct (leap_test y);
      [change secs_per_leap_year with 31622400
      |change secs_per_normal_year with 31536000]; lia. }
  now rewrite Hs.
Qed.

(** And so does the month loop. *)
Lemma month_loop_exit fuel leap rem :
  rem < 0 -> month_loop (S fuel) leap 1 rem = Some (1, rem).
Proof.
  intros H. rewrite month_loop_unfold. cbn [nth_error days_per_month Z.to_nat Z.sub].
  change (Z.to_nat (1 - 1)) with 0%nat. cbn [nth_error days_per_month].
  change (1 =? 2) with false. rewrite andb_false_r.
  assert (Hs : (31 * secs_per_day <=? rem) = false)
    by (apply Z.leb_gt; change (31 * secs_per_day) with 2678400; lia).
  now rewrite Hs.
Qed.

(** X22. to_date_time returns for every week and time of week, of
    either sign, whose second count fits an [int]: both loops end, the
    table of month lengths is never read outside its twelve entries,
    the year lies between 1980 and 2048 and the month between 1 and 12.
    From 1 January 1980 00:00 on (five days before the GPS epoch) the
    result is the calendar date of the instant; before it, the result
    is no date: year 1980, month 1 and a day, hour, minute and second
    that are zero or negative. *)
Theorem to_date_time_total gps_week gps_tow :
  Cpp.INT_MIN <= gps_week * 604800 <= Cpp.INT_MAX ->
  Cpp.INT_MIN <= gps_week * 604800 + gps_tow <= Cpp.INT_MAX ->
  Cpp.INT_MIN <= gps_week * 604800 + gps_tow + 432000 <= Cpp.INT_MAX ->
  exists dt,
    to_date_time gps_week gps_tow = Some dt
    /\ 1980 <= dt_year dt <= 2048
    /\ 1 <= dt_month dt <= 12
    /\ (if gps_week * 604800 + gps_tow + 432000 <? 0
        then dt_year dt = 1980 /\ dt_month dt = 1 /\ dt_day dt <= 1
             /\ dt_hour dt <= 0 /\ dt_minute dt <= 0 /\ dt_second dt <= 0
        else Calendar.valid dt
             /\ Calendar.gps_seconds dt = gps_week * 604800 + gps_tow).
Proof.
  intros H1 H2 H3. unfold Cpp.INT_MIN, Cpp.INT_MAX in *.
  unfold to_date_time.
  change secs_per_week with 604800. change secs_per_day with 86400.
  rewrite (CppFacts.wrap32_id (gps_week * 604800))
    by (unfold Cpp.INT_MIN, Cpp.INT_MAX; lia).
  rewrite (CppFacts.wrap32_id (gps_week * 604800 + gps_tow))
    by (unfold Cpp.INT_MIN, Cpp.INT_MAX; lia).
  rewrite (CppFacts.wrap32_id (gps_week * 604800 + gps_tow + 5 * 86400))
    by (unfold Cpp.INT_MIN, Cpp.INT_MAX; lia).
  change (5 * 86400) with 432000.
  set (secs := gps_week * 604800 + gps_tow) in *. clearbody secs.
  set (r := secs + 432000) in *.
  destruct (Z.ltb_spec r 0) as [Hneg|Hpos].
  - rewrite year_loop_exit by assumption.
    rewrite month_loop_exit by assumption.
    eexists. split; [reflexivity|].
    cbn [dt_year dt_month dt_day dt_hour dt_minute dt_second].
    split; [lia|]. split; [lia|].
    assert (Hq : -24856 <= Z.quot r 86400 <= 0)
      by (Z.to_euclidean_division_equations; lia).
    rewrite CppFacts.wrap32_id by (unfold Cpp.INT_MIN, Cpp.INT_MAX; lia).
    repeat split; try lia; Z.to_euclidean_division_equations; lia.
  - destruct (year_loop_total 100 1980 r) as [[[y leap] rem] Hy].
    { unfold Cpp.INT_MIN, Cpp.INT_MAX; lia. }
    { change secs_per_normal_year with 31536000. lia. }
    { lia. }
    rewrite Hy.
    apply year_loop_spec in Hy; [| lia | unfold Cpp.INT_MAX; lia | unfold Cpp.INT_MAX; lia].
    destruct Hy as (Hy1 & -> & Hrem & Hsum).
    pose proof (days_in_year_pos y) as Hdiy.
    destruct (month_loop_spec (Calendar.is_leap y) 13 1 rem)
      as (m & rem' & Hm & Hm1 & Hm2 & Hm3).
    { lia. } { lia. } { unfold Cpp.INT_MAX; lia. }
    { rewrite month_offset_1. unfold Calendar.days_in_year in Hrem. lia. }
    rewrite Hm. rewrite month_offset_1 in Hm2.
    eexists. split; [reflexivity|].
    assert (Hlen : 28 <= Calendar.month_length (Calendar.is_leap y) m <= 31).
    { unfold Calendar.month_length.
      repeat match goal with |- context [if ?c then _ else _] => destruct c end; lia. }
    assert (Hyear : y <= 2048).
    { unfold Calendar.days_before_year in Hsum.
      Z.to_euclidean_division_equations; lia. }
    unfold Calendar.valid, Calendar.gps_seconds, Calendar.rata_die,
      Calendar.days_before_month, Calendar.days_in_month.
    cbn [dt_year dt_month dt_day dt_hour dt_minute dt_second].
    rewrite month_offset_1.
    set (L := Calendar.month_length (Calendar.is_leap y) m) in *.
    set (O := Calendar.month_offset (Calendar.is_leap y) m) in *.
    set (Y := Calendar.days_before_year y) in *.
    set (Y0 := Calendar.days_before_year 1980) in *.
    assert (Hq : Z.quot rem' 86400 = rem' / 86400) by (apply Z.quot_div_nonneg; lia).
    assert (Hr : Z.rem rem' 86400 = rem' mod 86400) by (apply Z.rem_mod_nonneg; lia).
    rewrite Hq, Hr.
    pose proof (Z.mod_pos_bound rem' 86400 ltac:(lia)) as Htod.
    set (tod := rem' mod 86400) in *.
    assert (Hday : rem' = 86400 * (rem' / 86400) + tod)
      by (subst tod; apply Z.div_mod; lia).
    set (dq := rem' / 86400) in *.
    rewrite !Z.quot_div_nonneg, !Z.rem_mod_nonneg by lia.
    rewrite CppFacts.wrap32_id by (unfold Cpp.INT_MIN, Cpp.INT_MAX; lia).
    subst r.
    repeat split; try lia; Z.to_euclidean_division_equations; lia.
Qed.

Lemma to_date_time_total_witness :
  exists dt,
    to_date_time (-1) 0 = Some dt
    /\ 1980 <= dt_year dt <= 2048
    /\ 1 <= dt_month dt <= 12
    /\ (if (-1) * 604800 + 0 + 432000 <? 0
        then dt_year dt = 1980 /\ dt_month dt = 1 /\ dt_day dt <= 1
             /\ dt_hour dt <= 0 /\ dt_minute dt <= 0 /\ dt_second dt <= 0
        else Calendar.valid dt
             /\ Calendar.gps_seconds dt = (-1) * 604800 + 0).
Proof.
  apply (to_date_time_total (-1) 0); unfold Cpp.INT_MIN, Cpp.INT_MAX; lia.
Defined.

(** The week before the GPS epoch starts on 30 December 1979, which
    comes back as day -1 of January 1980. *)
Example to_date_time_before_1980 :
  to_date_time (-1) 0 = Some (mkDateTime 1980 1 (-1) 0 0 0).
Proof. vm_compute. reflexivity. Qed.
